(** * PayStore STK backend: the push-initiation and callback handlers

    A shallow embedding of the Cloud Functions entry point (the handlers
    [stkPush] and [darajaCallback] with their helpers), followed by the
    properties proved about it.  The callable functions of the ISP sync
    are embedded in a module of their own, [OneIsp].

    Conventions of the embedding.
    - A JavaScript string is the list of its UTF-16 code units.
    - A JavaScript value is a term of [value]; numbers are the integers
      (exact on the safe-integer range) together with [NaN]; fractions
      and integers beyond that range are not represented.  Where a
      theorem speaks of the number a request leads to, it carries that
      range as a hypothesis ([safe_integer], [exact]).
    - The conversion of request, answer and stored data to text may
      throw (an object with an own [toString]); it is [ToString], which
      gives the text [js_toString] when it goes through.  The values
      of the configuration bundle (the environment, the fallback
      document) are texts or numbers, and are converted by
      [js_toString] directly.
    - The handlers are [async] functions whose awaits run one after the
      other; they are written in a state-and-exception monad [M].  A run
      goes from a state (the document store, a counter, the error
      console) to an outcome, the state it leaves, and the outbound
      operations it issued, in order.
    - Everything the handlers cannot decide themselves (the process
      environment, what the HTTP peers answer, whether the store accepts
      an operation, generated document ids, the clocks, the JSON
      printer) is read from a [world]; the theorems quantify over it. *)

From Stdlib Require Import String Ascii DecimalString ZArith List Bool Lia.
Import ListNotations.
Open Scope Z_scope.

(* ================================================================== *)
(** ** JavaScript strings *)
(* ================================================================== *)

Module JsString.

Definition jsstring := list Z.

(** A literal of the source, code unit by code unit. *)
Definition lit (s : string) : jsstring :=
  map (fun a => Z.of_N (N_of_ascii a)) (list_ascii_of_string s).

Fixpoint str_eqb (a b : jsstring) : bool :=
  match a, b with
  | [], [] => true
  | x :: a', y :: b' => (x =? y) && str_eqb a' b'
  | _, _ => false
  end.

Definition is_empty (s : jsstring) : bool :=
  match s with [] => true | _ => false end.

(** [\d]: the ten ASCII digits. *)
Definition is_digit (c : Z) : bool := (48 <=? c) && (c <=? 57).

(** White space and line terminators, as [String.prototype.trim] and
    [parseInt] skip them. *)
Definition is_space (c : Z) : bool :=
  ((9 <=? c) && (c <=? 13)) || (c =? 32) || (c =? 160) || (c =? 5760)
  || ((8192 <=? c) && (c <=? 8202)) || (c =? 8232) || (c =? 8233)
  || (c =? 8239) || (c =? 8287) || (c =? 12288) || (c =? 65279).

Fixpoint drop_while (p : Z -> bool) (s : jsstring) : jsstring :=
  match s with
  | [] => []
  | c :: t => if p c then drop_while p t else s
  end.

(** [s.trim()] *)
Definition trim (s : jsstring) : jsstring :=
  rev (drop_while is_space (rev (drop_while is_space s))).

(** [s.startsWith(p)] *)
Fixpoint startsWith (s p : jsstring) {struct p} : bool :=
  match p, s with
  | [], _ => true
  | x :: p', y :: s' => (x =? y) && startsWith s' p'
  | _ :: _, [] => false
  end.

(** [s.substring(n)] for [n] within the string. *)
Definition substring (n : nat) (s : jsstring) : jsstring := skipn n s.

(** [s.includes(p)] *)
Fixpoint includes (s p : jsstring) : bool :=
  startsWith s p ||
  match s with
  | [] => false
  | _ :: t => includes t p
  end.

(** [s.replace(p, r)] for a string pattern [p] and a replacement [r]
    without [$]: the first occurrence only. *)
Fixpoint js_replace (s p r : jsstring) : jsstring :=
  if startsWith s p then r ++ skipn (length p) s
  else match s with
       | [] => []
       | c :: t => c :: js_replace t p r
       end.

(** [s.padStart(n, c)] for a one-unit filler. *)
Definition padStart (n : nat) (c : Z) (s : jsstring) : jsstring :=
  repeat c (n - length s) ++ s.

(** The decimal rendering of an integer ([Number.prototype.toString]). *)
Definition dec (n : Z) : jsstring := lit (NilZero.string_of_int (Z.to_int n)).

(** *** UTF-8 bytes of a string ([Buffer.from(s)]) *)

Definition is_high (c : Z) : bool := (55296 <=? c) && (c <=? 56319).
Definition is_low (c : Z) : bool := (56320 <=? c) && (c <=? 57343).

Definition utf8_1 (c : Z) : list Z := [c].
Definition utf8_2 (c : Z) : list Z := [192 + c / 64; 128 + c mod 64].
Definition utf8_3 (c : Z) : list Z :=
  [224 + c / 4096; 128 + (c / 64) mod 64; 128 + c mod 64].
Definition utf8_4 (p : Z) : list Z :=
  [240 + p / 262144; 128 + (p / 4096) mod 64; 128 + (p / 64) mod 64;
   128 + p mod 64].

(** The code point of a surrogate pair. *)
Definition pair_point (hi lo : Z) : Z :=
  65536 + (hi - 55296) * 1024 + (lo - 56320).

(** U+FFFD, which stands for a surrogate without its partner. *)
Definition replacement : list Z := [239; 191; 189].

Fixpoint utf8 (s : jsstring) : list Z :=
  match s with
  | [] => []
  | c :: t =>
      if c <? 128 then utf8_1 c ++ utf8 t
      else if c <? 2048 then utf8_2 c ++ utf8 t
      else if is_high c then
        match t with
        | d :: t' =>
            if is_low d then utf8_4 (pair_point c d) ++ utf8 t'
            else replacement ++ utf8 t
        | [] => replacement
        end
      else if is_low c then replacement ++ utf8 t
      else utf8_3 c ++ utf8 t
  end.

(** *** Base64 ([buf.toString('base64')]) *)

(** The character of a six-bit group in the standard alphabet. *)
Definition b64 (i : Z) : Z :=
  if i <? 26 then 65 + i
  else if i <? 52 then 97 + (i - 26)
  else if i <? 62 then 48 + (i - 52)
  else if i =? 62 then 43
  else 47.

Definition pad : Z := 61.

Fixpoint base64 (bytes : list Z) : jsstring :=
  match bytes with
  | [] => []
  | [a] => [b64 (a / 4); b64 (a mod 4 * 16); pad; pad]
  | [a; b] =>
      [b64 (a / 4); b64 (a mod 4 * 16 + b / 16); b64 (b mod 16 * 4); pad]
  | a :: b :: c :: rest =>
      b64 (a / 4) :: b64 (a mod 4 * 16 + b / 16)
      :: b64 (b mod 16 * 4 + c / 64) :: b64 (c mod 64) :: base64 rest
  end.

(** Strings the theorems restrict themselves to: every unit is a 16-bit
    value and every surrogate stands in a pair. *)
Fixpoint well_formed (s : jsstring) : bool :=
  match s with
  | [] => true
  | c :: t =>
      if is_high c then
        match t with
        | d :: t' => is_low d && well_formed t'
        | [] => false
        end
      else (0 <=? c) && (c <? 65536) && negb (is_low c) && well_formed t
  end.

End JsString.
Export JsString.

(* ================================================================== *)
(** ** JavaScript values *)
(* ================================================================== *)

Module JsValue.

(** The values that travel through the handlers: what [JSON.parse]
    yields, [undefined], [NaN], and the timestamps the store keeps. *)
#[warnings="-register-all"]
Inductive value : Type :=
| VUndefined
| VNull
| VBool (b : bool)
| VNum (n : Z)
| VNaN
| VStr (s : jsstring)
| VArr (items : list value)
| VObj (fields : list (jsstring * value))
| VTime (t : Z).

(** [!!v] *)
Definition truthy (v : value) : bool :=
  match v with
  | VUndefined | VNull | VNaN => false
  | VBool b => b
  | VNum n => negb (n =? 0)
  | VStr s => negb (is_empty s)
  | _ => true
  end.

(** [a || b] and [a && b] on operands without effects. *)
Definition js_or (a b : value) : value := if truthy a then a else b.
Definition js_and (a b : value) : value := if truthy a then b else a.

Fixpoint lookup (k : jsstring) (fields : list (jsstring * value)) : value :=
  match fields with
  | [] => VUndefined
  | (k', v) :: rest => if str_eqb k k' then v else lookup k rest
  end.

(** [v.k] for a value that is neither [null] nor [undefined] and a name
    [k] that no prototype defines (every name the handlers read is such
    a name): the own property of an object, [undefined] elsewhere. *)
Definition prop (v : value) (k : jsstring) : value :=
  match v with
  | VObj fields => lookup k fields
  | _ => VUndefined
  end.

(** [Object.keys(v).length] *)
Definition keys_length (v : value) : Z :=
  match v with
  | VObj fields => Z.of_nat (length fields)
  | VArr items => Z.of_nat (length items)
  | VStr s => Z.of_nat (length s)
  | _ => 0
  end.

(** The text of [String(v)], which is also that of [v.toString()] on a
    value that has the method, of [`${v}`] and of the operand
    conversion of [string + v], whenever that conversion goes through
    ([converts]); the conversion itself, which may throw, is [ToString]
    below.  A number prints as its decimal digits, which is what the
    language does on the safe integers. *)
Fixpoint js_toString (v : value) : jsstring :=
  match v with
  | VUndefined => lit "undefined"
  | VNull => lit "null"
  | VBool true => lit "true"
  | VBool false => lit "false"
  | VNum n => dec n
  | VNaN => lit "NaN"
  | VStr s => s
  | VArr items =>
      (fix join (l : list value) : jsstring :=
         match l with
         | [] => []
         | x :: r =>
             let e := match x with
                      | VUndefined | VNull => []
                      | _ => js_toString x
                      end in
             match r with
             | [] => e
             | _ :: _ => e ++ lit "," ++ join r
             end
         end) items
  | VObj _ | VTime _ => lit "[object Object]"
  end.

(** Whether an object has the own property [k]. *)
Fixpoint own (k : jsstring) (fields : list (jsstring * value)) : bool :=
  match fields with
  | [] => false
  | (k', _) :: rest => str_eqb k k' || own k rest
  end.

(** Whether the conversion of [v] to text goes through.  The values of
    requests, answers and documents hold no function; so an own
    [toString] of an object is not callable, its [valueOf] gives back
    the object, and the conversion throws a TypeError.  It throws also
    when such an object is an element of an array, at any depth.  On
    every other value it gives [js_toString v]. *)
Fixpoint converts (v : value) : bool :=
  match v with
  | VObj fields => negb (own (lit "toString") fields)
  | VArr items =>
      (fix all (l : list value) : bool :=
         match l with
         | [] => true
         | x :: r => converts x && all r
         end) items
  | _ => true
  end.

(** The safe integers: the numbers of the language that are the
    integers they stand for, and print as their decimal digits. *)
Definition safe_integer (z : Z) : bool :=
  (-9007199254740991 <=? z) && (z <=? 9007199254740991).

(** The values on which the embedding is exact: every number in them
    is a safe integer. *)
Fixpoint exact (v : value) : bool :=
  match v with
  | VNum n => safe_integer n
  | VArr items =>
      (fix all (l : list value) : bool :=
         match l with
         | [] => true
         | x :: r => exact x && all r
         end) items
  | VObj fields =>
      (fix all (l : list (jsstring * value)) : bool :=
         match l with
         | [] => true
         | (_, x) :: r => exact x && all r
         end) fields
  | _ => true
  end.

(** Structural equality: [===] between primitives and the store's [==]
    filter. *)
Fixpoint value_eqb (a b : value) : bool :=
  match a, b with
  | VUndefined, VUndefined | VNull, VNull | VNaN, VNaN => true
  | VBool x, VBool y => Bool.eqb x y
  | VNum x, VNum y => x =? y
  | VTime x, VTime y => x =? y
  | VStr x, VStr y => str_eqb x y
  | VArr x, VArr y =>
      (fix all2 (l1 l2 : list value) : bool :=
         match l1, l2 with
         | [], [] => true
         | u :: l1', v :: l2' => value_eqb u v && all2 l1' l2'
         | _, _ => false
         end) x y
  | VObj x, VObj y =>
      (fix all2 (l1 l2 : list (jsstring * value)) : bool :=
         match l1, l2 with
         | [], [] => true
         | (j, u) :: l1', (k, v) :: l2' =>
             str_eqb j k && value_eqb u v && all2 l1' l2'
         | _, _ => false
         end) x y
  | _, _ => false
  end.

(** [v === 0] *)
Definition is_zero (v : value) : bool :=
  match v with VNum n => n =? 0 | _ => false end.

(** The value of a run of decimal digits. *)
Fixpoint digits_value (acc : Z) (s : jsstring) : Z :=
  match s with
  | [] => acc
  | c :: t => digits_value (10 * acc + (c - 48)) t
  end.

Fixpoint take_while (p : Z -> bool) (s : jsstring) : jsstring :=
  match s with
  | [] => []
  | c :: t => if p c then c :: take_while p t else []
  end.

(** The number [parseInt(v, 10)] reads from the text of [v]: leading
    white space skipped, an optional sign, then the longest run of
    digits; [NaN] when that run is empty.  This is the result of the
    call when the conversion of [v] goes through ([parseInt_call]
    below is the call), and it is the number of the language when it
    is a safe integer; beyond, the language rounds. *)
Definition parseInt (v : value) : value :=
  let s := drop_while is_space (js_toString v) in
  let '(sign, rest) :=
    match s with
    | c :: t => if c =? 45 then (-1, t) else if c =? 43 then (1, t) else (1, s)
    | [] => (1, s)
    end in
  match take_while is_digit rest with
  | [] => VNaN
  | ds => VNum (sign * digits_value 0 ds)
  end.

End JsValue.
Export JsValue.

(* ================================================================== *)
(** ** The runtime: exceptions, the document store, the outside world *)
(* ================================================================== *)

Module Runtime.

(** A thrown [Error] object. *)
Record exn : Type := { name : jsstring; message : jsstring }.

(** [new Error(m)] *)
Definition Error (m : jsstring) : exn := {| name := lit "Error"; message := m |}.

(** What the engine throws when a method is called on a value that does
    not have it. *)
Definition TypeError (m : jsstring) : exn :=
  {| name := lit "TypeError"; message := m |}.

(** [String(err)] *)
Definition exn_toString (e : exn) : jsstring :=
  if is_empty (message e) then name e
  else if is_empty (name e) then message e
  else name e ++ lit ": " ++ message e.

Inductive outcome (A : Type) : Type :=
| Ok (a : A)
| Throw (e : exn).
Arguments Ok {A} a.
Arguments Throw {A} e.

Definition and_then {A B} (o : outcome A) (k : A -> outcome B) : outcome B :=
  match o with
  | Ok a => k a
  | Throw e => Throw e
  end.

(** *** Conversions that may throw *)

Definition not_primitive : exn :=
  TypeError (lit "Cannot convert object to primitive value").

(** [String(v)] and [`${v}`] *)
Definition ToString (v : value) : outcome jsstring :=
  if converts v then Ok (js_toString v) else Throw not_primitive.

(** [v.toString()] on a value that is neither [null] nor [undefined]:
    an own [toString] of an object is not a function ([callee] is the
    callee as the engine prints it); every other value has the method
    of its kind. *)
Definition toString_method (callee : jsstring) (v : value) : outcome jsstring :=
  match v with
  | VObj fields =>
      if own (lit "toString") fields
      then Throw (TypeError (callee ++ lit " is not a function"))
      else Ok (js_toString v)
  | _ => ToString v
  end.

(** [parseInt(v, 10)], which converts its argument first. *)
Definition parseInt_call (v : value) : outcome value :=
  and_then (ToString v) (fun _ => Ok (parseInt v)).

(** *** The document store *)

Inductive collection : Type := app_config | payments_pending | payments_results.

(** The documents of a collection, each an id with its data, in the
    order in which a query returns them. *)
Definition documents := list (value * value).

Record store : Type := {
  config_docs : documents;
  pending_docs : documents;
  result_docs : documents
}.

Definition docs (c : collection) (s : store) : documents :=
  match c with
  | app_config => config_docs s
  | payments_pending => pending_docs s
  | payments_results => result_docs s
  end.

Definition with_docs (c : collection) (d : documents) (s : store) : store :=
  match c with
  | app_config =>
      {| config_docs := d; pending_docs := pending_docs s; result_docs := result_docs s |}
  | payments_pending =>
      {| config_docs := config_docs s; pending_docs := d; result_docs := result_docs s |}
  | payments_results =>
      {| config_docs := config_docs s; pending_docs := pending_docs s; result_docs := d |}
  end.

Fixpoint find_doc (id : value) (d : documents) : option value :=
  match d with
  | [] => None
  | (id', data) :: rest => if value_eqb id id' then Some data else find_doc id rest
  end.

(** [set]: the document is replaced as a whole, or created. *)
Fixpoint put_doc (id data : value) (d : documents) : documents :=
  match d with
  | [] => [(id, data)]
  | (id', old) :: rest =>
      if value_eqb id id' then (id', data) :: rest
      else (id', old) :: put_doc id data rest
  end.

Fixpoint set_field (k : jsstring) (v : value) (fields : list (jsstring * value))
  : list (jsstring * value) :=
  match fields with
  | [] => [(k, v)]
  | (k', old) :: rest =>
      if str_eqb k k' then (k', v) :: rest else (k', old) :: set_field k v rest
  end.

(** [update]: the named fields are written into the document, the
    others stay. *)
Definition merge (old : value) (changes : list (jsstring * value)) : value :=
  match old with
  | VObj fields =>
      VObj (fold_left (fun acc kv => set_field (fst kv) (snd kv) acc) changes fields)
  | _ => VObj changes
  end.

(** The first document whose field [k] equals [v] ([where(k,'==',v).limit(1)]). *)
Fixpoint first_where (k : jsstring) (v : value) (d : documents) : option value :=
  match d with
  | [] => None
  | (id, data) :: rest =>
      if value_eqb (prop data k) v then Some id else first_where k v rest
  end.

(** What a handler hands to [set] and [update]: fields that are values
    or the [FieldValue.serverTimestamp()] sentinel, which the store
    replaces by its own time. *)
Inductive field : Type :=
| Plain (v : value)
| ServerTimestamp.

Definition record := list (jsstring * field).

Definition stamp (t : Z) (data : record) : list (jsstring * value) :=
  map (fun kv => (fst kv, match snd kv with
                          | Plain v => v
                          | ServerTimestamp => VTime t
                          end)) data.

(** *** The outside world *)

Inductive http_request : Type :=
| GET (url : value) (authorization : jsstring)
| POST (url : value) (body : value) (authorization : jsstring).

(** axios is called with [validateStatus: () => true]: every answer
    that carries a status resolves; only a transport failure throws. *)
Inductive http_result : Type :=
| Response (status : Z) (data : value)
| Failure (e : exn).

(** What [new Date()] is asked for. *)
Record date : Type := {
  UTCFullYear : Z; UTCMonth : Z; UTCDate : Z;
  UTCHours : Z; UTCMinutes : Z; UTCSeconds : Z
}.

(** Outbound operations, each with what came back. *)
Inductive event : Type :=
| DocGet (c : collection) (id : value) (refused : option exn)
| DocSet (c : collection) (id : value) (data : record) (refused : option exn)
| DocUpdate (c : collection) (id : value) (changes : record) (refused : option exn)
| DocQuery (c : collection) (key : jsstring) (v : value) (refused : option exn)
| Http (request : http_request) (result : http_result).

(** Everything a handler reads from outside itself.  The [nat] is the
    number of reads made so far, so that two calls may be answered
    differently.  [store_refuses] says with what error the store client
    rejects an operation, for whatever reason (an argument it does not
    take, a service that is down); [JSON_stringify] is the built-in
    printer. *)
Record world : Type := {
  env : list (jsstring * jsstring);
  http : nat -> http_request -> http_result;
  store_refuses : nat -> option exn;
  auto_id : nat -> jsstring;
  wall_clock : nat -> date;
  server_clock : nat -> Z;
  JSON_stringify : value -> jsstring
}.

Record state : Type := {
  db : store;
  tick : nat;
  console : list exn
}.

(** *** The monad of the handlers *)

(** A computation runs from a state to an outcome, the state it leaves,
    and the outbound operations it issued, first to last. *)
Definition M (A : Type) : Type := state -> outcome A * state * list event.

Definition ret {A} (a : A) : M A := fun st => (Ok a, st, []).

Definition throw {A} (e : exn) : M A := fun st => (Throw e, st, []).

Definition bind {A B} (m : M A) (k : A -> M B) : M B :=
  fun st =>
    match m st with
    | (Ok a, st1, ev1) =>
        match k a st1 with
        | (r, st2, ev2) => (r, st2, ev1 ++ ev2)
        end
    | (Throw e, st1, ev1) => (Throw e, st1, ev1)
    end.

Definition try_catch {A} (m : M A) (handler : exn -> M A) : M A :=
  fun st =>
    match m st with
    | (Ok a, st1, ev1) => (Ok a, st1, ev1)
    | (Throw e, st1, ev1) =>
        match handler e st1 with
        | (r, st2, ev2) => (r, st2, ev1 ++ ev2)
        end
    end.

Definition lift {A} (o : outcome A) : M A := fun st => (o, st, []).

Definition next (st : state) : state :=
  {| db := db st; tick := S (tick st); console := console st |}.

Definition with_db (s : store) (st : state) : state :=
  {| db := s; tick := tick st; console := console st |}.

(** [console.error(..., err)] *)
Definition console_error (e : exn) : M unit :=
  fun st => (Ok tt, {| db := db st; tick := tick st; console := console st ++ [e] |}, []).

(** [await axios.get(...)] and [await axios.post(...)]: status and data
    of the answer. *)
Definition axios (w : world) (r : http_request) : M (Z * value) :=
  fun st =>
    let res := http w (tick st) r in
    match res with
    | Response status data => (Ok (status, data), next st, [Http r res])
    | Failure e => (Throw e, next st, [Http r res])
    end.

(** [await db.collection(c).doc(id).get()]: the data of the snapshot,
    [None] when it does not exist. *)
Definition doc_get (w : world) (c : collection) (id : value) : M (option value) :=
  fun st =>
    match store_refuses w (tick st) with
    | Some e => (Throw e, next st, [DocGet c id (Some e)])
    | None => (Ok (find_doc id (docs c (db st))), next st, [DocGet c id None])
    end.

(** [db.collection(c).doc()]: a reference with a generated id. *)
Definition doc_new (w : world) (c : collection) : M value :=
  fun st => (Ok (VStr (auto_id w (tick st))), next st, []).

Definition write_doc (c : collection) (id data : value) (st : state) : state :=
  with_db (with_docs c (put_doc id data (docs c (db st))) (db st)) (next st).

(** [await db.collection(c).doc(id).set(data)] *)
Definition doc_set (w : world) (c : collection) (id : value) (data : record) : M unit :=
  fun st =>
    match store_refuses w (tick st) with
    | Some e => (Throw e, next st, [DocSet c id data (Some e)])
    | None =>
        (Ok tt, write_doc c id (VObj (stamp (server_clock w (tick st)) data)) st,
         [DocSet c id data None])
    end.

Definition not_found : exn := Error (lit "5 NOT_FOUND: No document to update").

(** [await ref.update(changes)]: refused when the document is gone. *)
Definition doc_update (w : world) (c : collection) (id : value) (changes : record)
  : M unit :=
  fun st =>
    match store_refuses w (tick st), find_doc id (docs c (db st)) with
    | Some e, _ => (Throw e, next st, [DocUpdate c id changes (Some e)])
    | None, None => (Throw not_found, next st, [DocUpdate c id changes (Some not_found)])
    | None, Some old =>
        (Ok tt,
         write_doc c id (merge old (stamp (server_clock w (tick st)) changes)) st,
         [DocUpdate c id changes None])
    end.

(** [await db.collection(c).where(k,'==',v).limit(1).get()]: the
    reference of [q.docs[0]], [None] when [q.empty]. *)
Definition doc_query (w : world) (c : collection) (k : jsstring) (v : value)
  : M (option value) :=
  fun st =>
    match store_refuses w (tick st) with
    | Some e => (Throw e, next st, [DocQuery c k v (Some e)])
    | None => (Ok (first_where k v (docs c (db st))), next st, [DocQuery c k v None])
    end.

(** [new Date()] *)
Definition new_Date (w : world) : M date :=
  fun st => (Ok (wall_clock w (tick st)), next st, []).

End Runtime.
Export Runtime.

Declare Scope js_scope.
Notation "x <- m ;; k" := (bind m (fun x => k))
  (at level 61, m at next level, right associativity) : js_scope.
Notation "m ;;; k" := (bind m (fun _ => k))
  (at level 61, right associativity) : js_scope.
Open Scope js_scope.

(* ================================================================== *)
(** ** The entry point: helpers and handlers *)
(* ================================================================== *)

Module Daraja.

(** *** Helpers *)

(** [/^0[7]\d{8}$/], [/^[7]\d{8}$/] and [/^254[7]\d{8}$/] *)
Definition digits8 (s : jsstring) : bool :=
  (length s =? 8)%nat && forallb is_digit s.

Definition re_local (s : jsstring) : bool :=
  match s with
  | c0 :: c1 :: r => (c0 =? 48) && (c1 =? 55) && digits8 r
  | _ => false
  end.

Definition re_bare (s : jsstring) : bool :=
  match s with
  | c0 :: r => (c0 =? 55) && digits8 r
  | _ => false
  end.

Definition re_intl (s : jsstring) : bool :=
  match s with
  | c0 :: c1 :: c2 :: c3 :: r =>
      (c0 =? 50) && (c1 =? 53) && (c2 =? 52) && (c3 =? 55) && digits8 r
  | _ => false
  end.

(** The callee of line 22 as the engine prints it:
    [(raw || "").toString]. *)
Definition phone_callee : jsstring :=
  lit "(raw || " ++ [34; 34] ++ lit ").toString".

Definition normalizePhoneForDaraja (raw : value) : outcome jsstring :=
  and_then (toString_method phone_callee (js_or raw (VStr [])))
    (fun text =>
       let s0 := trim text in
       if is_empty s0 then Throw (Error (lit "Phone is empty"))
       else
         let s := if startsWith s0 (lit "+") then substring 1 s0 else s0 in
         let s := filter is_digit s in
         if re_local s then Ok (lit "254" ++ substring 1 s)
         else if re_bare s then Ok (lit "254" ++ s)
         else if re_intl s then Ok s
         else Throw (Error (lit "Unsupported phone format: " ++ js_toString raw))).

Definition format_date (now : date) : jsstring :=
  let yyyy := padStart 4 48 (dec (UTCFullYear now)) in
  let mm := padStart 2 48 (dec (UTCMonth now + 1)) in
  let dd := padStart 2 48 (dec (UTCDate now)) in
  let hh := padStart 2 48 (dec (UTCHours now)) in
  let min := padStart 2 48 (dec (UTCMinutes now)) in
  let ss := padStart 2 48 (dec (UTCSeconds now)) in
  yyyy ++ mm ++ dd ++ hh ++ min ++ ss.

Definition utcTimestamp (w : world) : M jsstring :=
  now <- new_Date w ;;
  ret (format_date now).

(** [paybill] and [timestamp] are strings at the only call; [passkey]
    is converted by the concatenation. *)
Definition makePassword (paybill : jsstring) (passkey : value) (timestamp : jsstring)
  : jsstring :=
  let raw := paybill ++ js_toString passkey ++ timestamp in
  base64 (utf8 raw).

Record config : Type := {
  consumerKey : value;
  consumerSecret : value;
  passkey : value;
  paybill : jsstring;
  oauthurl : value;
  stkurl : value;
  callbackurl : value
}.

Definition loadDarajaConfigFromFirestore (w : world) : M (option config) :=
  snap <- doc_get w app_config (VStr (lit "daraja")) ;;
  match snap with
  | None => ret None
  | Some data =>
      let have :=
        js_and (js_and (js_and (js_and (js_and (js_and (js_and data
          (prop data (lit "consumerKey")))
          (prop data (lit "consumerSecret")))
          (prop data (lit "passkey")))
          (prop data (lit "paybill")))
          (prop data (lit "oauthurl")))
          (prop data (lit "stkurl")))
          (prop data (lit "callbackurl")) in
      if negb (truthy have) then ret None
      else ret (Some {|
        consumerKey := prop data (lit "consumerKey");
        consumerSecret := prop data (lit "consumerSecret");
        passkey := prop data (lit "passkey");
        paybill := js_toString (prop data (lit "paybill"));
        oauthurl := prop data (lit "oauthurl");
        stkurl := prop data (lit "stkurl");
        callbackurl := prop data (lit "callbackurl")
      |})
  end.

Fixpoint env_lookup (k : jsstring) (e : list (jsstring * jsstring)) : value :=
  match e with
  | [] => VUndefined
  | (k', v) :: rest => if str_eqb k k' then VStr v else env_lookup k rest
  end.

(** [process.env.k] *)
Definition getenv (w : world) (k : string) : value := env_lookup (lit k) (env w).

Definition config_missing : exn :=
  Error (lit "Daraja config missing. Set secrets or populate app_config/daraja in Firestore.").

Definition getDarajaConfig (w : world) : M config :=
  if truthy (js_and (js_and (js_and (js_and (js_and (js_and
       (getenv w "DARAJA_CONSUMER_KEY")
       (getenv w "DARAJA_CONSUMER_SECRET"))
       (getenv w "DARAJA_PASSKEY"))
       (getenv w "DARAJA_PAYBILL"))
       (getenv w "DARAJA_OAUTHURL"))
       (getenv w "DARAJA_STKURL"))
       (getenv w "DARAJA_CALLBACKURL"))
  then ret {|
    consumerKey := getenv w "DARAJA_CONSUMER_KEY";
    consumerSecret := getenv w "DARAJA_CONSUMER_SECRET";
    passkey := getenv w "DARAJA_PASSKEY";
    paybill := js_toString (getenv w "DARAJA_PAYBILL");
    oauthurl := getenv w "DARAJA_OAUTHURL";
    stkurl := getenv w "DARAJA_STKURL";
    callbackurl := getenv w "DARAJA_CALLBACKURL"
  |}
  else
    fsCfg <- loadDarajaConfigFromFirestore w ;;
    match fsCfg with
    | Some cfg => ret cfg
    | None => throw config_missing
    end.

Definition oauth_error (w : world) (status : Z) (data : value) : exn :=
  let body := if truthy data then JSON_stringify w data else [] in
  Error (lit "daraja-oauth-error:status " ++ dec status ++ lit " " ++ body).

Definition getDarajaToken (w : world) (oauthurl consumerKey consumerSecret : value)
  : M value :=
  let creds :=
    base64 (utf8 (js_toString consumerKey ++ lit ":" ++ js_toString consumerSecret)) in
  resp <- axios w (GET oauthurl (lit "Basic " ++ creds)) ;;
  let '(status, data) := resp in
  if (200 <=? status) && (status <? 300) && truthy data
     && truthy (prop data (lit "access_token"))
  then ret (prop data (lit "access_token"))
  else throw (oauth_error w status data).

(** *** Handlers *)

Record request : Type := {
  method : jsstring;
  body : value;
  query : list (jsstring * value)
}.

Inductive payload : Type :=
| Text (s : jsstring)
| Json (v : value).

Record response : Type := {
  status : Z;
  headers : list (jsstring * jsstring);
  sent : payload
}.

(** [res.setHeader('Access-Control-Allow-Origin','*')] comes first in
    both handlers. *)
Definition cors : list (jsstring * jsstring) :=
  [(lit "Access-Control-Allow-Origin", lit "*")].

Definition send (code : Z) (s : jsstring) : response :=
  {| status := code; headers := cors; sent := Text s |}.

Definition json (code : Z) (v : value) : response :=
  {| status := code; headers := cors; sent := Json v |}.

(** [err && err.message ? err.message : String(err)] *)
Definition details (e : exn) : jsstring :=
  if is_empty (message e) then exn_toString e else message e.

Definition production_host : jsstring := lit "api.safaricom.co.ke".
Definition sandbox_host : jsstring := lit "sandbox.safaricom.co.ke".

(** [url.includes(host)]: strings and arrays have the method. *)
Definition call_includes (url : value) (host : jsstring) : outcome bool :=
  match url with
  | VStr s => Ok (includes s host)
  | VArr items => Ok (existsb (fun x => value_eqb x (VStr host)) items)
  | _ => Throw (TypeError (lit "cfg.oauthurl.includes is not a function"))
  end.

(** [url.replace(host, other)]: only strings have the method. *)
Definition call_replace (url : value) (host other : jsstring) : outcome value :=
  match url with
  | VStr s => Ok (VStr (js_replace s host other))
  | _ => Throw (TypeError (lit "cfg.oauthurl.replace is not a function"))
  end.

(** The token block of [stkPush]: the inner [try] with its [catch]. *)
Definition stkPush_token (w : world) (cfg : config) : M value :=
  try_catch
    (getDarajaToken w (oauthurl cfg) (consumerKey cfg) (consumerSecret cfg))
    (fun err =>
       production <-
         (if truthy (oauthurl cfg)
          then lift (call_includes (oauthurl cfg) production_host)
          else ret false) ;;
       if production : bool then
         sandbox <- lift (call_replace (oauthurl cfg) production_host sandbox_host) ;;
         getDarajaToken w sandbox (consumerKey cfg) (consumerSecret cfg)
       else throw err).

Definition stkBody_of (cfg : config) (body : value) (phone : jsstring) (amount : value)
  (password timestamp : jsstring) : value :=
  VObj [
    (lit "BusinessShortCode", VStr (paybill cfg));
    (lit "Password", VStr password);
    (lit "Timestamp", VStr timestamp);
    (lit "TransactionType", VStr (lit "CustomerPayBillOnline"));
    (lit "Amount", amount);
    (lit "PartyA", VStr phone);
    (lit "PartyB", VStr (paybill cfg));
    (lit "PhoneNumber", VStr phone);
    (lit "CallBackURL", callbackurl cfg);
    (lit "AccountReference", js_or (prop body (lit "accountRef")) (VStr phone));
    (lit "TransactionDesc", js_or (prop body (lit "description")) (VStr (lit "Payment")))
  ].

(** The document written before the push call. *)
Definition pending_record (body : value) (phone : jsstring) (amount stkBody : value)
  : record :=
  [ (lit "uid", Plain (js_or (prop body (lit "uid")) VNull));
    (lit "msisdn", Plain (VStr phone));
    (lit "amount", Plain amount);
    (lit "checkoutRequestId", Plain VNull);
    (lit "createdAt", ServerTimestamp);
    (lit "status", Plain (VStr (lit "initiated")));
    (lit "requestBody", Plain stkBody)
  ].

(** [resp.data.CheckoutRequestID || resp.data.checkoutRequestID ||
    resp.data.CheckoutRequestId || null], [null] without [resp.data]. *)
Definition push_checkoutRequestId (resp_data : value) : value :=
  if truthy resp_data
  then js_or (js_or (js_or (prop resp_data (lit "CheckoutRequestID"))
                           (prop resp_data (lit "checkoutRequestID")))
                    (prop resp_data (lit "CheckoutRequestId")))
             VNull
  else VNull.

(** [resp.status >= 200 && resp.status < 300 ? 'pending' : 'failed'] *)
Definition push_status (resp_status : Z) : jsstring :=
  if (200 <=? resp_status) && (resp_status <? 300) then lit "pending" else lit "failed".

(** The fields written after the push call. *)
Definition push_update (resp_status : Z) (resp_data : value) : record :=
  [ (lit "checkoutRequestId", Plain (push_checkoutRequestId resp_data));
    (lit "status", Plain (VStr (push_status resp_status)));
    (lit "responseStatus", Plain (VNum resp_status));
    (lit "responseBody", Plain (js_or resp_data VNull));
    (lit "updatedAt", ServerTimestamp)
  ].

(** The answer of [stkPush] once the push call resolved. *)
Definition push_answer (resp_status : Z) (resp_data : value) : value :=
  VObj [
    (lit "ok", VBool true);
    (lit "status", VNum resp_status);
    (lit "data", js_or resp_data VNull);
    (lit "checkoutRequestId", push_checkoutRequestId resp_data)
  ].

(** [(req.body && Object.keys(req.body).length) ? req.body : req.query] *)
Definition request_fields (req : request) : value :=
  if truthy (body req) && negb (keys_length (body req) =? 0)
  then body req else VObj (query req).

(** The body of the [try] of [stkPush]. *)
Definition stkPush_try (w : world) (req : request) : M response :=
  let body := request_fields req in
  let phoneRaw := prop body (lit "phone") in
  amount <- lift (parseInt_call (prop body (lit "amount"))) ;;
  if negb (truthy phoneRaw) || negb (truthy amount)
  then ret (json 400 (VObj [(lit "error", VStr (lit "phone and amount required"))]))
  else
    cfg <- getDarajaConfig w ;;
    token <- stkPush_token w cfg ;;
    phone <- lift (normalizePhoneForDaraja phoneRaw) ;;
    timestamp <- utcTimestamp w ;;
    let password := makePassword (paybill cfg) (passkey cfg) timestamp in
    let stkBody := stkBody_of cfg body phone amount password timestamp in
    pendingRef <- doc_new w payments_pending ;;
    doc_set w payments_pending pendingRef (pending_record body phone amount stkBody) ;;;
    bearer <- lift (ToString token) ;;
    resp <- axios w (POST (stkurl cfg) stkBody (lit "Bearer " ++ bearer)) ;;
    let '(resp_status, resp_data) := resp in
    doc_update w payments_pending pendingRef (push_update resp_status resp_data) ;;;
    ret (json 200 (push_answer resp_status resp_data)).

Definition stkPush (w : world) (req : request) : M response :=
  if str_eqb (method req) (lit "OPTIONS") then ret (send 204 [])
  else
    try_catch (stkPush_try w req)
      (fun err =>
         console_error err ;;;
         ret (json 502 (VObj [
           (lit "error", VStr (lit "stk_push_failed"));
           (lit "details", VStr (details err))
         ]))).

(** The three fields read from the notification. *)
Definition callback_payload (body : value) : value :=
  if truthy (js_and (prop body (lit "Body"))
                    (prop (prop body (lit "Body")) (lit "stkCallback")))
  then prop (prop body (lit "Body")) (lit "stkCallback")
  else js_or (js_or (prop body (lit "StkCallback")) (prop body (lit "stkCallback"))) body.

Definition callback_checkoutRequestId (payload : value) : value :=
  js_or (js_or (prop payload (lit "CheckoutRequestID"))
               (prop payload (lit "checkoutRequestID"))) VNull.

Definition callback_resultCode (payload : value) : value :=
  js_or (js_or (prop payload (lit "ResultCode")) (prop payload (lit "resultCode"))) VNull.

Definition callback_resultDesc (payload : value) : value :=
  js_or (js_or (prop payload (lit "ResultDesc")) (prop payload (lit "resultDesc"))) VNull.

(** The document written for every notification. *)
Definition callback_record (body : value) : record :=
  let payload := callback_payload body in
  [ (lit "raw", Plain body);
    (lit "checkoutRequestId", Plain (callback_checkoutRequestId payload));
    (lit "resultCode", Plain (callback_resultCode payload));
    (lit "resultDesc", Plain (callback_resultDesc payload));
    (lit "receivedAt", ServerTimestamp)
  ].

(** [resultCode === 0 ? 'success' : 'failed'] *)
Definition callback_status (resultCode : value) : jsstring :=
  if is_zero resultCode then lit "success" else lit "failed".

(** The fields written into the pending transaction. *)
Definition callback_update (payload : value) : record :=
  [ (lit "status", Plain (VStr (callback_status (callback_resultCode payload))));
    (lit "resultCode", Plain (callback_resultCode payload));
    (lit "resultDesc", Plain (callback_resultDesc payload));
    (lit "callbackAt", ServerTimestamp)
  ].

(** The body of the [try] of [darajaCallback]. *)
Definition darajaCallback_try (w : world) (req : request) : M response :=
  let body := js_or (body req) (VObj []) in
  let payload := callback_payload body in
  let checkoutRequestId := callback_checkoutRequestId payload in
  docId <-
    (if truthy checkoutRequestId then ret checkoutRequestId
     else doc_new w payments_results) ;;
  doc_set w payments_results docId (callback_record body) ;;;
  (if truthy checkoutRequestId then
     q <- doc_query w payments_pending (lit "checkoutRequestId") checkoutRequestId ;;
     match q with
     | Some pdoc => doc_update w payments_pending pdoc (callback_update payload)
     | None => ret tt
     end
   else ret tt) ;;;
  ret (send 200 (lit "OK")).

Definition darajaCallback (w : world) (req : request) : M response :=
  if str_eqb (method req) (lit "OPTIONS") then ret (send 204 [])
  else
    try_catch (darajaCallback_try w req)
      (fun err =>
         console_error err ;;;
         ret (send 500 (lit "error"))).

End Daraja.
Export Daraja.

(* ================================================================== *)
(** ** The statements of the specification, in its own words *)
(* ================================================================== *)

Module Spec.

(** "strips a leading '+' and all non-digit characters" *)
Definition strip_plus (s : jsstring) : jsstring :=
  match s with
  | c :: t => if c =? 43 then t else s
  | [] => []
  end.

Definition stripped (raw : jsstring) : jsstring := filter is_digit (strip_plus raw).

(** "[n] digits" *)
Definition digits (n : nat) (x : jsstring) : Prop :=
  length x = n /\ Forall (fun c => 48 <= c <= 57) x.

(** "0 7 followed by 8 digits", "7 followed by 8 digits" and
    "254 7 followed by 8 digits" *)
Definition local_shape (d : jsstring) : Prop :=
  exists x, d = 48 :: 55 :: x /\ digits 8 x.
Definition bare_shape (d : jsstring) : Prop :=
  exists x, d = 55 :: x /\ digits 8 x.
Definition international_shape (d : jsstring) : Prop :=
  exists x, d = 50 :: 53 :: 52 :: 55 :: x /\ digits 8 x.

Definition unsupported (raw : jsstring) : exn :=
  Error (lit "Unsupported phone format: " ++ raw).

(** What the specification says of the normalization of [raw]. *)
Definition normalization_as_specified (raw : jsstring) : Prop :=
  let d := stripped raw in
  (local_shape d -> normalizePhoneForDaraja (VStr raw) = Ok (lit "254" ++ tl d)) /\
  (bare_shape d -> normalizePhoneForDaraja (VStr raw) = Ok (lit "254" ++ d)) /\
  (international_shape d -> normalizePhoneForDaraja (VStr raw) = Ok d) /\
  (~ local_shape d -> ~ bare_shape d -> ~ international_shape d ->
   normalizePhoneForDaraja (VStr raw) = Throw (unsupported raw)).

(** "within normal value ranges": a short code of digits, a passkey of
    letters and digits, a timestamp of fourteen digits. *)
Definition is_alnum (c : Z) : bool :=
  is_digit c || ((65 <=? c) && (c <=? 90)) || ((97 <=? c) && (c <=? 122)).

Definition normal_triple (shortCode passkey timestamp : jsstring) : bool :=
  negb (is_empty shortCode) && forallb is_digit shortCode
  && negb (is_empty passkey) && forallb is_alnum passkey
  && (length timestamp =? 14)%nat && forallb is_digit timestamp.

(** "any two distinct triples within normal value ranges produce
    distinct outputs" *)
Definition password_injective_as_specified : Prop :=
  forall sc pk ts sc' pk' ts',
    normal_triple sc pk ts = true -> normal_triple sc' pk' ts' = true ->
    (sc, pk, ts) <> (sc', pk', ts') ->
    makePassword sc (VStr pk) ts <> makePassword sc' (VStr pk') ts'.

(** What an outbound operation was refused with, if it was. *)
Definition refusal (e : event) : option exn :=
  match e with
  | DocGet _ _ r | DocSet _ _ _ r | DocUpdate _ _ _ r | DocQuery _ _ _ r => r
  | Http _ (Failure x) => Some x
  | Http _ (Response _ _) => None
  end.

Definition accepted (e : event) : Prop := refusal e = None.

(** The reconciliation step of the callback: the lookup of the pending
    transaction and its update. *)
Definition is_reconciliation (e : event) : Prop :=
  match e with
  | DocQuery payments_pending _ _ _ | DocUpdate payments_pending _ _ _ => True
  | _ => False
  end.

(** A read: the fallback document or a token request. *)
Definition is_fetch (e : event) : Prop :=
  match e with
  | DocGet _ _ _ | Http (GET _ _) _ => True
  | _ => False
  end.

(** "all seven named environment values are present": set and not
    empty. *)
Definition env_names : list string :=
  ["DARAJA_CONSUMER_KEY"; "DARAJA_CONSUMER_SECRET"; "DARAJA_PASSKEY";
   "DARAJA_PAYBILL"; "DARAJA_OAUTHURL"; "DARAJA_STKURL"; "DARAJA_CALLBACKURL"]%string.

Definition env_complete (w : world) : bool :=
  forallb (fun k => truthy (getenv w k)) env_names.

(** "its seven fields ... all are present" *)
Definition doc_fields : list jsstring :=
  [lit "consumerKey"; lit "consumerSecret"; lit "passkey"; lit "paybill";
   lit "oauthurl"; lit "stkurl"; lit "callbackurl"].

Definition doc_complete (data : value) : bool :=
  forallb (fun k => truthy (prop data k)) doc_fields.


Definition is_update (e : event) : Prop :=
  match e with
  | DocUpdate _ _ _ _ => True
  | _ => False
  end.

(** The number read from [v], when there is one, is a safe integer:
    it is then the number the language reads. *)
Definition in_safe_range (v : value) : bool :=
  match parseInt v with
  | VNum z => safe_integer z
  | _ => true
  end.

End Spec.
Export Spec.

(* ================================================================== *)
(** ** Concrete inputs *)
(* ================================================================== *)

Module Sample.

(** Two credential triples that split one text at different places. *)
Definition short_code_a : jsstring := lit "174379".
Definition passkey_a : jsstring :=
  lit "0bfb279f9aa9bdbcf158e97dd71a467cd2e0c893059b10f78e6b72ada1ed2c91".
Definition short_code_b : jsstring := lit "1743790".
Definition passkey_b : jsstring :=
  lit "bfb279f9aa9bdbcf158e97dd71a467cd2e0c893059b10f78e6b72ada1ed2c91".
Definition timestamp_ab : jsstring := lit "20240105090307".

(** A deployment configured through the environment, whose peers answer
    200 and whose store accepts everything. *)
Definition environment : list (jsstring * jsstring) := [
  (lit "DARAJA_CONSUMER_KEY", lit "key");
  (lit "DARAJA_CONSUMER_SECRET", lit "secret");
  (lit "DARAJA_PASSKEY", lit "passkey");
  (lit "DARAJA_PAYBILL", lit "174379");
  (lit "DARAJA_OAUTHURL", lit "https://api.safaricom.co.ke/oauth/v1/generate");
  (lit "DARAJA_STKURL", lit "https://api.safaricom.co.ke/mpesa/stkpush/v1/processrequest");
  (lit "DARAJA_CALLBACKURL", lit "https://example.org/darajaCallback")
].

Definition token_answer : http_result :=
  Response 200 (VObj [(lit "access_token", VStr (lit "token"))]).

Definition push_answer_200 : http_result :=
  Response 200 (VObj [(lit "CheckoutRequestID", VStr (lit "abc123"))]).

Definition morning : date :=
  {| UTCFullYear := 2024; UTCMonth := 0; UTCDate := 5;
     UTCHours := 9; UTCMinutes := 3; UTCSeconds := 7 |}.

Definition happy_world : world := {|
  env := environment;
  http := fun _ r => match r with
                     | GET _ _ => token_answer
                     | POST _ _ _ => push_answer_200
                     end;
  store_refuses := fun _ => None;
  auto_id := fun n => lit "generated-" ++ dec (Z.of_nat n);
  wall_clock := fun _ => morning;
  server_clock := fun n => 1704445387 + Z.of_nat n;
  JSON_stringify := fun _ => lit "{}"
|}.

Definition empty_store : store :=
  {| config_docs := []; pending_docs := []; result_docs := [] |}.

Definition fresh_state : state := {| db := empty_store; tick := 0; console := [] |}.

Definition post (fields : list (jsstring * value)) : request :=
  {| method := lit "POST"; body := VObj fields; query := [] |}.

(** The notification of the second end-to-end scenario. *)
Definition success_callback : request :=
  post [(lit "Body", VObj [(lit "stkCallback", VObj [
          (lit "CheckoutRequestID", VStr (lit "abc123"));
          (lit "ResultCode", VNum 0);
          (lit "ResultDesc", VStr (lit "Success"))])])].

(** A store with one pending transaction waiting for that notification. *)
Definition pending_abc123 : value :=
  VObj [(lit "uid", VNull);
        (lit "msisdn", VStr (lit "254712345678"));
        (lit "amount", VNum 100);
        (lit "checkoutRequestId", VStr (lit "abc123"));
        (lit "status", VStr (lit "pending"))].

Definition waiting_state : state :=
  {| db := {| config_docs := [];
              pending_docs := [(VStr (lit "p1"), pending_abc123)];
              result_docs := [] |};
     tick := 0; console := [] |}.

(** A notification that no pending transaction waits for. *)
Definition unknown_callback : request :=
  post [(lit "CheckoutRequestID", VStr (lit "zzz999"));
        (lit "ResultCode", VNum 1032);
        (lit "ResultDesc", VStr (lit "Request cancelled by user"))].

(** A store that accepts the first operation and refuses the second. *)
Definition unavailable : exn := Error (lit "14 UNAVAILABLE").

Definition flaky_world : world := {|
  env := environment;
  http := http happy_world;
  store_refuses := fun n => match n with 1%nat => Some unavailable | _ => None end;
  auto_id := auto_id happy_world;
  wall_clock := wall_clock happy_world;
  server_clock := server_clock happy_world;
  JSON_stringify := JSON_stringify happy_world
|}.

(** The first end-to-end scenario, the same with a negative amount, and
    the same with a phone of blanks. *)
Definition push_request : request :=
  post [(lit "phone", VStr (lit "0712345678")); (lit "amount", VStr (lit "100"))].

Definition negative_request : request :=
  post [(lit "phone", VStr (lit "0712345678")); (lit "amount", VStr (lit "-5"))].

Definition blank_phone_request : request :=
  post [(lit "phone", VStr (lit "   ")); (lit "amount", VStr (lit "100"))].

Definition letters_phone_request : request :=
  post [(lit "phone", VStr (lit "call me")); (lit "amount", VStr (lit "100"))].

Definition empty_phone_request : request :=
  post [(lit "phone", VStr (lit "")); (lit "amount", VStr (lit "100"))].

(** A request whose amount is the object [{toString: 1}], and whose
    phone is empty. *)
Definition unconvertible_amount_request : request :=
  post [(lit "phone", VStr []); (lit "amount", VObj [(lit "toString", VNum 1)])].

(** A deployment whose push endpoint answers 500. *)
Definition push_answer_500 : http_result :=
  Response 500 (VObj [(lit "errorCode", VStr (lit "500.001.1001"));
                      (lit "errorMessage", VStr (lit "Unable to lock subscriber"))]).

Definition upstream_rejects : world := {|
  env := environment;
  http := fun _ r => match r with
                     | GET _ _ => token_answer
                     | POST _ _ _ => push_answer_500
                     end;
  store_refuses := fun _ => None;
  auto_id := auto_id happy_world;
  wall_clock := wall_clock happy_world;
  server_clock := server_clock happy_world;
  JSON_stringify := JSON_stringify happy_world
|}.



Definition production_config : config := {|
  consumerKey := VStr (lit "key");
  consumerSecret := VStr (lit "secret");
  passkey := VStr (lit "passkey");
  paybill := lit "174379";
  oauthurl := VStr (lit "https://api.safaricom.co.ke/oauth/v1/generate");
  stkurl := VStr (lit "https://api.safaricom.co.ke/mpesa/stkpush/v1/processrequest");
  callbackurl := VStr (lit "https://example.org/darajaCallback")
|}.

(** A deployment without environment values, configured through the
    fallback document, in which the short code is kept as a number. *)
Definition fallback_doc : value :=
  VObj [(lit "consumerKey", VStr (lit "key"));
        (lit "consumerSecret", VStr (lit "secret"));
        (lit "passkey", VStr (lit "passkey"));
        (lit "paybill", VNum 174379);
        (lit "oauthurl", VStr (lit "https://sandbox.safaricom.co.ke/oauth/v1/generate"));
        (lit "stkurl", VStr (lit "https://sandbox.safaricom.co.ke/mpesa/stkpush/v1/processrequest"));
        (lit "callbackurl", VStr (lit "https://example.org/darajaCallback"))].

Definition fallback_world : world := {|
  env := [];
  http := http happy_world;
  store_refuses := fun _ => None;
  auto_id := auto_id happy_world;
  wall_clock := wall_clock happy_world;
  server_clock := server_clock happy_world;
  JSON_stringify := JSON_stringify happy_world
|}.

Definition fallback_state : state :=
  {| db := {| config_docs := [(VStr (lit "daraja"), fallback_doc)];
              pending_docs := []; result_docs := [] |};
     tick := 0; console := [] |}.

End Sample.

(* ================================================================== *)
(** ** The shapes of encodings and of runs *)
(* ================================================================== *)

Module Shape.

Definition is_byte (b : Z) : Prop := 0 <= b < 256.

(** The number of bytes a lead byte announces. *)
Definition lead_kind (b : Z) : nat :=
  if b <? 128 then 1 else if b <? 224 then 2 else if b <? 240 then 3 else 4.

(** The shape of the encoding of a well-formed string: a first unit (or
    pair) with its bytes, then the encoding of the rest. *)
Inductive utf8_head : nat -> jsstring -> list Z -> jsstring -> Prop :=
| head_1 c t : 0 <= c < 128 -> well_formed t = true ->
    utf8_head 1 (c :: t) (utf8_1 c) t
| head_2 c t : 128 <= c < 2048 -> well_formed t = true ->
    utf8_head 2 (c :: t) (utf8_2 c) t
| head_3 c t : 2048 <= c < 65536 -> well_formed t = true ->
    utf8_head 3 (c :: t) (utf8_3 c) t
| head_4 c d t : 55296 <= c <= 56319 -> 56320 <= d <= 57343 -> well_formed t = true ->
    utf8_head 4 (c :: d :: t) (utf8_4 (pair_point c d)) t.

(** The [Authorization] header of the token request. *)
Definition basic (cfg : config) : jsstring :=
  lit "Basic " ++
  base64 (utf8 (js_toString (consumerKey cfg) ++ lit ":" ++ js_toString (consumerSecret cfg))).

(** The tail of [stkPush] from the first write on. *)
Definition push_commit (w : world) (cfg : config) (body : value) (phone : jsstring)
  (amount stkBody token pendingRef : value) : M response :=
  doc_set w payments_pending pendingRef (pending_record body phone amount stkBody) ;;;
  bearer <- lift (ToString token) ;;
  resp <- axios w (POST (stkurl cfg) stkBody (lit "Bearer " ++ bearer)) ;;
  let '(resp_status, resp_data) := resp in
  doc_update w payments_pending pendingRef (push_update resp_status resp_data) ;;;
  ret (json 200 (push_answer resp_status resp_data)).

(** Its five runs. *)
Inductive commit_run (w : world) (cfg : config) (body : value) (phone : jsstring)
  (amount stkBody token ref : value) (st : state)
  : outcome response -> state -> list event -> Prop :=
| commit_set_refused e st' :
    db st' = db st ->
    commit_run w cfg body phone amount stkBody token ref st
      (Throw e) st'
      [DocSet payments_pending ref (pending_record body phone amount stkBody) (Some e)]
| commit_token_unusable t st' :
    converts token = false ->
    pending_docs (db st') =
      put_doc ref (VObj (stamp t (pending_record body phone amount stkBody)))
        (pending_docs (db st)) ->
    commit_run w cfg body phone amount stkBody token ref st
      (Throw not_primitive) st'
      [DocSet payments_pending ref (pending_record body phone amount stkBody) None]
| commit_post_failed e t st' :
    pending_docs (db st') =
      put_doc ref (VObj (stamp t (pending_record body phone amount stkBody)))
        (pending_docs (db st)) ->
    commit_run w cfg body phone amount stkBody token ref st
      (Throw e) st'
      [DocSet payments_pending ref (pending_record body phone amount stkBody) None;
       Http (POST (stkurl cfg) stkBody (lit "Bearer " ++ js_toString token)) (Failure e)]
| commit_update_refused status data e t st' :
    pending_docs (db st') =
      put_doc ref (VObj (stamp t (pending_record body phone amount stkBody)))
        (pending_docs (db st)) ->
    commit_run w cfg body phone amount stkBody token ref st
      (Throw e) st'
      [DocSet payments_pending ref (pending_record body phone amount stkBody) None;
       Http (POST (stkurl cfg) stkBody (lit "Bearer " ++ js_toString token))
            (Response status data);
       DocUpdate payments_pending ref (push_update status data) (Some e)]
| commit_done status data t t' st' :
    find_doc ref (pending_docs (db st')) =
      Some (merge (VObj (stamp t (pending_record body phone amount stkBody)))
                  (stamp t' (push_update status data))) ->
    commit_run w cfg body phone amount stkBody token ref st
      (Ok (json 200 (push_answer status data))) st'
      [DocSet payments_pending ref (pending_record body phone amount stkBody) None;
       Http (POST (stkurl cfg) stkBody (lit "Bearer " ++ js_toString token))
            (Response status data);
       DocUpdate payments_pending ref (push_update status data) None].

(** The runs of the [try] of [stkPush]: refused at the input check,
    failed before the first write, gone on to the writes, or stopped
    at the conversion of the amount. *)
Inductive push_try_run (w : world) (req : request) (st : state)
  : outcome response -> state -> list event -> Prop :=
| try_bad_input :
    converts (prop (request_fields req) (lit "amount")) = true ->
    negb (truthy (prop (request_fields req) (lit "phone")))
    || negb (truthy (parseInt (prop (request_fields req) (lit "amount")))) = true ->
    push_try_run w req st
      (Ok (json 400 (VObj [(lit "error", VStr (lit "phone and amount required"))])))
      st []
| try_failed_early e st' evs :
    converts (prop (request_fields req) (lit "amount")) = true ->
    negb (truthy (prop (request_fields req) (lit "phone")))
    || negb (truthy (parseInt (prop (request_fields req) (lit "amount")))) = false ->
    db st' = db st -> Forall is_fetch evs ->
    push_try_run w req st (Throw e) st' evs
| try_committed cfg token phone timestamp ref st1 pre r st' post :
    converts (prop (request_fields req) (lit "amount")) = true ->
    negb (truthy (prop (request_fields req) (lit "phone")))
    || negb (truthy (parseInt (prop (request_fields req) (lit "amount")))) = false ->
    normalizePhoneForDaraja (prop (request_fields req) (lit "phone")) = Ok phone ->
    db st1 = db st -> Forall is_fetch pre ->
    commit_run w cfg (request_fields req) phone
      (parseInt (prop (request_fields req) (lit "amount")))
      (stkBody_of cfg (request_fields req) phone
         (parseInt (prop (request_fields req) (lit "amount")))
         (makePassword (paybill cfg) (passkey cfg) timestamp) timestamp)
      token ref st1 r st' post ->
    push_try_run w req st r st' (pre ++ post)
| try_amount_throws e :
    parseInt_call (prop (request_fields req) (lit "amount")) = Throw e ->
    push_try_run w req st (Throw e) st [].

End Shape.
Export Shape.

(* ================================================================== *)
(** ** Clock readings *)
(* ================================================================== *)

Module Calendar.

(** The fields of a date of the years 0 to 9999, as the [getUTC...]
    accessors return them (months count from 0). *)
Definition calendar_date (d : date) : Prop :=
  0 <= UTCFullYear d <= 9999 /\ 0 <= UTCMonth d <= 11 /\ 1 <= UTCDate d <= 31
  /\ 0 <= UTCHours d <= 23 /\ 0 <= UTCMinutes d <= 59 /\ 0 <= UTCSeconds d <= 59.

(** A number that [n.toString().padStart(width,'0')] renders as exactly
    [width] digits with the value [n]. *)
Definition padded (width : nat) (n : Z) : bool :=
  let s := padStart width 48 (dec n) in
  (length s =? width)%nat && forallb is_digit s && (digits_value 0 s =? n).

(** The instant of a date as one number, most significant field first. *)
Definition reading (d : date) : Z :=
  ((((UTCFullYear d * 100 + (UTCMonth d + 1)) * 100 + UTCDate d) * 100
    + UTCHours d) * 100 + UTCMinutes d) * 100 + UTCSeconds d.

(** The order of two dates, field by field. *)
Definition no_later (a b : date) : Prop :=
  UTCFullYear a < UTCFullYear b \/ (UTCFullYear a = UTCFullYear b /\
  (UTCMonth a < UTCMonth b \/ (UTCMonth a = UTCMonth b /\
  (UTCDate a < UTCDate b \/ (UTCDate a = UTCDate b /\
  (UTCHours a < UTCHours b \/ (UTCHours a = UTCHours b /\
  (UTCMinutes a < UTCMinutes b \/ (UTCMinutes a = UTCMinutes b /\
   UTCSeconds a <= UTCSeconds b))))))))).

(** A world whose clock advances by one second at every read. *)
Definition ticking_world : world := {|
  env := Sample.environment;
  http := http Sample.happy_world;
  store_refuses := fun _ => None;
  auto_id := auto_id Sample.happy_world;
  wall_clock := fun n =>
    {| UTCFullYear := 2024; UTCMonth := 0; UTCDate := 5;
       UTCHours := 9; UTCMinutes := 3; UTCSeconds := 7 + Z.of_nat n |};
  server_clock := server_clock Sample.happy_world;
  JSON_stringify := JSON_stringify Sample.happy_world
|}.

End Calendar.
Export Calendar.

(* ================================================================== *)
(** ** Reading a trace *)
(* ================================================================== *)

Module Trace.


(** The token is the [access_token] of a 2xx answer to one of the
    token requests among [evs]. *)
Definition granted (cfg : config) (token : value) (evs : list event) : Prop :=
  exists url status data,
    In (Http (GET url (basic cfg)) (Response status data)) evs
    /\ 200 <= status < 300
    /\ token = prop data (lit "access_token").

End Trace.
Export Trace.

(* ================================================================== *)
(** ** The One-ISP module: the GET helper, the mappers, the callables *)
(* ================================================================== *)

(** The callable functions of the repository (the ISP sync), in a
    monad of their own: a run goes from the number of reads made so far
    to a result, the new number, and the operations issued.  What the
    run cannot decide itself is read from a [peer]. *)

Module OneIsp.

(** [a ?? b] *)
Definition nullish (a b : value) : value :=
  match a with
  | VUndefined | VNull => b
  | _ => a
  end.

(** [v?.k] *)
Definition opt_prop (v : value) (k : jsstring) : value :=
  match v with
  | VUndefined | VNull => VUndefined
  | _ => prop v k
  end.

(** The single quote and the double quote. *)
Definition apostrophe : jsstring := [39].
Definition quote : jsstring := [34].

(** [v.k], which throws when [v] is [null] or [undefined]. *)
Definition read_prop (v : value) (k : jsstring) : outcome value :=
  match v with
  | VUndefined =>
      Throw (TypeError (lit "Cannot read properties of undefined (reading "
                        ++ apostrophe ++ k ++ apostrophe ++ lit ")"))
  | VNull =>
      Throw (TypeError (lit "Cannot read properties of null (reading "
                        ++ apostrophe ++ k ++ apostrophe ++ lit ")"))
  | _ => Ok (prop v k)
  end.

(** What a callable throws: an [Error], or an [HttpsError] with its
    code. *)
Inductive thrown : Type :=
| Raised (e : exn)
| HttpsError (code message : jsstring).

Inductive result (A : Type) : Type :=
| Returned (a : A)
| Failed (t : thrown).
Arguments Returned {A} a.
Arguments Failed {A} t.

(** What [fetch] resolves with: the fields of the response that the
    helper reads, and what its [text()] and [json()] give. *)
Record fetched : Type := {
  ok : bool;
  code : Z;
  statusText : jsstring;
  text : outcome jsstring;
  parsed : outcome value
}.

(** A document path: collection names and document ids in turn. *)
Definition path := list value.

(** Outbound operations, each with what came back. *)
Inductive operation : Type :=
| Fetch (url authorization : jsstring) (answer : outcome fetched)
| DocRead (at_path : path) (refused : option exn)
| DocMerge (at_path : path) (data : record) (refused : option exn)
| BatchCommit (writes : list (path * record)) (refused : option exn)
| Warn (label : jsstring) (t : thrown).

(** Everything a callable reads from outside itself: the process
    environment; what the HTTP peer answers to a URL and an
    [Authorization] header; with what error the store client refuses
    an operation, if it does; the link document of a user ([None] when
    it does not exist); [Date.now()]; the conversions [Number(v)], of a
    value that converts to a primitive, and
    [Timestamp.fromDate(new Date(v))]; with what error [coll.doc(id)]
    rejects an id, if it does; and the TypeError of the engine for a
    call of [toString] on a receiver whose [toString] is not a
    function, whose text spells the receiver as the compiled module has
    it.  The [nat] is the number of reads made so far. *)
Record peer : Type := {
  process_env : list (jsstring * jsstring);
  fetch : nat -> jsstring -> jsstring -> outcome fetched;
  refuses : nat -> option exn;
  link_snapshot : nat -> value -> option value;
  Date_now : nat -> Z;
  Number : value -> value;
  Timestamp_fromDate : value -> outcome value;
  bad_id : jsstring -> option exn;
  uncallable : jsstring -> exn
}.

Definition Call (A : Type) : Type := nat -> result A * nat * list operation.

Definition call_ret {A} (a : A) : Call A := fun n => (Returned a, n, []).

Definition call_throw {A} (t : thrown) : Call A := fun n => (Failed t, n, []).

Definition call_bind {A B} (m : Call A) (k : A -> Call B) : Call B :=
  fun n =>
    match m n with
    | (Returned a, n1, o1) =>
        match k a n1 with
        | (r, n2, o2) => (r, n2, o1 ++ o2)
        end
    | (Failed t, n1, o1) => (Failed t, n1, o1)
    end.

Definition call_try (m : Call unit) (handler : thrown -> Call unit) : Call unit :=
  fun n =>
    match m n with
    | (Returned a, n1, o1) => (Returned a, n1, o1)
    | (Failed t, n1, o1) =>
        match handler t n1 with
        | (r, n2, o2) => (r, n2, o1 ++ o2)
        end
    end.

Definition call_lift {A} (o : outcome A) : Call A :=
  fun n =>
    (match o with
     | Ok a => Returned a
     | Throw e => Failed (Raised e)
     end, n, []).

Local Notation "x <-- m ;; k" := (call_bind m (fun x => k))
  (at level 61, m at next level, right associativity).
Local Notation "m ;;;; k" := (call_bind m (fun _ => k))
  (at level 61, right associativity).

(** [await fetch(url, { headers: { Authorization } })] *)
Definition do_fetch (p : peer) (url authorization : jsstring) : Call fetched :=
  fun n =>
    match fetch p n url authorization with
    | Ok res => (Returned res, S n, [Fetch url authorization (Ok res)])
    | Throw e => (Failed (Raised e), S n, [Fetch url authorization (Throw e)])
    end.

(** [await ref.set(data, { merge: true })] *)
Definition set_merge (p : peer) (at_path : path) (data : record) : Call unit :=
  fun n =>
    match refuses p n with
    | Some e => (Failed (Raised e), S n, [DocMerge at_path data (Some e)])
    | None => (Returned tt, S n, [DocMerge at_path data None])
    end.

(** [await batch.commit()] *)
Definition commit (p : peer) (writes : list (path * record)) : Call unit :=
  fun n =>
    match refuses p n with
    | Some e => (Failed (Raised e), S n, [BatchCommit writes (Some e)])
    | None => (Returned tt, S n, [BatchCommit writes None])
    end.

(** [await db.collection('links').doc(uid).get()] *)
Definition get_link (p : peer) (uid : value) : Call (option value) :=
  fun n =>
    match refuses p n with
    | Some e => (Failed (Raised e), S n, [DocRead [VStr (lit "links"); uid] (Some e)])
    | None =>
        (Returned (link_snapshot p n uid), S n, [DocRead [VStr (lit "links"); uid] None])
    end.

(** [console.warn(label, e)] *)
Definition warn (label : jsstring) (t : thrown) : Call unit :=
  fun n => (Returned tt, n, [Warn label t]).

(** [Date.now()] *)
Definition date_now (p : peer) : Call Z :=
  fun n => (Returned (Date_now p n), S n, []).

(** *** Runtime configuration *)

(** [(process && process.env && Object.keys(process.env).length) ? {} : {}] *)
Definition cfg (p : peer) : value :=
  if negb (Z.of_nat (length (process_env p)) =? 0) then VObj [] else VObj [].

(** [(cfg.oneisp && cfg.oneisp.base) || ''] and the same for the token. *)
Definition ONE_ISP_BASE (p : peer) : value :=
  js_or (js_and (prop (cfg p) (lit "oneisp"))
                (prop (prop (cfg p) (lit "oneisp")) (lit "base")))
        (VStr []).

Definition ONE_ISP_TOKEN (p : peer) : value :=
  js_or (js_and (prop (cfg p) (lit "oneisp"))
                (prop (prop (cfg p) (lit "oneisp")) (lit "token")))
        (VStr []).

Definition oneisp_missing : exn :=
  Error (lit "One-ISP config missing. Run: firebase functions:config:set oneisp.base="
         ++ quote ++ lit "..." ++ quote ++ lit " oneisp.token="
         ++ quote ++ lit "..." ++ quote).

(** *** The GET helper *)

Definition oneIspGet (p : peer) (route : jsstring) : Call value :=
  if negb (truthy (ONE_ISP_BASE p)) || negb (truthy (ONE_ISP_TOKEN p))
  then call_throw (Raised oneisp_missing)
  else
    let url := js_toString (ONE_ISP_BASE p) ++ route in
    res <-- do_fetch p url (lit "Bearer " ++ js_toString (ONE_ISP_TOKEN p)) ;;
    if negb (ok res) then
      let body := match text res with Ok t => t | Throw _ => [] end in
      call_throw (Raised (Error (lit "One-ISP " ++ dec (code res) ++ lit " "
                                 ++ statusText res ++ lit " :: " ++ url
                                 ++ lit " :: " ++ body)))
    else call_lift (parsed res).

(** *** Conversions *)

Local Notation "x <~ o ;; k" := (and_then o (fun x => k))
  (at level 61, o at next level, right associativity).

(** [String(v)] *)
Definition String_call (v : value) : outcome value :=
  s <~ ToString v ;; Ok (VStr s).

(** [Number(v)], which throws on the values that do not convert to a
    primitive, those on which [String(v)] throws. *)
Definition Number_call (p : peer) (v : value) : outcome value :=
  _ <~ ToString v ;; Ok (Number p v).

(** [v.toString()] on a value that is neither [null] nor [undefined];
    [receiver] is the expression as the source has it. *)
Definition toString_call (p : peer) (receiver : jsstring) (v : value)
  : outcome jsstring :=
  match v with
  | VObj fields =>
      if own (lit "toString") fields then Throw (uncallable p receiver)
      else Ok (js_toString v)
  | _ => ToString v
  end.

(** *** The mappers *)

Definition mapStats (p : peer) (accountNumber stats : value) : outcome record :=
  expiryDate <~ String_call
    (nullish (opt_prop stats (lit "expiryDate"))
       (nullish (opt_prop stats (lit "expiresAt")) (VStr []))) ;;
  daysRemaining <~ Number_call p
    (nullish (opt_prop stats (lit "remainingDays"))
       (nullish (opt_prop stats (lit "daysRemaining")) (VNum 0))) ;;
  walletBalance <~ Number_call p
    (nullish (opt_prop stats (lit "walletBalance"))
       (nullish (opt_prop stats (lit "wallet")) (VNum 0))) ;;
  currentPackage <~ String_call
    (nullish (opt_prop stats (lit "currentPackage"))
       (nullish (opt_prop stats (lit "package")) (VStr []))) ;;
  status <~ String_call
    (nullish (opt_prop stats (lit "status")) (VStr (lit "Active"))) ;;
  downloadGB <~ Number_call p
    (nullish (opt_prop (opt_prop stats (lit "usage")) (lit "downloadGB"))
       (nullish (opt_prop stats (lit "downloadGB")) (VNum 0))) ;;
  uploadGB <~ Number_call p
    (nullish (opt_prop (opt_prop stats (lit "usage")) (lit "uploadGB"))
       (nullish (opt_prop stats (lit "uploadGB")) (VNum 0))) ;;
  Ok [ (lit "accountNumber", Plain accountNumber);
       (lit "expiryDate", Plain expiryDate);
       (lit "daysRemaining", Plain daysRemaining);
       (lit "walletBalance", Plain walletBalance);
       (lit "currentPackage", Plain currentPackage);
       (lit "status", Plain status);
       (lit "usage",
        Plain (VObj [(lit "downloadGB", downloadGB); (lit "uploadGB", uploadGB)]));
       (lit "updatedAt", ServerTimestamp) ].

Definition mapLogItem (p : peer) (it : value) : outcome record :=
  let when :=
    nullish (opt_prop it (lit "timestamp"))
      (nullish (opt_prop it (lit "time"))
         (nullish (opt_prop it (lit "createdAt")) VNull)) in
  kind <~ String_call
    (nullish (opt_prop it (lit "type"))
       (nullish (opt_prop it (lit "action")) (VStr (lit "event")))) ;;
  at_time <~ (if truthy when
              then t <~ Timestamp_fromDate p when ;; Ok (Plain t)
              else Ok ServerTimestamp) ;;
  details <~ String_call
    (nullish (opt_prop it (lit "details"))
       (nullish (opt_prop it (lit "note"))
          (nullish (opt_prop it (lit "description")) (VStr [])))) ;;
  Ok [(lit "type", Plain kind); (lit "at", at_time); (lit "details", Plain details)].

Definition mapQuickNote (it : value) : outcome record :=
  title <~ String_call (nullish (opt_prop it (lit "title")) (VStr [])) ;;
  body <~ String_call
    (nullish (opt_prop it (lit "body"))
       (nullish (opt_prop it (lit "content")) (VStr []))) ;;
  Ok [ (lit "title", Plain title);
       (lit "body", Plain body);
       (lit "updatedAt", ServerTimestamp) ].

(** *** The sync *)

(** [coll.doc(id)] *)
Definition doc_in (p : peer) (coll : path) (id : jsstring) : outcome path :=
  match bad_id p id with
  | Some e => Throw e
  | None => Ok (coll ++ [VStr id])
  end.

(** [(it.id ?? it._id ?? it.timestamp ?? Date.now()).toString()] *)
Definition log_id (p : peer) (it : value) : Call jsstring :=
  first <-- call_lift (read_prop it (lit "id")) ;;
  match nullish first (nullish (prop it (lit "_id")) (prop it (lit "timestamp"))) with
  | VUndefined | VNull => now <-- date_now p ;; call_ret (dec now)
  | chosen =>
      call_lift (toString_call p
                   (lit "(it.id ?? it._id ?? it.timestamp ?? Date.now())") chosen)
  end.

(** [(it.id ?? it._id ?? it.title ?? `${Date.now()}`).toString()] *)
Definition note_id (p : peer) (it : value) : Call jsstring :=
  first <-- call_lift (read_prop it (lit "id")) ;;
  match nullish first (nullish (prop it (lit "_id")) (prop it (lit "title"))) with
  | VUndefined | VNull => now <-- date_now p ;; call_ret (dec now)
  | chosen =>
      call_lift (toString_call p
                   (lit "(it.id ?? it._id ?? it.title ?? `${Date.now()}`)") chosen)
  end.

(** The [forEach] over the items: the writes collected in the batch. *)
Fixpoint batch_logs (p : peer) (coll : path) (items : list value)
  : Call (list (path * record)) :=
  match items with
  | [] => call_ret []
  | it :: rest =>
      id <-- log_id p it ;;
      ref <-- call_lift (doc_in p coll id) ;;
      data <-- call_lift (mapLogItem p it) ;;
      writes <-- batch_logs p coll rest ;;
      call_ret ((ref, data) :: writes)
  end.

Fixpoint batch_notes (p : peer) (coll : path) (items : list value)
  : Call (list (path * record)) :=
  match items with
  | [] => call_ret []
  | it :: rest =>
      id <-- note_id p it ;;
      ref <-- call_lift (doc_in p coll id) ;;
      data <-- call_lift (mapQuickNote it) ;;
      writes <-- batch_notes p coll rest ;;
      call_ret ((ref, data) :: writes)
  end.

(** The template of a route, [`/api/isp/customers/${customerId}/...`]. *)
Definition customer_route (customerId : value) (leaf : jsstring) : outcome jsstring :=
  id <~ ToString customerId ;; Ok (lit "/api/isp/customers/" ++ id ++ leaf).

Definition syncCustomer (p : peer) (uid customerId accountNumber : value) : Call unit :=
  route <-- call_lift (customer_route customerId (lit "/statistics")) ;;
  stats <-- oneIspGet p route ;;
  doc <-- call_lift (mapStats p (nullish accountNumber customerId) stats) ;;
  set_merge p [VStr (lit "customers"); uid] doc ;;;;
  call_try
    (route <-- call_lift (customer_route customerId (lit "/logs")) ;;
     logs <-- oneIspGet p route ;;
     match logs with
     | VArr items =>
         writes <-- batch_logs p [VStr (lit "customers"); uid; VStr (lit "logs")]
                      (firstn 100 items) ;;
         commit p writes
     | _ => call_ret tt
     end)
    (fun e => warn (lit "Logs fetch failed (ignored):") e) ;;;;
  call_try
    (notes <-- oneIspGet p (lit "/api/v2/setting/quick-template-note") ;;
     match notes with
     | VArr items =>
         writes <-- batch_notes p
                      [VStr (lit "config"); VStr (lit "quick_notes"); VStr (lit "items")]
                      (firstn 100 items) ;;
         commit p writes
     | _ => call_ret tt
     end)
    (fun e => warn (lit "Notes fetch failed (ignored):") e).

(** *** The callables *)

(** The request of a callable: [req.auth] and [req.data]. *)
Record call_request : Type := {
  auth : value;
  data : value
}.

Definition unauthenticated : thrown :=
  HttpsError (lit "unauthenticated") (lit "Sign in required.").

Definition ok_true : value := VObj [(lit "ok", VBool true)].

Definition linkAndSyncAccount (p : peer) (req : call_request) : Call value :=
  if negb (truthy (auth req)) then call_throw unauthenticated
  else
    let uid := prop (auth req) (lit "uid") in
    customerText <-- call_lift
      (ToString (nullish (opt_prop (data req) (lit "customerId")) (VStr []))) ;;
    let customerId := trim customerText in
    accountNumber <--
      (if truthy (opt_prop (data req) (lit "accountNumber"))
       then call_lift (accountText <~ ToString (prop (data req) (lit "accountNumber")) ;;
                       Ok (VStr (trim accountText)))
       else call_ret VUndefined) ;;
    codeText <-- call_lift
      (ToString (nullish (opt_prop (data req) (lit "verificationCode")) (VStr []))) ;;
    let verificationCode := trim codeText in
    if is_empty customerId || is_empty verificationCode
    then call_throw (HttpsError (lit "invalid-argument")
                       (lit "Missing customerId or verificationCode."))
    else
      set_merge p [VStr (lit "links"); uid]
        [(lit "customerId", Plain (VStr customerId));
         (lit "accountNumber", Plain accountNumber);
         (lit "verified", Plain (VBool true))] ;;;;
      syncCustomer p uid (VStr customerId) accountNumber ;;;;
      call_ret ok_true.

Definition refreshCustomerInfo (p : peer) (req : call_request) : Call value :=
  if negb (truthy (auth req)) then call_throw unauthenticated
  else
    let uid := prop (auth req) (lit "uid") in
    link <-- get_link p uid ;;
    match link with
    | None =>
        call_throw (HttpsError (lit "failed-precondition") (lit "Account not linked."))
    | Some linked =>
        if negb (truthy (opt_prop linked (lit "verified")))
        then call_throw (HttpsError (lit "failed-precondition")
                           (lit "Account not linked."))
        else
          syncCustomer p uid (prop linked (lit "customerId"))
            (prop linked (lit "accountNumber")) ;;;;
          call_ret ok_true
    end.

(** *** Samples *)

(** A peer whose store accepts every operation and whose host cannot
    be reached. *)
Definition accepting_peer : peer := {|
  process_env := [];
  fetch := fun _ _ _ => Throw (Error (lit "fetch failed"));
  refuses := fun _ => None;
  link_snapshot := fun _ _ => None;
  Date_now := fun _ => 0;
  Number := fun v => v;
  Timestamp_fromDate := fun v => Ok v;
  bad_id := fun _ => None;
  uncallable := fun receiver => TypeError (receiver ++ lit ".toString is not a function")
|}.

(** The request of the signed-in user u1 to link customer 42. *)
Definition link_request : call_request := {|
  auth := VObj [(lit "uid", VStr (lit "u1"))];
  data := VObj [(lit "customerId", VStr (lit " 42 "));
                (lit "verificationCode", VStr (lit "9"))]
|}.

(** The same request with a customer id that does not convert to text. *)
Definition unreadable_link_request : call_request := {|
  auth := VObj [(lit "uid", VStr (lit "u1"))];
  data := VObj [(lit "customerId", VObj [(lit "toString", VNum 1)]);
                (lit "verificationCode", VStr (lit "9"))]
|}.

End OneIsp.

(* ================================================================== *)
(** * Properties *)
(* ================================================================== *)

(** ** Strings *)

Ltac to_prop :=
  repeat match goal with
  | H : _ && _ = true |- _ => apply andb_true_iff in H; destruct H
  | H : _ || _ = true |- _ => apply orb_true_iff in H; destruct H
  | H : _ && _ = false |- _ => apply andb_false_iff in H; destruct H
  | H : _ || _ = false |- _ => apply orb_false_iff in H; destruct H
  | H : negb _ = true |- _ => apply negb_true_iff in H
  | H : negb _ = false |- _ => apply negb_false_iff in H
  | H : (_ <=? _) = true |- _ => apply Z.leb_le in H
  | H : (_ <=? _) = false |- _ => apply Z.leb_gt in H
  | H : (_ <? _) = true |- _ => apply Z.ltb_lt in H
  | H : (_ <? _) = false |- _ => apply Z.ltb_ge in H
  | H : (_ =? _) = true |- _ => apply Z.eqb_eq in H
  | H : (_ =? _) = false |- _ => apply Z.eqb_neq in H
  end.

Lemma str_eqb_eq (a b : jsstring) : str_eqb a b = true <-> a = b.
Proof.
  revert b; induction a as [|x a IH]; intros [|y b]; simpl; split;
    try congruence; try reflexivity.
  - intros H. to_prop. subst. f_equal. now apply IH.
  - intros H. injection H as -> ->. rewrite Z.eqb_refl. simpl. now apply IH.
Qed.

Lemma str_eqb_refl (a : jsstring) : str_eqb a a = true.
Proof. now apply str_eqb_eq. Qed.

Lemma is_digit_iff (c : Z) : is_digit c = true <-> 48 <= c <= 57.
Proof. unfold is_digit. rewrite andb_true_iff, !Z.leb_le. tauto. Qed.

Lemma space_not_digit (c : Z) : is_space c = true -> is_digit c = false.
Proof.
  intros H. destruct (is_digit c) eqn:D; [|reflexivity].
  apply is_digit_iff in D. unfold is_space in H. to_prop; lia.
Qed.

Lemma filter_digit_drop_space (s : jsstring) :
  filter is_digit (drop_while is_space s) = filter is_digit s.
Proof.
  induction s as [|c s IH]; simpl; [reflexivity|].
  destruct (is_space c) eqn:E; [|reflexivity].
  now rewrite (space_not_digit _ E).
Qed.

Lemma filter_digit_trim (s : jsstring) :
  filter is_digit (trim s) = filter is_digit s.
Proof.
  unfold trim.
  rewrite filter_rev, filter_digit_drop_space, filter_rev, rev_involutive.
  apply filter_digit_drop_space.
Qed.

Lemma filter_digit_strip_plus (s : jsstring) :
  filter is_digit (strip_plus s) = filter is_digit s.
Proof.
  destruct s as [|c t]; simpl; [reflexivity|].
  destruct (c =? 43) eqn:E; [|reflexivity].
  to_prop. subst c. reflexivity.
Qed.

Lemma startsWith_plus (s : jsstring) :
  (if startsWith s (lit "+") then substring 1 s else s) = strip_plus s.
Proof.
  destruct s as [|c t]; [reflexivity|].
  change (startsWith (c :: t) (lit "+")) with ((43 =? c) && true).
  rewrite andb_true_r, Z.eqb_sym. unfold strip_plus, substring.
  destruct (c =? 43); reflexivity.
Qed.

(** ** Phone normalization *)

Lemma digits8_iff (x : jsstring) : digits8 x = true <-> digits 8 x.
Proof.
  unfold digits8, digits.
  rewrite andb_true_iff, Nat.eqb_eq, forallb_forall, Forall_forall.
  split; intros [L F]; split; auto; intros c I; apply is_digit_iff; auto.
Qed.

Lemma re_local_iff (d : jsstring) : re_local d = true <-> local_shape d.
Proof.
  unfold re_local, local_shape. split.
  - destruct d as [|c0 [|c1 r]]; try discriminate. intros H. to_prop. subst.
    exists r. split; [reflexivity|]. now apply digits8_iff.
  - intros [x [-> D]]. apply digits8_iff in D. now rewrite D.
Qed.

Lemma re_bare_iff (d : jsstring) : re_bare d = true <-> bare_shape d.
Proof.
  unfold re_bare, bare_shape. split.
  - destruct d as [|c0 r]; try discriminate. intros H. to_prop. subst.
    exists r. split; [reflexivity|]. now apply digits8_iff.
  - intros [x [-> D]]. apply digits8_iff in D. now rewrite D.
Qed.

Lemma re_intl_iff (d : jsstring) : re_intl d = true <-> international_shape d.
Proof.
  unfold re_intl, international_shape. split.
  - destruct d as [|c0 [|c1 [|c2 [|c3 r]]]]; try discriminate. intros H. to_prop. subst.
    exists r. split; [reflexivity|]. now apply digits8_iff.
  - intros [x [-> D]]. apply digits8_iff in D. now rewrite D.
Qed.

(** The three shapes exclude one another. *)
Lemma shapes_disjoint (d : jsstring) :
  (local_shape d -> ~ bare_shape d /\ ~ international_shape d) /\
  (bare_shape d -> ~ international_shape d).
Proof.
  split.
  - intros [x [-> _]]. split; intros [y [E _]]; discriminate.
  - intros [x [-> _]]. intros [y [E _]]; discriminate.
Qed.

(** The function on a string, by what it keeps of it. *)
Lemma normalizePhone_string (raw : jsstring) :
  normalizePhoneForDaraja (VStr raw) =
  if is_empty (trim raw) then Throw (Error (lit "Phone is empty"))
  else
    let d := stripped raw in
    if re_local d then Ok (lit "254" ++ tl d)
    else if re_bare d then Ok (lit "254" ++ d)
    else if re_intl d then Ok d
    else Throw (unsupported raw).
Proof.
  unfold normalizePhoneForDaraja, stripped.
  assert (T : toString_method phone_callee (js_or (VStr raw) (VStr [])) = Ok raw)
    by now destruct raw.
  rewrite T. cbn [and_then].
  rewrite startsWith_plus, !filter_digit_strip_plus, filter_digit_trim.
  destruct (is_empty (trim raw)); [reflexivity|].
  cbv zeta. unfold substring.
  destruct (filter is_digit raw); reflexivity.
Qed.

(** ** Base64 and UTF-8 lose nothing *)

Lemma list_ind3 (P : list Z -> Prop) :
  P [] -> (forall a, P [a]) -> (forall a b, P [a; b]) ->
  (forall a b c r, P r -> P (a :: b :: c :: r)) ->
  forall l, P l.
Proof.
  intros H0 H1 H2 H3. fix IH 1.
  intros [|a [|b [|c r]]]; [exact H0 | apply H1 | apply H2 | apply H3, IH].
Qed.

Lemma list_ind2 (P : list Z -> Prop) :
  P [] -> (forall c, P [c]) ->
  (forall c d t, P t -> P (d :: t) -> P (c :: d :: t)) ->
  forall l, P l.
Proof.
  intros H0 H1 H2. fix IH 1.
  intros [|c l']; [exact H0|].
  pose proof (IH l') as Hl'.
  destruct l' as [|d t]; [apply H1|].
  apply H2; [apply IH | exact Hl'].
Qed.

Ltac split_ifs :=
  repeat match goal with
  | |- context [if ?c then _ else _] => destruct c eqn:?
  | H : context [if ?c then _ else _] |- _ => destruct c eqn:?
  end.

Lemma b64_inj (i j : Z) :
  0 <= i < 64 -> 0 <= j < 64 -> b64 i = b64 j -> i = j.
Proof. unfold b64. intros Hi Hj H. split_ifs; to_prop; lia. Qed.

Lemma b64_not_pad (i : Z) : 0 <= i < 64 -> b64 i <> pad.
Proof. unfold b64, pad. intros Hi. split_ifs; to_prop; lia. Qed.

Ltac sextet :=
  match goal with
  | |- 0 <= _ < 64 => unfold is_byte in *; Z.div_mod_to_equations; lia
  end.

Ltac b64_facts :=
  repeat match goal with
  | H : Forall _ (_ :: _) |- _ => inversion H; clear H; subst
  | H : _ :: _ = _ :: _ |- _ => injection H as ? H
  | H : b64 _ = pad |- _ => apply b64_not_pad in H; [contradiction | sextet]
  | H : pad = b64 _ |- _ => symmetry in H
  | H : b64 _ = b64 _ |- _ => apply b64_inj in H; [| sextet ..]
  end.

Lemma base64_inj (l1 : list Z) :
  Forall is_byte l1 -> forall l2, Forall is_byte l2 ->
  base64 l1 = base64 l2 -> l1 = l2.
Proof.
  revert l1.
  refine (list_ind3 _ _ _ _ _); [|intros a|intros a b|intros a b c r IH];
    intros B1 [|a' [|b' [|c' r']]] B2 E; cbn [base64] in E;
    try discriminate; try reflexivity; b64_facts.
  - f_equal. unfold is_byte in *. Z.div_mod_to_equations. lia.
  - assert (a = a' /\ b = b') as [-> ->]
      by (unfold is_byte in *; Z.div_mod_to_equations; lia).
    reflexivity.
  - assert (a = a' /\ b = b' /\ c = c') as [-> [-> ->]]
      by (unfold is_byte in *; Z.div_mod_to_equations; lia).
    f_equal. f_equal. f_equal. now apply IH.
Qed.

Lemma utf8_cons (c : Z) (t : jsstring) :
  utf8 (c :: t) =
  if c <? 128 then utf8_1 c ++ utf8 t
  else if c <? 2048 then utf8_2 c ++ utf8 t
  else if is_high c then
    match t with
    | d :: t' =>
        if is_low d then utf8_4 (pair_point c d) ++ utf8 t'
        else replacement ++ utf8 t
    | [] => replacement
    end
  else if is_low c then replacement ++ utf8 t
  else utf8_3 c ++ utf8 t.
Proof. reflexivity. Qed.

Lemma well_formed_cons (c : Z) (t : jsstring) :
  well_formed (c :: t) =
  if is_high c then
    match t with
    | d :: t' => is_low d && well_formed t'
    | [] => false
    end
  else (0 <=? c) && (c <? 65536) && negb (is_low c) && well_formed t.
Proof. reflexivity. Qed.

Lemma well_formed_inv (c : Z) (t : jsstring) :
  well_formed (c :: t) = true ->
  (is_high c = true /\ exists d t', t = d :: t' /\ is_low d = true /\ well_formed t' = true)
  \/ (is_high c = false /\ is_low c = false /\ 0 <= c < 65536 /\ well_formed t = true).
Proof.
  rewrite well_formed_cons. destruct (is_high c) eqn:Hh; intros W.
  - left. split; [reflexivity|]. destruct t as [|d t']; [discriminate|].
    apply andb_true_iff in W. destruct W as [Wd Wt]. eauto.
  - right. split; [reflexivity|].
    apply andb_true_iff in W. destruct W as [W Wt].
    apply andb_true_iff in W. destruct W as [W Wl].
    apply andb_true_iff in W. destruct W as [W0 W1].
    apply negb_true_iff in Wl. apply Z.leb_le in W0. apply Z.ltb_lt in W1. auto.
Qed.

Lemma is_high_iff (c : Z) : is_high c = true <-> 55296 <= c <= 56319.
Proof. unfold is_high. rewrite andb_true_iff, !Z.leb_le. tauto. Qed.

Lemma is_low_iff (c : Z) : is_low c = true <-> 56320 <= c <= 57343.
Proof. unfold is_low. rewrite andb_true_iff, !Z.leb_le. tauto. Qed.

Lemma utf8_head_of (c : Z) (t : jsstring) :
  well_formed (c :: t) = true ->
  exists k bytes rest, utf8_head k (c :: t) bytes rest /\
                       utf8 (c :: t) = bytes ++ utf8 rest /\
                       (length rest < length (c :: t))%nat.
Proof.
  intros W. rewrite utf8_cons.
  destruct (well_formed_inv _ _ W) as [[Hh [d [t' [-> [Hd Wt]]]]]|[Hh [Hl [R Wt]]]].
  - rewrite Hh, Hd. apply is_high_iff in Hh. apply is_low_iff in Hd.
    assert ((c <? 128) = false) as -> by (apply Z.ltb_ge; lia).
    assert ((c <? 2048) = false) as -> by (apply Z.ltb_ge; lia).
    exists 4%nat, (utf8_4 (pair_point c d)), t'.
    split; [now constructor|]. split; [reflexivity|simpl; lia].
  - rewrite Hh, Hl.
    destruct (c <? 128) eqn:E1; [apply Z.ltb_lt in E1|apply Z.ltb_ge in E1].
    + exists 1%nat, (utf8_1 c), t.
      split; [constructor; auto; lia|]. split; [reflexivity|simpl; lia].
    + destruct (c <? 2048) eqn:E2; [apply Z.ltb_lt in E2|apply Z.ltb_ge in E2].
      * exists 2%nat, (utf8_2 c), t.
        split; [constructor; auto; lia|]. split; [reflexivity|simpl; lia].
      * exists 3%nat, (utf8_3 c), t.
        split; [constructor; auto; lia|]. split; [reflexivity|simpl; lia].
Qed.

Lemma utf8_head_rest (k : nat) (s : jsstring) (bytes : list Z) (rest : jsstring) :
  utf8_head k s bytes rest -> well_formed rest = true.
Proof. intros H; destruct H; assumption. Qed.

Lemma utf8_head_bytes (k : nat) (s : jsstring) (bytes : list Z) (rest : jsstring) :
  utf8_head k s bytes rest -> Forall is_byte bytes.
Proof.
  intros H; destruct H; unfold utf8_1, utf8_2, utf8_3, utf8_4, pair_point, is_byte;
    repeat constructor; Z.div_mod_to_equations; lia.
Qed.

(** The first byte tells which of the four forms follows. *)
Lemma utf8_head_lead (k : nat) (s : jsstring) (bytes : list Z) (rest : jsstring) :
  utf8_head k s bytes rest ->
  exists b0 bs, bytes = b0 :: bs /\ lead_kind b0 = k.
Proof.
  intros H; destruct H; unfold utf8_1, utf8_2, utf8_3, utf8_4, pair_point;
    eexists; eexists; (split; [reflexivity|]); unfold lead_kind.
  - assert ((c <? 128) = true) as -> by (apply Z.ltb_lt; lia). reflexivity.
  - assert ((192 + c / 64 <? 128) = false) as ->
      by (apply Z.ltb_ge; Z.div_mod_to_equations; lia).
    assert ((192 + c / 64 <? 224) = true) as ->
      by (apply Z.ltb_lt; Z.div_mod_to_equations; lia).
    reflexivity.
  - assert ((224 + c / 4096 <? 128) = false) as ->
      by (apply Z.ltb_ge; Z.div_mod_to_equations; lia).
    assert ((224 + c / 4096 <? 224) = false) as ->
      by (apply Z.ltb_ge; Z.div_mod_to_equations; lia).
    assert ((224 + c / 4096 <? 240) = true) as ->
      by (apply Z.ltb_lt; Z.div_mod_to_equations; lia).
    reflexivity.
  - set (p := 65536 + (c - 55296) * 1024 + (d - 56320)).
    assert (65536 <= p) by (unfold p; lia).
    assert ((240 + p / 262144 <? 128) = false) as ->
      by (apply Z.ltb_ge; Z.div_mod_to_equations; lia).
    assert ((240 + p / 262144 <? 224) = false) as ->
      by (apply Z.ltb_ge; Z.div_mod_to_equations; lia).
    assert ((240 + p / 262144 <? 240) = false) as ->
      by (apply Z.ltb_ge; Z.div_mod_to_equations; lia).
    reflexivity.
Qed.

(** A unit below 2^16 from its quotient and remainder by 64, and so on. *)
Lemma split_64 (c c' : Z) : c / 64 = c' / 64 -> c mod 64 = c' mod 64 -> c = c'.
Proof. intros Q R. rewrite (Z.div_mod c 64), (Z.div_mod c' 64) by lia. congruence. Qed.

Lemma split_4096 (c c' : Z) :
  c / 4096 = c' / 4096 -> (c / 64) mod 64 = (c' / 64) mod 64 ->
  c mod 64 = c' mod 64 -> c = c'.
Proof.
  intros Q M R. apply split_64; [|assumption]. apply split_64; [|assumption].
  rewrite !Z.div_div by lia. assumption.
Qed.

Lemma split_262144 (c c' : Z) :
  c / 262144 = c' / 262144 -> (c / 4096) mod 64 = (c' / 4096) mod 64 ->
  (c / 64) mod 64 = (c' / 64) mod 64 -> c mod 64 = c' mod 64 -> c = c'.
Proof.
  intros Q M2 M R. apply split_64; [|assumption]. apply split_64; [|assumption].
  apply split_64; rewrite !Z.div_div by lia; assumption.
Qed.

Lemma cons_inj (a b : Z) (l l' : list Z) : a :: l = b :: l' -> a = b /\ l = l'.
Proof. intros E. injection E as -> ->. now split. Qed.

(** Two heads of one form with the same bytes are the same head. *)
Lemma utf8_head_same (k : nat) (s1 s2 : jsstring) (b1 b2 : list Z) (r1 r2 : jsstring)
  (o1 o2 : list Z) :
  utf8_head k s1 b1 r1 -> utf8_head k s2 b2 r2 ->
  b1 ++ o1 = b2 ++ o2 ->
  o1 = o2 /\ (r1 = r2 -> s1 = s2).
Proof.
  intros H1 H2 E.
  destruct H1; inversion H2; subst;
    unfold utf8_1, utf8_2, utf8_3, utf8_4 in E; cbn [app] in E;
    repeat match goal with
    | H : _ :: _ = _ :: _ |- _ => apply cons_inj in H; destruct H as [? H]
    end;
    (split; [assumption|intros ->]).
  - congruence.
  - f_equal. apply split_64; lia.
  - f_equal. apply split_4096; lia.
  - assert (P : pair_point c d = pair_point c0 d0) by (apply split_262144; lia).
    unfold pair_point in P.
    assert (c = c0 /\ d = d0) as [-> ->] by lia.
    reflexivity.
Qed.

Lemma utf8_head_inj (k1 k2 : nat) (s1 s2 : jsstring) (b1 b2 : list Z) (r1 r2 : jsstring)
  (o1 o2 : list Z) :
  utf8_head k1 s1 b1 r1 -> utf8_head k2 s2 b2 r2 ->
  b1 ++ o1 = b2 ++ o2 ->
  o1 = o2 /\ (r1 = r2 -> s1 = s2).
Proof.
  intros H1 H2 E.
  assert (K : k1 = k2).
  { destruct (utf8_head_lead _ _ _ _ H1) as [x [xs [-> <-]]].
    destruct (utf8_head_lead _ _ _ _ H2) as [y [ys [-> <-]]].
    cbn [app] in E. apply cons_inj in E. destruct E as [-> _]. reflexivity. }
  subst k2. eapply utf8_head_same; eauto.
Qed.

Lemma utf8_inj_len (n : nat) :
  forall s1 s2, (length s1 < n)%nat ->
  well_formed s1 = true -> well_formed s2 = true ->
  utf8 s1 = utf8 s2 -> s1 = s2.
Proof.
  induction n as [|n IH]; intros s1 s2 L W1 W2 E; [lia|].
  destruct s1 as [|c1 t1], s2 as [|c2 t2]; [reflexivity| | |].
  - destruct (utf8_head_of _ _ W2) as [k [b [r [H [U _]]]]].
    rewrite U in E. destruct H; discriminate.
  - destruct (utf8_head_of _ _ W1) as [k [b [r [H [U _]]]]].
    rewrite U in E. destruct H; discriminate.
  - destruct (utf8_head_of _ _ W1) as [k1 [b1 [r1 [H1 [U1 L1]]]]].
    destruct (utf8_head_of _ _ W2) as [k2 [b2 [r2 [H2 [U2 _]]]]].
    rewrite U1, U2 in E.
    destruct (utf8_head_inj _ _ _ _ _ _ _ _ _ _ H1 H2 E) as [Eo K].
    apply K, IH; auto.
    + simpl in *; lia.
    + eapply utf8_head_rest; eauto.
    + eapply utf8_head_rest; eauto.
Qed.

Lemma utf8_inj (s1 s2 : jsstring) :
  well_formed s1 = true -> well_formed s2 = true ->
  utf8 s1 = utf8 s2 -> s1 = s2.
Proof. apply (utf8_inj_len (S (length s1))). lia. Qed.

Lemma utf8_bytes_len (n : nat) :
  forall s, (length s < n)%nat -> well_formed s = true -> Forall is_byte (utf8 s).
Proof.
  induction n as [|n IH]; intros s L W; [lia|].
  destruct s as [|c t]; [constructor|].
  destruct (utf8_head_of _ _ W) as [k [b [r [H [U L1]]]]].
  rewrite U. apply Forall_app. split.
  - eapply utf8_head_bytes; eauto.
  - apply IH; [simpl in *; lia|]. eapply utf8_head_rest; eauto.
Qed.

Lemma utf8_bytes (s : jsstring) : well_formed s = true -> Forall is_byte (utf8 s).
Proof. apply (utf8_bytes_len (S (length s))). lia. Qed.

Lemma well_formed_app (a b : jsstring) :
  well_formed a = true -> well_formed b = true -> well_formed (a ++ b) = true.
Proof.
  revert a. refine (list_ind2 _ _ _ _); [|intros c|intros c d t IHt IHd];
    [auto| |]; intros W Wb.
  - destruct (well_formed_inv _ _ W) as [[Hh [d [t' [E _]]]]|[Hh [Hl [R Wt]]]];
      [discriminate|].
    change ([c] ++ b) with (c :: b). rewrite well_formed_cons, Hh, Hl, Wb.
    assert ((0 <=? c) = true) as -> by (apply Z.leb_le; lia).
    assert ((c <? 65536) = true) as -> by (apply Z.ltb_lt; lia).
    reflexivity.
  - change ((c :: d :: t) ++ b) with (c :: d :: (t ++ b)).
    rewrite well_formed_cons.
    destruct (well_formed_inv _ _ W) as [[Hh [d' [t' [E [Hd Wt]]]]]|[Hh [Hl [R Wt]]]].
    + injection E as <- <-. rewrite Hh, Hd. now apply IHt.
    + rewrite Hh, Hl.
      assert ((0 <=? c) = true) as -> by (apply Z.leb_le; lia).
      assert ((c <? 65536) = true) as -> by (apply Z.ltb_lt; lia).
      now apply IHd.
Qed.

(** C2, as stated, fails on the empty input: the function reports an
    empty phone, not an unsupported format. *)
Lemma normalization_as_specified_fails_on_empty :
  normalizePhoneForDaraja (VStr []) = Throw (Error (lit "Phone is empty"))
  /\ ~ normalization_as_specified [].
Proof.
  split; [reflexivity|].
  intros [_ [_ [_ H]]].
  assert (E : normalizePhoneForDaraja (VStr []) = Throw (unsupported [])).
  { apply H; intros [x [E _]]; discriminate E. }
  vm_compute in E. discriminate E.
Qed.

(** C2, amended: for every input string that is not empty after
    trimming, normalization keeps the digits left after a leading [+]
    and every non-digit are removed, and answers [254] followed by the
    digits after the leading [0] for the shape 0 7 and eight digits,
    [254] followed by the digits for the shape 7 and eight digits, the
    digits unchanged for the shape 254 7 and eight digits, and fails
    with the unsupported-format error naming the raw input for every
    other digit pattern; an input that is empty after trimming fails
    with the empty-phone error. *)
Theorem normalizePhone_classifies (raw : jsstring) :
  (trim raw = [] ->
   normalizePhoneForDaraja (VStr raw) = Throw (Error (lit "Phone is empty")))
  /\ (trim raw <> [] -> normalization_as_specified raw).
Proof.
  rewrite normalizePhone_string. split.
  - intros ->. reflexivity.
  - intros NE. destruct (trim raw) eqn:T; [congruence|]. cbn [is_empty].
    unfold normalization_as_specified. rewrite normalizePhone_string, T.
    cbn [is_empty]. cbv zeta.
    destruct (shapes_disjoint (stripped raw)) as [DL DB].
    repeat split.
    + intros L. now rewrite (proj2 (re_local_iff _) L).
    + intros B. destruct (re_local (stripped raw)) eqn:RL.
      * apply re_local_iff in RL. destruct (DL RL) as [NB _]. contradiction.
      * now rewrite (proj2 (re_bare_iff _) B).
    + intros I. destruct (re_local (stripped raw)) eqn:RL.
      * apply re_local_iff in RL. destruct (DL RL) as [_ NI]. contradiction.
      * destruct (re_bare (stripped raw)) eqn:RB.
        -- apply re_bare_iff in RB. destruct (DB RB). assumption.
        -- now rewrite (proj2 (re_intl_iff _) I).
    + intros NL NB NI.
      destruct (re_local (stripped raw)) eqn:RL;
        [apply re_local_iff in RL; contradiction|].
      destruct (re_bare (stripped raw)) eqn:RB;
        [apply re_bare_iff in RB; contradiction|].
      destruct (re_intl (stripped raw)) eqn:RI;
        [apply re_intl_iff in RI; contradiction|].
      reflexivity.
Qed.

Lemma digits_of_literal (n : nat) (x : jsstring) :
  (length x =? n)%nat && forallb is_digit x = true -> digits n x.
Proof.
  intros H. apply andb_true_iff in H. destruct H as [L F].
  split; [now apply Nat.eqb_eq|].
  apply Forall_forall. intros c I. apply is_digit_iff.
  rewrite forallb_forall in F. auto.
Qed.

(** The amended statement at four inputs: one of each shape and one of
    none. *)
Lemma normalizePhone_classifies_witness :
  normalizePhoneForDaraja (VStr (lit "0712345678")) = Ok (lit "254712345678")
  /\ normalizePhoneForDaraja (VStr (lit " 712 345 678 ")) = Ok (lit "254712345678")
  /\ normalizePhoneForDaraja (VStr (lit "+254-712-345-678")) = Ok (lit "254712345678")
  /\ normalizePhoneForDaraja (VStr (lit "0711")) = Throw (unsupported (lit "0711")).
Proof.
  split; [|split; [|split]].
  - destruct (normalizePhone_classifies (lit "0712345678")) as [_ H].
    destruct H as [H _]; [discriminate|].
    apply H. exists (lit "12345678"). split; [reflexivity|].
    apply digits_of_literal. reflexivity.
  - destruct (normalizePhone_classifies (lit " 712 345 678 ")) as [_ H].
    destruct H as [_ [H _]]; [discriminate|].
    apply H. exists (lit "12345678"). split; [reflexivity|].
    apply digits_of_literal. reflexivity.
  - destruct (normalizePhone_classifies (lit "+254-712-345-678")) as [_ H].
    destruct H as [_ [_ [H _]]]; [discriminate|].
    apply H. exists (lit "12345678"). split; [reflexivity|].
    apply digits_of_literal. reflexivity.
  - destruct (normalizePhone_classifies (lit "0711")) as [_ H].
    destruct H as [_ [_ [_ H]]]; [discriminate|].
    apply H; intros [x [E [L _]]]; vm_compute in E;
      first [discriminate E | injection E as E; rewrite <- E in L; discriminate L].
Defined.

(** ** Password derivation *)

Lemma app3_inj (a b c a' b' c' : jsstring) :
  (length a = length a' /\ length c = length c')
  \/ (length a = length a' /\ length b = length b')
  \/ (length b = length b' /\ length c = length c') ->
  a ++ b ++ c = a' ++ b' ++ c' ->
  a = a' /\ b = b' /\ c = c'.
Proof.
  intros L E.
  assert (La : length a = length a').
  { apply (f_equal (@length Z)) in E. rewrite !length_app in E. lia. }
  assert (Ea : a = a' /\ b ++ c = b' ++ c').
  { clear L. revert a' La E. induction a as [|x a IH]; intros [|y a'] La E;
      try discriminate La; [now split|].
    injection E as -> E. injection La as La.
    destruct (IH _ La E) as [-> E']. now split. }
  destruct Ea as [-> E'].
  assert (Lb : length b = length b').
  { apply (f_equal (@length Z)) in E. rewrite !length_app in E. lia. }
  clear L E La. split; [reflexivity|].
  revert b' Lb E'. induction b as [|x b IH]; intros [|y b'] Lb E';
    try discriminate Lb; [now split|].
  injection E' as -> E'. injection Lb as Lb.
  destruct (IH _ Lb E') as [-> ->]. now split.
Qed.

(** C6, as stated, fails: the concatenation has no separators, so two
    triples that cut the same text at different places give the same
    password. *)
Lemma password_collision :
  normal_triple Sample.short_code_a Sample.passkey_a Sample.timestamp_ab = true
  /\ normal_triple Sample.short_code_b Sample.passkey_b Sample.timestamp_ab = true
  /\ (Sample.short_code_a, Sample.passkey_a, Sample.timestamp_ab)
     <> (Sample.short_code_b, Sample.passkey_b, Sample.timestamp_ab)
  /\ makePassword Sample.short_code_a (VStr Sample.passkey_a) Sample.timestamp_ab
     = makePassword Sample.short_code_b (VStr Sample.passkey_b) Sample.timestamp_ab
  /\ ~ password_injective_as_specified.
Proof.
  assert (N1 : normal_triple Sample.short_code_a Sample.passkey_a Sample.timestamp_ab = true)
    by reflexivity.
  assert (N2 : normal_triple Sample.short_code_b Sample.passkey_b Sample.timestamp_ab = true)
    by reflexivity.
  assert (D : (Sample.short_code_a, Sample.passkey_a, Sample.timestamp_ab)
              <> (Sample.short_code_b, Sample.passkey_b, Sample.timestamp_ab))
    by (intros E; vm_compute in E; discriminate E).
  assert (E : makePassword Sample.short_code_a (VStr Sample.passkey_a) Sample.timestamp_ab
              = makePassword Sample.short_code_b (VStr Sample.passkey_b) Sample.timestamp_ab)
    by (vm_compute; reflexivity).
  refine (conj N1 (conj N2 (conj D (conj E _)))).
  intros Inj. exact (Inj _ _ _ _ _ _ N1 N2 D E).
Qed.

(** C6, amended: the password is the base64 text of the UTF-8 bytes of
    short code, passkey and timestamp written one after the other with
    nothing in between; on well-formed strings equal passwords mean
    equal concatenated texts, hence equal triples as soon as two of the
    three components have the same lengths on both sides (so changing
    one component alone always changes the password, and so does any
    change between triples of fixed-width short codes and timestamps). *)
Theorem makePassword_injective_on_aligned_triples
  (sc pk ts sc' pk' ts' : jsstring) :
  well_formed sc = true -> well_formed pk = true -> well_formed ts = true ->
  well_formed sc' = true -> well_formed pk' = true -> well_formed ts' = true ->
  makePassword sc (VStr pk) ts = base64 (utf8 (sc ++ pk ++ ts))
  /\ (makePassword sc (VStr pk) ts = makePassword sc' (VStr pk') ts' ->
      sc ++ pk ++ ts = sc' ++ pk' ++ ts'
      /\ ((length sc = length sc' /\ length ts = length ts')
          \/ (length sc = length sc' /\ length pk = length pk')
          \/ (length pk = length pk' /\ length ts = length ts') ->
          sc = sc' /\ pk = pk' /\ ts = ts')).
Proof.
  intros W1 W2 W3 W1' W2' W3'. split; [reflexivity|].
  unfold makePassword. cbn [js_toString]. intros E.
  assert (W : well_formed (sc ++ pk ++ ts) = true)
    by (repeat apply well_formed_app; assumption).
  assert (W' : well_formed (sc' ++ pk' ++ ts') = true)
    by (repeat apply well_formed_app; assumption).
  apply base64_inj in E; [|now apply utf8_bytes..].
  apply utf8_inj in E; [|assumption..].
  split; [exact E|]. intros L. now apply app3_inj.
Qed.

Lemma well_formed_digits :
  well_formed (lit "600100") = true /\ well_formed (lit "secret") = true
  /\ well_formed (lit "20240105090307") = true
  /\ well_formed (lit "20250105090307") = true.
Proof. repeat split. Qed.

(** The amended statement at two triples that differ in the timestamp
    alone: had they one password, the timestamps would be equal. *)
Lemma makePassword_injective_witness :
  makePassword (lit "600100") (VStr (lit "secret")) (lit "20240105090307")
  <> makePassword (lit "600100") (VStr (lit "secret")) (lit "20250105090307").
Proof.
  intros E.
  destruct well_formed_digits as [W1 [W2 [W3 W4]]].
  destruct (makePassword_injective_on_aligned_triples
              (lit "600100") (lit "secret") (lit "20240105090307")
              (lit "600100") (lit "secret") (lit "20250105090307")
              W1 W2 W3 W1 W2 W4) as [_ H].
  destruct (H E) as [_ K].
  destruct K as [_ [_ T]]; [left; split; reflexivity|].
  discriminate T.
Defined.

(** ** Values and documents *)

Section value_induction.
Variable P : value -> Prop.
Hypothesis P_undefined : P VUndefined.
Hypothesis P_null : P VNull.
Hypothesis P_bool : forall b, P (VBool b).
Hypothesis P_num : forall n, P (VNum n).
Hypothesis P_nan : P VNaN.
Hypothesis P_str : forall s, P (VStr s).
Hypothesis P_arr : forall items, Forall P items -> P (VArr items).
Hypothesis P_obj : forall fields, Forall (fun kv => P (snd kv)) fields -> P (VObj fields).
Hypothesis P_time : forall t, P (VTime t).

Fixpoint value_rect' (v : value) : P v :=
  match v with
  | VUndefined => P_undefined
  | VNull => P_null
  | VBool b => P_bool b
  | VNum n => P_num n
  | VNaN => P_nan
  | VStr s => P_str s
  | VArr items =>
      P_arr items
        ((fix all (l : list value) : Forall P l :=
            match l with
            | [] => Forall_nil P
            | x :: r => Forall_cons x (value_rect' x) (all r)
            end) items)
  | VObj fields =>
      P_obj fields
        ((fix all (l : list (jsstring * value)) : Forall (fun kv => P (snd kv)) l :=
            match l with
            | [] => Forall_nil _
            | kv :: r => Forall_cons kv (value_rect' (snd kv)) (all r)
            end) fields)
  | VTime t => P_time t
  end.
End value_induction.

Lemma value_eqb_refl (v : value) : value_eqb v v = true.
Proof.
  induction v using value_rect'; cbn [value_eqb];
    auto using Z.eqb_refl, str_eqb_refl, Bool.eqb_reflx.
  - induction H as [|x r Hx _ IH]; [reflexivity|]. now rewrite Hx, IH.
  - induction H as [|[k x] r Hx _ IH]; [reflexivity|].
    cbn [snd] in Hx. now rewrite str_eqb_refl, Hx, IH.
Qed.

Lemma find_put_same (id data : value) (d : documents) :
  find_doc id (put_doc id data d) = Some data.
Proof.
  induction d as [|[id' old] rest IH]; cbn [put_doc find_doc].
  - now rewrite value_eqb_refl.
  - destruct (value_eqb id id') eqn:E; cbn [find_doc]; rewrite E; auto.
Qed.

Lemma first_where_find (k : jsstring) (v : value) (d : documents) (id : value) :
  first_where k v d = Some id -> exists data, find_doc id d = Some data.
Proof.
  induction d as [|[id' data'] rest IH]; cbn [first_where find_doc]; [discriminate|].
  destruct (value_eqb (prop data' k) v) eqn:E.
  - intros [= <-]. exists data'. now rewrite value_eqb_refl.
  - intros F. destruct (value_eqb id id'); eauto.
Qed.

(** ** The callback handler *)

(** The result code read from a notification is never the number 0:
    a 0 in the notification is falsy and falls through to [null]. *)
Lemma callback_resultCode_not_zero (payload : value) :
  is_zero (callback_resultCode payload) = false.
Proof.
  unfold callback_resultCode, js_or.
  destruct (truthy (prop payload (lit "ResultCode"))) eqn:T1; cbn [truthy].
  - rewrite T1. destruct (prop payload (lit "ResultCode")); try reflexivity.
    cbn [truthy] in T1. cbn [is_zero]. now apply negb_true_iff.
  - destruct (truthy (prop payload (lit "resultCode"))) eqn:T2; [|reflexivity].
    destruct (prop payload (lit "resultCode")); try reflexivity.
    cbn [truthy] in T2. cbn [is_zero]. now apply negb_true_iff.
Qed.

Lemma callback_status_failed (payload : value) :
  callback_status (callback_resultCode payload) = lit "failed".
Proof. unfold callback_status. now rewrite callback_resultCode_not_zero. Qed.

(** Every run of the handler on a request that is not a pre-flight, one
    goal for each. *)
Ltac callback_paths H :=
  unfold darajaCallback, darajaCallback_try in H;
  cbv beta zeta in H;
  unfold try_catch, bind, ret, doc_set, doc_new, doc_query, doc_update, console_error in H;
  repeat match type of H with
  | context [match store_refuses ?w ?n with _ => _ end] =>
      let R := fresh "R" in destruct (store_refuses w n) eqn:R
  | context [if truthy ?c then _ else _] =>
      let T := fresh "T" in destruct (truthy c) eqn:T
  | context [match first_where ?k ?v ?d with _ => _ end] =>
      let Q := fresh "Q" in destruct (first_where k v d) eqn:Q
  | context [match find_doc ?i ?d with _ => _ end] =>
      let F := fresh "F" in destruct (find_doc i d) eqn:F
  | _ => progress cbn -[lit callback_record callback_update stamp put_doc find_doc
                        first_where merge write_doc next] in H
  end;
  injection H as <- <- <-.

Ltac store_simpl :=
  cbn [db tick console write_doc with_db with_docs next docs
       config_docs pending_docs result_docs] in *.

(** C9: the handler writes a callback-result record for every
    notification, before anything else and whether or not a pending
    transaction matches: the first outbound operation is the [set] of
    that record in [payments_results], under the extracted correlation
    identifier when there is one and under a generated key otherwise,
    holding the raw body, the three extracted fields and the receipt
    time; once the store accepts the write the record is there; and
    when no pending transaction matches (and the store answers the
    lookup), no pending record changes and the answer is 200 OK. *)
Theorem callback_result_always_written
  (w : world) (req : request) (st : state)
  (r : outcome response) (st' : state) (evs : list event) :
  str_eqb (method req) (lit "OPTIONS") = false ->
  darajaCallback w req st = (r, st', evs) ->
  let body := js_or (Daraja.body req) (VObj []) in
  let payload := callback_payload body in
  let cid := callback_checkoutRequestId payload in
  let docId := if truthy cid then cid else VStr (auto_id w (tick st)) in
  (truthy (Daraja.body req) = true -> body = Daraja.body req)
  /\ exists refused rest,
       evs = DocSet payments_results docId
               [(lit "raw", Plain body);
                (lit "checkoutRequestId", Plain cid);
                (lit "resultCode", Plain (callback_resultCode payload));
                (lit "resultDesc", Plain (callback_resultDesc payload));
                (lit "receivedAt", ServerTimestamp)] refused :: rest
       /\ (refused = None ->
           exists t,
             find_doc docId (result_docs (db st')) =
             Some (VObj [(lit "raw", body);
                         (lit "checkoutRequestId", cid);
                         (lit "resultCode", callback_resultCode payload);
                         (lit "resultDesc", callback_resultDesc payload);
                         (lit "receivedAt", VTime t)]))
       /\ (Forall accepted evs ->
           truthy cid = false
           \/ first_where (lit "checkoutRequestId") cid (pending_docs (db st)) = None ->
           pending_docs (db st') = pending_docs (db st)
           /\ Forall (fun e => ~ is_update e) evs
           /\ r = Ok (send 200 (lit "OK"))).
Proof.
  intros NO H. cbv zeta. split.
  { unfold js_or. now intros ->. }
  unfold darajaCallback in H. rewrite NO in H.
  callback_paths H; store_simpl;
    eexists; eexists; (split; [reflexivity|]); (split; [intros Acc|intros Acc NM]);
    try discriminate Acc;
    try (eexists; unfold callback_record, stamp; cbn [map fst snd];
         now rewrite find_put_same).
  all: repeat match goal with
       | A : Forall accepted (_ :: _) |- _ => inversion A; clear A; subst
       | A : accepted _ |- _ => discriminate A
       | N : _ \/ _ |- _ => destruct N; try congruence
       end.
  all: repeat split; auto; repeat constructor; intros [].
Qed.

Lemma triple_eta {A B C : Type} (x : A * B * C) : x = (fst (fst x), snd (fst x), snd x).
Proof. now destruct x as [[a b] c]. Qed.

(** C9 at a notification that no pending transaction waits for: the
    record is stored under its identifier, the pending transaction of
    the store is as it was, and the answer is 200 OK. *)
Lemma callback_result_always_written_witness :
  let run := darajaCallback Sample.happy_world Sample.unknown_callback Sample.waiting_state in
  (exists t, find_doc (VStr (lit "zzz999")) (result_docs (db (snd (fst run)))) =
             Some (VObj [(lit "raw", body Sample.unknown_callback);
                         (lit "checkoutRequestId", VStr (lit "zzz999"));
                         (lit "resultCode", VNum 1032);
                         (lit "resultDesc", VStr (lit "Request cancelled by user"));
                         (lit "receivedAt", VTime t)]))
  /\ pending_docs (db (snd (fst run))) = [(VStr (lit "p1"), Sample.pending_abc123)]
  /\ fst (fst run) = Ok (send 200 (lit "OK")).
Proof.
  intros run.
  destruct (callback_result_always_written
              Sample.happy_world Sample.unknown_callback Sample.waiting_state
              _ _ _ eq_refl (triple_eta run))
    as [_ [refused [rest [E [Stored NoMatch]]]]].
  assert (R : refused = None) by (vm_compute in E; congruence).
  split; [exact (Stored R)|].
  destruct NoMatch as [P [_ A]].
  - vm_compute. repeat constructor.
  - right. reflexivity.
  - split; [exact P | exact A].
Defined.

Ltac each_event I :=
  repeat match type of I with
  | In _ (_ :: _) => destruct I as [<-|I]
  | In _ [] => destruct I
  end.

(** C10: within one run of the callback handler the write of the
    callback-result record comes before the lookup and the update of
    the pending transaction, and has been accepted by then.  So when
    the lookup or the update is refused, the handler answers 500, the
    callback-result record is stored and no pending transaction has
    changed; and a pending transaction never changes without the
    callback-result record being stored. *)
Theorem callback_result_precedes_reconciliation
  (w : world) (req : request) (st : state)
  (r : outcome response) (st' : state) (evs : list event) :
  str_eqb (method req) (lit "OPTIONS") = false ->
  darajaCallback w req st = (r, st', evs) ->
  let body := js_or (Daraja.body req) (VObj []) in
  let cid := callback_checkoutRequestId (callback_payload body) in
  let docId := if truthy cid then cid else VStr (auto_id w (tick st)) in
  let stored :=
    exists t, find_doc docId (result_docs (db st')) =
              Some (VObj (stamp t (callback_record body))) in
  (forall i e, nth_error evs i = Some e -> is_reconciliation e ->
     (0 < i)%nat
     /\ nth_error evs 0 = Some (DocSet payments_results docId (callback_record body) None))
  /\ (forall e, In e evs -> is_reconciliation e -> refusal e <> None ->
        r = Ok (send 500 (lit "error"))
        /\ stored
        /\ pending_docs (db st') = pending_docs (db st))
  /\ (pending_docs (db st') <> pending_docs (db st) -> stored).
Proof.
  intros NO H. cbv zeta.
  unfold darajaCallback in H. rewrite NO in H.
  callback_paths H; store_simpl; (split; [|split]).
  all: try (intros i x N Rec; destruct i as [|[|[|i]]]; cbn [nth_error] in N;
            try discriminate N; try (destruct i; discriminate N);
            injection N as <-; cbn [is_reconciliation] in Rec; try contradiction Rec;
            (split; [lia|reflexivity])).
  all: try (intros x I Rec Ref; each_event I;
            cbn [is_reconciliation refusal] in Rec, Ref; try contradiction Rec;
            try (now contradiction Ref);
            repeat split; try reflexivity;
            eexists; now rewrite find_put_same).
  all: try (intros Changed; try (now contradiction Changed);
            eexists; now rewrite find_put_same).
Qed.

(** C10 at a run whose lookup the store refuses: the answer is 500, the
    callback-result record is stored, the pending transaction is as it
    was. *)
Lemma callback_result_precedes_reconciliation_witness :
  let run := darajaCallback Sample.flaky_world Sample.success_callback Sample.waiting_state in
  fst (fst run) = Ok (send 500 (lit "error"))
  /\ (exists t, find_doc (VStr (lit "abc123")) (result_docs (db (snd (fst run)))) =
                Some (VObj (stamp t (callback_record (body Sample.success_callback)))))
  /\ pending_docs (db (snd (fst run))) = [(VStr (lit "p1"), Sample.pending_abc123)].
Proof.
  intros run.
  destruct (callback_result_precedes_reconciliation
              Sample.flaky_world Sample.success_callback Sample.waiting_state
              _ _ _ eq_refl (triple_eta run))
    as [_ [Refused _]].
  apply (Refused (DocQuery payments_pending (lit "checkoutRequestId")
                    (VStr (lit "abc123")) (Some Sample.unavailable))).
  - right. left. reflexivity.
  - exact I.
  - discriminate.
Defined.

(** C1 fails on the code.  The handler reads the result code with
    [payload.ResultCode || payload.resultCode || null], which turns the
    number 0 into [null]; the status it writes is therefore "failed"
    for every notification.  In the second end-to-end scenario (result
    code 0 against the pending transaction "abc123") the answer is 200 OK
    and the transaction ends with status "failed" and result code
    [null]. *)
Theorem callback_zero_result_code_marks_failed :
  (forall payload, callback_status (callback_resultCode payload) = lit "failed")
  /\ let run := darajaCallback Sample.happy_world Sample.success_callback
                  Sample.waiting_state in
     fst (fst run) = Ok (send 200 (lit "OK"))
     /\ exists data,
          pending_docs (db (snd (fst run))) = [(VStr (lit "p1"), data)]
          /\ prop data (lit "checkoutRequestId") = VStr (lit "abc123")
          /\ prop data (lit "status") = VStr (lit "failed")
          /\ prop data (lit "resultCode") = VNull.
Proof.
  split; [exact callback_status_failed|].
  cbv zeta. split; [reflexivity|].
  eexists. split; [vm_compute; reflexivity|].
  repeat split.
Qed.

(** ** Config resolution *)

Lemma truthy_js_and (a b : value) : truthy (js_and a b) = truthy a && truthy b.
Proof. unfold js_and. destruct (truthy a) eqn:T; [reflexivity|exact T]. Qed.


Ltac run_eq :=
  let H := fresh "Run" in
  intros H; cbv beta iota zeta in H; injection H as <- <- <-.



(** ** Token acquisition *)

(** One call of [getDarajaToken] is one GET, and changes nothing else. *)
Lemma getDarajaToken_run (w : world) (url ck cs : value) (st : state)
  (r : outcome value) (st' : state) (evs : list event) :
  getDarajaToken w url ck cs st = (r, st', evs) ->
  let auth := lit "Basic " ++ base64 (utf8 (js_toString ck ++ lit ":" ++ js_toString cs)) in
  evs = [Http (GET url auth) (http w (tick st) (GET url auth))] /\ st' = next st.
Proof.
  unfold getDarajaToken, bind, axios, ret, throw. cbv beta zeta.
  destruct (http w (tick st) _) as [status data|e]; [|run_eq; now split].
  destruct ((200 <=? status) && (status <? 300) && truthy data
            && truthy (prop data (lit "access_token"))); run_eq; now split.
Qed.



(** ** The push handler *)

Lemma bind_inv {A B : Type} (m : M A) (k : A -> M B) (st : state)
  (r : outcome B) (st' : state) (evs : list event) :
  bind m k st = (r, st', evs) ->
  (exists e, m st = (Throw e, st', evs) /\ r = Throw e)
  \/ (exists a st1 ev1 ev2,
        m st = (Ok a, st1, ev1) /\ k a st1 = (r, st', ev2) /\ evs = ev1 ++ ev2).
Proof.
  unfold bind. destruct (m st) as [[[a|e] st1] ev1].
  - destruct (k a st1) as [[r2 st2] ev2] eqn:K. intros [= <- <- <-].
    right. exists a, st1, ev1, ev2. auto.
  - intros [= <- <- <-]. left. eauto.
Qed.

(** Config resolution and token acquisition only read. *)
Lemma getDarajaConfig_reads (w : world) (st : state)
  (r : outcome config) (st' : state) (evs : list event) :
  getDarajaConfig w st = (r, st', evs) -> db st' = db st /\ Forall is_fetch evs.
Proof.
  unfold getDarajaConfig.
  match goal with |- context [if ?c then _ else _] => destruct c end.
  - unfold ret. run_eq. split; [reflexivity|constructor].
  - unfold loadDarajaConfigFromFirestore. unfold bind, doc_get, ret, throw. cbv beta.
    destruct (store_refuses w (tick st)).
    + run_eq. split; [reflexivity|repeat constructor].
    + destruct (find_doc _ _) as [data|].
      * match goal with |- context [if ?c then _ else _] => destruct c end;
          run_eq; (split; [reflexivity|repeat constructor]).
      * run_eq. split; [reflexivity|repeat constructor].
Qed.

Lemma stkPush_token_reads (w : world) (cfg : config) (st : state)
  (r : outcome value) (st' : state) (evs : list event) :
  stkPush_token w cfg st = (r, st', evs) -> db st' = db st /\ Forall is_fetch evs.
Proof.
  unfold stkPush_token, try_catch.
  destruct (getDarajaToken w (oauthurl cfg) (consumerKey cfg) (consumerSecret cfg) st)
    as [[[token|err] st1] ev1] eqn:First;
    destruct (getDarajaToken_run _ _ _ _ _ _ _ _ First) as [-> ->].
  - run_eq. split; [reflexivity|repeat constructor].
  - unfold bind, lift, ret, throw.
    destruct (truthy (oauthurl cfg)); cbv beta iota zeta.
    + destruct (call_includes (oauthurl cfg) production_host) as [[|]|e].
      * destruct (call_replace (oauthurl cfg) production_host sandbox_host)
          as [sandbox|e].
        -- destruct (getDarajaToken w sandbox (consumerKey cfg) (consumerSecret cfg)
                       (next st)) as [[r2 st2] ev2] eqn:Second.
           destruct (getDarajaToken_run _ _ _ _ _ _ _ _ Second) as [-> ->].
           run_eq. split; [reflexivity|repeat constructor].
        -- run_eq. split; [reflexivity|repeat constructor].
      * run_eq. split; [reflexivity|repeat constructor].
      * run_eq. split; [reflexivity|repeat constructor].
    + run_eq. split; [reflexivity|repeat constructor].
Qed.

Lemma parseInt_call_ok (v a : value) :
  parseInt_call v = Ok a -> a = parseInt v /\ converts v = true.
Proof.
  unfold parseInt_call, ToString. destruct (converts v); cbn [and_then].
  - intros [= <-]. auto.
  - discriminate.
Qed.

Lemma parseInt_call_throw (v : value) (e : exn) :
  parseInt_call v = Throw e -> converts v = false /\ e = not_primitive.
Proof.
  unfold parseInt_call, ToString. destruct (converts v); cbn [and_then].
  - discriminate.
  - intros [= <-]. auto.
Qed.

Lemma parseInt_call_converts (v : value) :
  converts v = true -> parseInt_call v = Ok (parseInt v).
Proof. unfold parseInt_call, ToString. now intros ->. Qed.

Lemma push_commit_runs (w : world) (cfg : config) (body : value) (phone : jsstring)
  (amount stkBody token ref : value) (st : state)
  (r : outcome response) (st' : state) (evs : list event) :
  push_commit w cfg body phone amount stkBody token ref st = (r, st', evs) ->
  commit_run w cfg body phone amount stkBody token ref st r st' evs.
Proof.
  unfold push_commit, bind, doc_set, lift, ToString, axios, doc_update, ret. cbv beta.
  destruct (store_refuses w (tick st)) as [e|] eqn:R1.
  { run_eq. now constructor. }
  destruct (converts token) eqn:Cv.
  2: { run_eq. eapply commit_token_unusable; [exact Cv|]. store_simpl. reflexivity. }
  cbn [tick write_doc with_db next].
  destruct (http w (S (tick st)) _) as [status data|e] eqn:P.
  2: { run_eq. eapply commit_post_failed. store_simpl. reflexivity. }
  cbv beta iota zeta. store_simpl. rewrite find_put_same.
  destruct (store_refuses w (S (S (tick st)))) as [e|] eqn:R2; run_eq.
  - eapply commit_update_refused. store_simpl. reflexivity.
  - eapply commit_done. store_simpl. now rewrite find_put_same.
Qed.

Lemma stkPush_try_runs (w : world) (req : request) (st : state)
  (r : outcome response) (st' : state) (evs : list event) :
  stkPush_try w req st = (r, st', evs) -> push_try_run w req st r st' evs.
Proof.
  unfold stkPush_try. cbv zeta. intros H.
  apply bind_inv in H. unfold lift in H.
  destruct H as [[e [Ha ->]]|[amount [st0 [ev0 [ev0' [Ha [H ->]]]]]]];
    injection Ha as Ha <- <-.
  { now apply try_amount_throws. }
  apply parseInt_call_ok in Ha. destruct Ha as [-> Cv]. cbn [app].
  revert H.
  destruct (negb (truthy (prop (request_fields req) (lit "phone")))
            || negb (truthy (parseInt (prop (request_fields req) (lit "amount")))))
    eqn:Bad.
  { unfold ret. run_eq. now constructor. }
  intros H.
  apply bind_inv in H.
  destruct H as [[e [Hc ->]]|[cfg [st1 [ev1 [ev2 [Hc [H ->]]]]]]];
    destruct (getDarajaConfig_reads _ _ _ _ _ Hc) as [D1 F1].
  { now constructor. }
  apply bind_inv in H.
  destruct H as [[e [Ht ->]]|[token [st2 [ev2' [ev3 [Ht [H ->]]]]]]];
    destruct (stkPush_token_reads _ _ _ _ _ _ Ht) as [D2 F2].
  { constructor; [assumption|assumption|congruence|now apply Forall_app]. }
  apply bind_inv in H. unfold lift in H.
  destruct H as [[e [Hn ->]]|[phone [st3 [ev3' [ev4 [Hn [H ->]]]]]]];
    injection Hn as Hn <- <-.
  { constructor; [assumption|assumption|congruence|].
    rewrite app_nil_r. now apply Forall_app. }
  apply bind_inv in H. unfold utcTimestamp, new_Date, bind, ret in H.
  destruct H as [[e [Hd _]]|[timestamp [st4 [ev4' [ev5 [Hd [H ->]]]]]]];
    [discriminate Hd|]. injection Hd as <- <- <-.
  apply bind_inv in H. unfold doc_new in H.
  destruct H as [[e [Hr _]]|[ref [st5 [ev5' [ev6 [Hr [H ->]]]]]]];
    [discriminate Hr|]. injection Hr as <- <- <-.
  apply push_commit_runs in H.
  cbn [app]. rewrite app_assoc.
  eapply try_committed; [exact Cv|exact Bad|exact Hn| | |exact H].
  - cbn [db next]. congruence.
  - now apply Forall_app.
Qed.

Lemma stkPush_run (w : world) (req : request) (st : state)
  (r : outcome response) (st' : state) (evs : list event) :
  str_eqb (method req) (lit "OPTIONS") = false ->
  stkPush w req st = (r, st', evs) ->
  exists r0 st0,
    push_try_run w req st r0 st0 evs
    /\ db st' = db st0
    /\ match r0 with
       | Ok resp => r = Ok resp
       | Throw err =>
           r = Ok (json 502 (VObj [(lit "error", VStr (lit "stk_push_failed"));
                                   (lit "details", VStr (details err))]))
       end
    /\ fst (fst (stkPush_try w req st)) = r0.
Proof.
  intros NO. unfold stkPush. rewrite NO. unfold try_catch.
  destruct (stkPush_try w req st) as [[[resp|err] st0] evs0] eqn:Try;
    apply stkPush_try_runs in Try.
  - run_eq. exists (Ok resp), st0. auto.
  - unfold bind, console_error, ret. run_eq.
    exists (Throw err), st0. rewrite !app_nil_r. auto.
Qed.

Lemma truthy_parseInt (v : value) :
  truthy (parseInt v) = true -> exists z, parseInt v = VNum z /\ z <> 0.
Proof.
  unfold parseInt.
  destruct (match drop_while is_space (js_toString v) with
            | [] => (1, drop_while is_space (js_toString v))
            | c :: t =>
                if c =? 45 then (-1, t)
                else if c =? 43 then (1, t)
                else (1, drop_while is_space (js_toString v))
            end) as [sign rest].
  destruct (take_while is_digit rest); [discriminate|].
  cbn [truthy]. intros T. apply negb_true_iff, Z.eqb_neq in T. eauto.
Qed.

Lemma falsy_parseInt (v : value) :
  truthy (parseInt v) = false <-> parseInt v = VNaN \/ parseInt v = VNum 0.
Proof.
  split.
  - destruct (truthy (parseInt v)) eqn:T; [discriminate|]. intros _.
    unfold parseInt in *.
    destruct (match drop_while is_space (js_toString v) with
              | [] => (1, drop_while is_space (js_toString v))
              | c :: t =>
                  if c =? 45 then (-1, t)
                  else if c =? 43 then (1, t)
                  else (1, drop_while is_space (js_toString v))
              end) as [sign rest].
    destruct (take_while is_digit rest); [now left|].
    cbn [truthy] in T. apply negb_false_iff, Z.eqb_eq in T. rewrite T. now right.
  - intros [-> | ->]; reflexivity.
Qed.

(** C4, as stated, fails: a negative amount passes the input check and
    is persisted. *)
Lemma negative_amount_is_persisted :
  let run := stkPush Sample.happy_world Sample.negative_request Sample.fresh_state in
  exists id data,
    pending_docs (db (snd (fst run))) = [(id, data)]
    /\ prop data (lit "amount") = VNum (-5)
    /\ ~ (0 < -5).
Proof.
  cbv zeta. eexists. eexists. split; [vm_compute; reflexivity|].
  split; [reflexivity|lia].
Qed.

Ltac which_event I :=
  cbn [In] in I;
  repeat match type of I with
  | _ \/ _ => destruct I as [I|I]
  end.

(** C4, amended: for a request whose amount reads as a number within
    the safe integers, every pending-transaction record the payment
    initiator writes holds the amount parsed from the request, and that
    amount is a non-zero safe integer (positive or negative); no record
    is written for an amount that is missing, zero, not a number, or
    that does not convert to text.  (Beyond the safe integers the
    language rounds the amount read; nothing is said of it.) *)
Theorem persisted_amount_is_nonzero
  (w : world) (req : request) (st : state)
  (r : outcome response) (st' : state) (evs : list event) :
  stkPush w req st = (r, st', evs) ->
  in_safe_range (prop (request_fields req) (lit "amount")) = true ->
  forall id data refused,
    In (DocSet payments_pending id data refused) evs ->
    exists phone stkBody z,
      data = pending_record (request_fields req) phone (VNum z) stkBody
      /\ In (lit "amount", Plain (VNum z)) data
      /\ converts (prop (request_fields req) (lit "amount")) = true
      /\ parseInt (prop (request_fields req) (lit "amount")) = VNum z
      /\ z <> 0
      /\ safe_integer z = true.
Proof.
  intros Run Range id data refused I.
  destruct (str_eqb (method req) (lit "OPTIONS")) eqn:NO.
  { unfold stkPush in Run. rewrite NO in Run. unfold ret in Run.
    injection Run as <- <- <-. destruct I. }
  destruct (stkPush_run _ _ _ _ _ _ NO Run) as [r0 [st0 [Try _]]].
  destruct Try as [Cv Bad|e st1 evs Cv Bad D F
                  |cfg token phone ts ref st1 pre r1 st2 post Cv Bad N D F C
                  |e Conv].
  - destruct I.
  - rewrite Forall_forall in F. destruct (F _ I).
  - apply in_app_or in I. destruct I as [I|I].
    { rewrite Forall_forall in F. destruct (F _ I). }
    apply orb_false_iff in Bad. destruct Bad as [_ A].
    apply negb_false_iff, truthy_parseInt in A. destruct A as [z [A Z]].
    rewrite A in C.
    assert (E : data = pending_record (request_fields req) phone (VNum z)
                  (stkBody_of cfg (request_fields req) phone (VNum z)
                     (makePassword (paybill cfg) (passkey cfg) ts) ts)).
    { destruct C; which_event I; try contradiction I; try discriminate I;
        congruence. }
    exists phone. eexists. exists z. split; [exact E|].
    split; [rewrite E; unfold pending_record; cbn [In]; auto|].
    split; [exact Cv|].
    split; [exact A|]. split; [exact Z|].
    unfold in_safe_range in Range. now rewrite A in Range.
  - destruct I.
Qed.

(** The amended statement at the first end-to-end scenario: the record
    written holds the amount 100. *)
Lemma persisted_amount_is_nonzero_witness :
  exists id data refused,
    In (DocSet payments_pending id data refused)
       (snd (stkPush Sample.happy_world Sample.push_request Sample.fresh_state))
    /\ In (lit "amount", Plain (VNum 100)) data.
Proof.
  set (run := stkPush Sample.happy_world Sample.push_request Sample.fresh_state).
  assert (I : In (DocSet payments_pending (VStr (auto_id Sample.happy_world 2))
                    (pending_record (request_fields Sample.push_request)
                       (lit "254712345678") (VNum 100)
                       (stkBody_of Sample.production_config
                          (request_fields Sample.push_request)
                          (lit "254712345678") (VNum 100)
                          (makePassword (lit "174379") (VStr (lit "passkey"))
                             (lit "20240105090307"))
                          (lit "20240105090307"))) None) (snd run)).
  { vm_compute. right. left. reflexivity. }
  destruct (persisted_amount_is_nonzero _ _ _ _ _ _ (triple_eta run) eq_refl _ _ _ I)
    as [phone [stkBody [z [E [A [Cv [P Z]]]]]]].
  eexists. eexists. eexists. split; [exact I|].
  assert (z = 100) as -> by (vm_compute in P; congruence).
  exact A.
Defined.

(** C3, as stated, fails on a phone of blanks: it passes the input
    check (only a missing or empty phone is refused there), config and
    token are fetched, and the request ends as 502. *)
Lemma blank_phone_is_not_a_client_error :
  let run := stkPush Sample.happy_world Sample.blank_phone_request Sample.fresh_state in
  trim (lit "   ") = []
  /\ (exists resp, fst (fst run) = Ok resp /\ status resp = 502)
  /\ exists url auth res, snd run = [Http (GET url auth) res].
Proof.
  cbv zeta. split; [reflexivity|]. split.
  - eexists. split; [vm_compute; reflexivity|reflexivity].
  - eexists. eexists. eexists. vm_compute. reflexivity.
Qed.

(** C3, amended: a push-initiation request whose amount converts to
    text and whose phone is missing or empty (not trimmed) or whose
    amount does not parse to a non-zero integer is answered with HTTP
    400 and nothing else happens: no operation is issued and the state
    is as before.  An amount that does not convert to text (an object
    with a [toString] property of its own, also inside an array) makes
    [parseInt] throw inside the [try], before the check: the request is
    answered with HTTP 502 and the message of the TypeError, whatever
    the phone; no operation is issued and only the error is logged.  A
    phone that is present but malformed (blank, or of an unsupported
    format) passes the check; with a valid amount such a request is
    answered with HTTP 502, after config and token reads only: nothing
    is written to the store and no push call is made. *)
Theorem invalid_input_is_rejected
  (w : world) (req : request) (st : state) :
  str_eqb (method req) (lit "OPTIONS") = false ->
  let phoneRaw := prop (request_fields req) (lit "phone") in
  let amountRaw := prop (request_fields req) (lit "amount") in
  let amount := parseInt amountRaw in
  (converts amountRaw = true ->
   truthy phoneRaw = false \/ amount = VNaN \/ amount = VNum 0 ->
     stkPush w req st =
     (Ok (json 400 (VObj [(lit "error", VStr (lit "phone and amount required"))])), st, []))
  /\ (converts amountRaw = false ->
      stkPush w req st =
      (Ok (json 502 (VObj [(lit "error", VStr (lit "stk_push_failed"));
                           (lit "details",
                            VStr (lit "Cannot convert object to primitive value"))])),
       {| db := db st; tick := tick st; console := console st ++ [not_primitive] |},
       []))
  /\ (converts amountRaw = true -> exact phoneRaw = true ->
      truthy phoneRaw = true -> truthy amount = true ->
      forall e, normalizePhoneForDaraja phoneRaw = Throw e ->
      exists err st' evs,
        stkPush w req st =
        (Ok (json 502 (VObj [(lit "error", VStr (lit "stk_push_failed"));
                             (lit "details", VStr (details err))])), st', evs)
        /\ db st' = db st
        /\ Forall is_fetch evs).
Proof.
  intros NO phoneRaw amountRaw amount. split; [|split].
  - intros Cv Bad.
    assert (B : negb (truthy phoneRaw) || negb (truthy amount) = true).
    { destruct Bad as [P|A].
      - now rewrite P.
      - apply falsy_parseInt in A. fold amount in A. rewrite A. apply orb_true_r. }
    unfold stkPush. rewrite NO. unfold try_catch, stkPush_try. cbv zeta.
    fold phoneRaw amountRaw. rewrite (parseInt_call_converts _ Cv).
    unfold bind at 1, lift. fold amount. rewrite B. reflexivity.
  - intros Cv.
    unfold stkPush. rewrite NO. unfold try_catch, stkPush_try. cbv zeta.
    fold amountRaw. unfold parseInt_call, ToString. rewrite Cv.
    reflexivity.
  - intros Cv _ P A e N.
    destruct (stkPush w req st) as [[r st'] evs] eqn:Run.
    destruct (stkPush_run _ _ _ _ _ _ NO Run) as [r0 [st0 [Try [D [R _]]]]].
    destruct Try as [_ Bad|err st1 evs _ Bad D1 F
                    |cfg token phone ts ref st1 pre r1 st2 post _ Bad N' D1 F C
                    |err Conv].
    + fold phoneRaw amountRaw amount in Bad. rewrite P, A in Bad. discriminate Bad.
    + exists err, st', evs. subst r. split; [reflexivity|]. split; [congruence|assumption].
    + fold phoneRaw in N'. congruence.
    + apply parseInt_call_throw in Conv. fold amountRaw in Conv.
      destruct Conv as [Conv _]. congruence.
Qed.

(** The amended statement at four requests: an empty phone (400, no
    operation), an amount that is an object with a [toString] property
    (502, no operation), a blank phone and a phone of letters (502
    after the token request). *)
Lemma invalid_input_is_rejected_witness :
  stkPush Sample.happy_world Sample.empty_phone_request Sample.fresh_state =
    (Ok (json 400 (VObj [(lit "error", VStr (lit "phone and amount required"))])),
     Sample.fresh_state, [])
  /\ stkPush Sample.happy_world Sample.unconvertible_amount_request
       Sample.fresh_state =
    (Ok (json 502 (VObj [(lit "error", VStr (lit "stk_push_failed"));
                         (lit "details",
                          VStr (lit "Cannot convert object to primitive value"))])),
     {| db := db Sample.fresh_state; tick := tick Sample.fresh_state;
        console := console Sample.fresh_state ++ [not_primitive] |}, [])
  /\ (exists err st' evs,
        stkPush Sample.happy_world Sample.blank_phone_request Sample.fresh_state =
        (Ok (json 502 (VObj [(lit "error", VStr (lit "stk_push_failed"));
                             (lit "details", VStr (details err))])), st', evs)
        /\ db st' = db Sample.fresh_state /\ Forall is_fetch evs)
  /\ (exists err st' evs,
        stkPush Sample.happy_world Sample.letters_phone_request Sample.fresh_state =
        (Ok (json 502 (VObj [(lit "error", VStr (lit "stk_push_failed"));
                             (lit "details", VStr (details err))])), st', evs)
        /\ db st' = db Sample.fresh_state /\ Forall is_fetch evs).
Proof.
  split; [|split; [|split]].
  - destruct (invalid_input_is_rejected Sample.happy_world Sample.empty_phone_request
                Sample.fresh_state eq_refl) as [Rejected _].
    apply Rejected; [reflexivity|]. left. reflexivity.
  - destruct (invalid_input_is_rejected Sample.happy_world
                Sample.unconvertible_amount_request
                Sample.fresh_state eq_refl) as [_ [Unconvertible _]].
    apply Unconvertible. reflexivity.
  - destruct (invalid_input_is_rejected Sample.happy_world Sample.blank_phone_request
                Sample.fresh_state eq_refl) as [_ [_ Malformed]].
    apply (Malformed eq_refl eq_refl eq_refl eq_refl (Error (lit "Phone is empty"))).
    reflexivity.
  - destruct (invalid_input_is_rejected Sample.happy_world Sample.letters_phone_request
                Sample.fresh_state eq_refl) as [_ [_ Malformed]].
    apply (Malformed eq_refl eq_refl eq_refl eq_refl (unsupported (lit "call me"))).
    reflexivity.
Defined.

(** The only answers of the [try] of [stkPush] are 400 and 200. *)
Lemma push_try_answers (w : world) (req : request) (st : state)
  (resp : response) (st' : state) (evs : list event) :
  push_try_run w req st (Ok resp) st' evs -> status resp = 400 \/ status resp = 200.
Proof.
  intros Try.
  inversion Try as [Cv Bad| |cfg token phone ts ref st1 pre r1 st2 post Cv Bad N D F C| ];
    subst.
  - now left.
  - inversion C; subst. now right.
Qed.

(** C8: when the push POST resolves with a status, the next operation
    is the update of the pending record with the correlation identifier
    read from the answer, the status "pending" exactly when the HTTP
    status is in the 2xx range and "failed" otherwise, the HTTP status
    and the body ([resp.data || null]: the body itself unless it is
    empty); once the store accepts that update the record holds these
    fields and the handler answers HTTP 200 with ok, status, data and
    checkoutRequestId, whatever the HTTP status was.  The handler never
    throws; it answers 502 with the failure code and the message of the
    error exactly when its [try] threw. *)
Theorem push_answer_is_data
  (w : world) (req : request) (st : state)
  (r : outcome response) (st' : state) (evs : list event) :
  str_eqb (method req) (lit "OPTIONS") = false ->
  stkPush w req st = (r, st', evs) ->
  (forall url body auth http_status data,
     In (Http (POST url body auth) (Response http_status data)) evs ->
     let new_status :=
       if (200 <=? http_status) && (http_status <? 300)
       then lit "pending" else lit "failed" in
     exists pre ref refused,
       evs = pre ++ [Http (POST url body auth) (Response http_status data);
                     DocUpdate payments_pending ref
                       [(lit "checkoutRequestId", Plain (push_checkoutRequestId data));
                        (lit "status", Plain (VStr new_status));
                        (lit "responseStatus", Plain (VNum http_status));
                        (lit "responseBody", Plain (js_or data VNull));
                        (lit "updatedAt", ServerTimestamp)] refused]
       /\ (200 <= http_status < 300 <-> new_status = lit "pending")
       /\ (refused = None ->
           r = Ok (json 200 (VObj [(lit "ok", VBool true);
                                   (lit "status", VNum http_status);
                                   (lit "data", js_or data VNull);
                                   (lit "checkoutRequestId", push_checkoutRequestId data)]))
           /\ exists doc,
                find_doc ref (pending_docs (db st')) = Some doc
                /\ prop doc (lit "checkoutRequestId") = push_checkoutRequestId data
                /\ prop doc (lit "status") = VStr new_status
                /\ prop doc (lit "responseStatus") = VNum http_status
                /\ prop doc (lit "responseBody") = js_or data VNull
                /\ (truthy data = true -> prop doc (lit "responseBody") = data)))
  /\ (exists resp, r = Ok resp)
  /\ (forall resp, r = Ok resp ->
        (status resp = 502 <-> exists err, fst (fst (stkPush_try w req st)) = Throw err))
  /\ (forall err, fst (fst (stkPush_try w req st)) = Throw err ->
        r = Ok (json 502 (VObj [(lit "error", VStr (lit "stk_push_failed"));
                                (lit "details", VStr (details err))]))).
Proof.
  intros NO Run.
  destruct (stkPush_run _ _ _ _ _ _ NO Run) as [r0 [st0 [Try [D [R T]]]]].
  split; [|split; [|split]].
  - intros url body auth http_status data I new_status.
    destruct Try as [_ Bad|err st1 evs _ Bad D1 F
                    |cfg token phone ts ref st1 pre r1 st2 post _ Bad N D1 F C
                    |err Conv].
    4: destruct I.
    + destruct I.
    + rewrite Forall_forall in F. destruct (F _ I).
    + apply in_app_or in I. destruct I as [I|I].
      { rewrite Forall_forall in F. destruct (F _ I). }
      assert (S : (200 <= http_status < 300 <-> new_status = lit "pending")).
      { unfold new_status.
        destruct ((200 <=? http_status) && (http_status <? 300)) eqn:B.
        - to_prop. split; [reflexivity|lia].
        - split; [|discriminate]. intros. to_prop; lia. }
      destruct C as [e st3 Dc|t st3 Cv P|e t st3 P|hs d e t st3 P|hs d t t' st3 Fd];
        which_event I; try contradiction I; try discriminate I;
        inversion I; subst.
      * exists (pre ++ [DocSet payments_pending ref
                         (pending_record (request_fields req) phone
                            (parseInt (prop (request_fields req) (lit "amount")))
                            (stkBody_of cfg (request_fields req) phone
                               (parseInt (prop (request_fields req) (lit "amount")))
                               (makePassword (paybill cfg) (passkey cfg) ts) ts)) None]),
               ref, (Some e).
        split; [now rewrite <- app_assoc|]. split; [exact S|discriminate].
      * exists (pre ++ [DocSet payments_pending ref
                         (pending_record (request_fields req) phone
                            (parseInt (prop (request_fields req) (lit "amount")))
                            (stkBody_of cfg (request_fields req) phone
                               (parseInt (prop (request_fields req) (lit "amount")))
                               (makePassword (paybill cfg) (passkey cfg) ts) ts)) None]),
               ref, None.
        split; [now rewrite <- app_assoc|]. split; [exact S|]. intros _.
        split; [reflexivity|].
        eexists. split; [rewrite D; exact Fd|]. repeat split.
        intros Td. cbn. unfold js_or. now rewrite Td.
  - destruct r0; eauto.
  - intros resp ->. destruct r0 as [resp0|err].
    + injection R as ->. split.
      * intros S. destruct (push_try_answers _ _ _ _ _ _ Try); congruence.
      * intros [err E]. congruence.
    + injection R as ->. split; [eauto|reflexivity].
  - intros err E. rewrite T in E. rewrite E in R. exact R.
Qed.

Lemma last_two {A : Type} (pre : list A) (a b d : A) : last (pre ++ [a; b]) d = b.
Proof.
  change (pre ++ [a; b]) with (pre ++ [a] ++ [b]).
  rewrite app_assoc. apply last_last.
Qed.

(** C8 at a push that the upstream answers with 500: the record ends
    as "failed" with the status and body of the answer, and the handler
    answers HTTP 200. *)
Lemma push_answer_is_data_witness :
  let run := stkPush Sample.upstream_rejects Sample.push_request Sample.fresh_state in
  (exists resp, fst (fst run) = Ok resp /\ status resp = 200)
  /\ exists ref doc,
       find_doc ref (pending_docs (db (snd (fst run)))) = Some doc
       /\ prop doc (lit "status") = VStr (lit "failed")
       /\ prop doc (lit "responseStatus") = VNum 500
       /\ prop doc (lit "checkoutRequestId") = VNull.
Proof.
  intros run.
  destruct (push_answer_is_data Sample.upstream_rejects Sample.push_request
              Sample.fresh_state _ _ _ eq_refl (triple_eta run)) as [Post _].
  assert (I : exists url body auth data,
            In (Http (POST url body auth) (Response 500 data)) (snd run)
            /\ push_checkoutRequestId data = VNull).
  { vm_compute. do 4 eexists. split; [right; right; left; reflexivity|reflexivity]. }
  destruct I as [url [body [auth [data [I Cid]]]]].
  destruct (Post _ _ _ _ _ I) as [pre [ref [refused [E [_ Accepted]]]]].
  assert (R : refused = None).
  { apply (f_equal (fun l => last l (DocGet app_config VNull None))) in E.
    rewrite last_two in E. vm_compute in E. congruence. }
  destruct (Accepted R) as [Answer [doc [F [C [S [RS _]]]]]].
  split.
  - eexists. split; [exact Answer|reflexivity].
  - exists ref, doc. rewrite <- Cid. auto.
Defined.

(* ================================================================== *)
(** * Further properties *)
(* ================================================================== *)

(** ** More on phone normalization *)

Lemma drop_while_digit_head (s : jsstring) :
  forallb is_digit s = true -> drop_while is_space s = s.
Proof.
  destruct s as [|c t]; [reflexivity|]. cbn [forallb drop_while].
  intros H. apply andb_prop in H. destruct H as [D _].
  destruct (is_space c) eqn:S; [|reflexivity].
  apply space_not_digit in S. congruence.
Qed.

Lemma forallb_rev (p : Z -> bool) (s : jsstring) :
  forallb p (rev s) = forallb p s.
Proof.
  induction s as [|c t IH]; [reflexivity|].
  cbn [rev forallb]. rewrite forallb_app, IH. cbn [forallb].
  destruct (p c), (forallb p t); reflexivity.
Qed.

Lemma trim_digits (s : jsstring) : forallb is_digit s = true -> trim s = s.
Proof.
  intros D. unfold trim. rewrite (drop_while_digit_head s D).
  rewrite drop_while_digit_head by now rewrite forallb_rev.
  apply rev_involutive.
Qed.

Lemma filter_digits (s : jsstring) : forallb is_digit s = true -> filter is_digit s = s.
Proof.
  induction s as [|c t IH]; [reflexivity|]. cbn [forallb filter].
  intros H. apply andb_prop in H. destruct H as [D T]. rewrite D, IH; auto.
Qed.

Lemma international_digits (p : jsstring) :
  re_intl p = true -> forallb is_digit p = true.
Proof.
  destruct p as [|c0 [|c1 [|c2 [|c3 r]]]]; try discriminate.
  cbn [re_intl forallb]. unfold digits8, is_digit. intros H.
  repeat (apply andb_prop in H; destruct H as [H ?]).
  to_prop. subst. cbn. assumption.
Qed.

(** The normalization of a number in international form is the number
    itself. *)
Lemma normalizePhone_fixed (p : jsstring) :
  re_intl p = true -> normalizePhoneForDaraja (VStr p) = Ok p.
Proof.
  intros I. pose proof (international_digits p I) as D.
  rewrite normalizePhone_string. rewrite (trim_digits p D).
  assert (S : stripped p = p).
  { unfold stripped. rewrite filter_digit_strip_plus. now apply filter_digits. }
  rewrite S.
  destruct p as [|c0 [|c1 [|c2 [|c3 r]]]]; try discriminate I.
  cbn [is_empty]. pose proof I as I'. cbn [re_intl] in I'.
  repeat (apply andb_prop in I'; destruct I' as [I' ?]). to_prop. subst.
  cbn [re_local re_bare]. cbn [Z.eqb Pos.eqb andb]. now rewrite I.
Qed.

Lemma digits8_tail (c : Z) (d : jsstring) :
  re_bare (c :: d) = true -> re_intl (lit "254" ++ c :: d) = true.
Proof. cbn. auto. Qed.

Lemma normalizePhone_re_intl (raw : value) (p : jsstring) :
  normalizePhoneForDaraja raw = Ok p -> re_intl p = true.
Proof.
  intros H. unfold normalizePhoneForDaraja in H.
  destruct (toString_method _ _) as [text|e]; [|discriminate H].
  cbn [and_then] in H. cbv zeta in H.
  destruct (is_empty _); [discriminate H|].
  set (d := filter is_digit _) in H.
  destruct (re_local d) eqn:L.
  - injection H as <-. destruct d as [|c0 [|c1 r]]; try discriminate L.
    cbn [re_local] in L. apply andb_prop in L. destruct L as [L D8].
    apply andb_prop in L. destruct L as [_ L]. cbn. now rewrite L.
  - destruct (re_bare d) eqn:B.
    + injection H as <-. destruct d as [|c0 r]; try discriminate B.
      now apply digits8_tail.
    + destruct (re_intl d) eqn:I; [|discriminate H]. now injection H as <-.
Qed.

(** X1: whatever the value handed in, a number that
    [normalizePhoneForDaraja] returns is in international form (2547
    followed by eight digits), and normalizing it once more returns it
    unchanged. *)
Theorem normalizePhone_returns_international (raw : value) (p : jsstring) :
  normalizePhoneForDaraja raw = Ok p ->
  international_shape p /\ normalizePhoneForDaraja (VStr p) = Ok p.
Proof.
  intros H. apply normalizePhone_re_intl in H.
  split; [now apply re_intl_iff|now apply normalizePhone_fixed].
Qed.

(** The property at a phone given as a number: 712345678. *)
Lemma normalizePhone_returns_international_witness :
  international_shape (lit "254712345678")
  /\ normalizePhoneForDaraja (VStr (lit "254712345678")) = Ok (lit "254712345678").
Proof.
  apply (normalizePhone_returns_international (VNum 712345678)). reflexivity.
Defined.

(** X2: between two phone texts that are not blank and hold the same
    digits in the same order, the other characters make no difference:
    both normalize to the same number or neither normalizes. *)
Theorem normalizePhone_reads_digits_only (a b : jsstring) :
  is_empty (trim a) = false -> is_empty (trim b) = false ->
  filter is_digit a = filter is_digit b ->
  (forall p, normalizePhoneForDaraja (VStr a) = Ok p <->
             normalizePhoneForDaraja (VStr b) = Ok p)
  /\ ((exists e, normalizePhoneForDaraja (VStr a) = Throw e) <->
      (exists e, normalizePhoneForDaraja (VStr b) = Throw e)).
Proof.
  intros A B E. rewrite !normalizePhone_string, A, B. cbv zeta.
  unfold stripped. rewrite !filter_digit_strip_plus, E.
  destruct (re_local _); [split; [tauto|split; intros [e H]; discriminate H]|].
  destruct (re_bare _); [split; [tauto|split; intros [e H]; discriminate H]|].
  destruct (re_intl _); [split; [tauto|split; intros [e H]; discriminate H]|].
  split; [split; discriminate|split; eauto].
Qed.

Lemma normalizePhone_reads_digits_only_witness :
  normalizePhoneForDaraja (VStr (lit "+254 (712) 345-678")) = Ok (lit "254712345678").
Proof.
  apply (normalizePhone_reads_digits_only (lit "+254 (712) 345-678") (lit "254712345678")
           eq_refl eq_refl eq_refl).
  reflexivity.
Defined.

(** ** The timestamp *)

Lemma digits_value_shift (s : jsstring) (acc : Z) :
  digits_value acc s = acc * 10 ^ Z.of_nat (length s) + digits_value 0 s.
Proof.
  revert acc. induction s as [|c t IH]; intros acc.
  - cbn. lia.
  - cbn [digits_value length]. rewrite IH, (IH (10 * 0 + (c - 48))).
    rewrite Nat2Z.inj_succ, Z.pow_succ_r by lia. ring.
Qed.

Lemma digits_value_app (a b : jsstring) (acc : Z) :
  digits_value acc (a ++ b) = digits_value (digits_value acc a) b.
Proof.
  revert acc. induction a as [|c t IH]; intros acc; [reflexivity|].
  cbn [app digits_value]. apply IH.
Qed.

Lemma padded_below (width bound : nat) :
  forallb (fun k => padded width (Z.of_nat k)) (seq 0 bound) = true ->
  forall n, 0 <= n < Z.of_nat bound -> padded width n = true.
Proof.
  intros All n R. rewrite forallb_forall in All.
  rewrite <- (Z2Nat.id n) by lia. apply All, in_seq. lia.
Qed.

Lemma padded_2 (n : Z) : 0 <= n < 100 -> padded 2 n = true.
Proof. apply (padded_below 2 100). vm_compute. reflexivity. Qed.

Lemma padded_4 (n : Z) : 0 <= n < 10000 -> padded 4 n = true.
Proof. apply (padded_below 4 (100 * 100)). vm_compute. reflexivity. Qed.

Lemma padded_inv (width : nat) (n : Z) :
  padded width n = true ->
  length (padStart width 48 (dec n)) = width
  /\ forallb is_digit (padStart width 48 (dec n)) = true
  /\ digits_value 0 (padStart width 48 (dec n)) = n.
Proof.
  unfold padded. cbv zeta. intros H.
  apply andb_prop in H. destruct H as [H V]. apply andb_prop in H. destruct H as [L D].
  apply Nat.eqb_eq in L. apply Z.eqb_eq in V. auto.
Qed.

Lemma format_date_digits (d : date) :
  calendar_date d ->
  length (format_date d) = 14%nat
  /\ forallb is_digit (format_date d) = true
  /\ digits_value 0 (format_date d) = reading d.
Proof.
  intros [Y [Mo [D [H [Mi S]]]]].
  unfold format_date, reading. cbv zeta.
  destruct (padded_inv 4 _ (padded_4 (UTCFullYear d) ltac:(lia))) as [L1 [D1 V1]].
  destruct (padded_inv 2 _ (padded_2 (UTCMonth d + 1) ltac:(lia))) as [L2 [D2 V2]].
  destruct (padded_inv 2 _ (padded_2 (UTCDate d) ltac:(lia))) as [L3 [D3 V3]].
  destruct (padded_inv 2 _ (padded_2 (UTCHours d) ltac:(lia))) as [L4 [D4 V4]].
  destruct (padded_inv 2 _ (padded_2 (UTCMinutes d) ltac:(lia))) as [L5 [D5 V5]].
  destruct (padded_inv 2 _ (padded_2 (UTCSeconds d) ltac:(lia))) as [L6 [D6 V6]].
  split; [|split].
  - rewrite !length_app, L1, L2, L3, L4, L5, L6. reflexivity.
  - rewrite !forallb_app, D1, D2, D3, D4, D5, D6. reflexivity.
  - rewrite !digits_value_app.
    rewrite V1.
    rewrite (digits_value_shift (padStart 2 48 (dec (UTCSeconds _)))), L6, V6.
    rewrite (digits_value_shift (padStart 2 48 (dec (UTCMinutes _)))), L5, V5.
    rewrite (digits_value_shift (padStart 2 48 (dec (UTCHours _)))), L4, V4.
    rewrite (digits_value_shift (padStart 2 48 (dec (UTCDate _)))), L3, V3.
    rewrite (digits_value_shift (padStart 2 48 (dec (UTCMonth _ + 1)))), L2, V2.
    change (10 ^ Z.of_nat 2) with 100. reflexivity.
Qed.

(** X3: for a clock reading of the years 0 to 9999, [utcTimestamp] reads
    the clock once, does nothing else, and returns exactly fourteen
    decimal digits whose value is year, month (counted from 1), day,
    hour, minute and second, each in its two (four for the year)
    positions. *)
Theorem utcTimestamp_is_fourteen_digits (w : world) (st : state) :
  calendar_date (wall_clock w (tick st)) ->
  exists ts,
    utcTimestamp w st = (Ok ts, next st, [])
    /\ length ts = 14%nat
    /\ forallb is_digit ts = true
    /\ digits_value 0 ts = reading (wall_clock w (tick st)).
Proof.
  intros C. exists (format_date (wall_clock w (tick st))).
  split; [reflexivity|]. now apply format_date_digits.
Qed.

Lemma utcTimestamp_is_fourteen_digits_witness :
  exists ts,
    utcTimestamp Sample.happy_world Sample.fresh_state
    = (Ok ts, next Sample.fresh_state, [])
    /\ length ts = 14%nat
    /\ forallb is_digit ts = true
    /\ digits_value 0 ts = 20240105090307.
Proof.
  apply (utcTimestamp_is_fourteen_digits Sample.happy_world Sample.fresh_state).
  unfold calendar_date. cbn. lia.
Defined.

(** X22: timestamps keep the order of the clock.  Of two calls of
    [utcTimestamp] that read the clock at dates of the years 0 to 9999,
    the one that reads the later (or the same) date returns the larger
    (or the same) fourteen digits, and conversely. *)
Theorem utcTimestamp_keeps_order (w : world) (st1 st2 : state) (ts1 ts2 : jsstring) :
  calendar_date (wall_clock w (tick st1)) ->
  calendar_date (wall_clock w (tick st2)) ->
  fst (fst (utcTimestamp w st1)) = Ok ts1 ->
  fst (fst (utcTimestamp w st2)) = Ok ts2 ->
  no_later (wall_clock w (tick st1)) (wall_clock w (tick st2))
  <-> digits_value 0 ts1 <= digits_value 0 ts2.
Proof.
  intros C1 C2 [= <-] [= <-].
  destruct (format_date_digits _ C1) as [_ [_ ->]].
  destruct (format_date_digits _ C2) as [_ [_ ->]].
  unfold calendar_date in C1, C2. unfold no_later, reading. lia.
Qed.

(** The property at two calls one second apart. *)
Lemma utcTimestamp_keeps_order_witness :
  digits_value 0 (lit "20240105090307") <= digits_value 0 (lit "20240105090308").
Proof.
  apply (utcTimestamp_keeps_order ticking_world Sample.fresh_state
           (next Sample.fresh_state) (lit "20240105090307") (lit "20240105090308")).
  - unfold calendar_date. cbn. lia.
  - unfold calendar_date. cbn. lia.
  - reflexivity.
  - reflexivity.
  - unfold no_later. cbn. lia.
Defined.

(** ** More on values and documents *)

Lemma value_eqb_eq (a other : value) : value_eqb a other = true -> a = other.
Proof.
  revert other. induction a using value_rect'; intros other; destruct other;
    cbn [value_eqb]; try discriminate; try reflexivity.
  - intros E. apply Bool.eqb_prop in E. now subst.
  - intros E. apply Z.eqb_eq in E. now subst.
  - intros E. apply str_eqb_eq in E. now subst.
  - revert items0. induction H as [|x r Hx _ IH]; intros [|y r']; try discriminate.
    + reflexivity.
    + intros E. apply andb_prop in E. destruct E as [E1 E2].
      apply Hx in E1. apply IH in E2. injection E2 as ->. now subst.
  - revert fields0. induction H as [|[k x] r Hx _ IH]; intros [|[k' y] r'];
      try discriminate.
    + reflexivity.
    + intros E. apply andb_prop in E. destruct E as [E E3].
      apply andb_prop in E. destruct E as [E1 E2].
      apply str_eqb_eq in E1. cbn [snd] in Hx. apply Hx in E2. apply IH in E3.
      injection E3 as ->. now subst.
  - intros E. apply Z.eqb_eq in E. now subst.
Qed.

Lemma find_put_other (id id0 data : value) (d : documents) :
  value_eqb id id0 = false -> find_doc id (put_doc id0 data d) = find_doc id d.
Proof.
  intros N. induction d as [|[id' old] rest IH]; cbn [put_doc find_doc].
  - now rewrite N.
  - destruct (value_eqb id0 id') eqn:E; cbn [find_doc].
    + apply value_eqb_eq in E. subst id'. now rewrite N.
    + now rewrite IH.
Qed.

Lemma put_doc_keys (id data old : value) (d : documents) :
  find_doc id d = Some old -> map fst (put_doc id data d) = map fst d.
Proof.
  induction d as [|[id' o] rest IH]; cbn [put_doc find_doc]; [discriminate|].
  destruct (value_eqb id id') eqn:E; cbn [map fst]; [reflexivity|].
  intros F. now rewrite IH.
Qed.

Lemma put_doc_new (id data : value) (d : documents) :
  find_doc id d = None -> put_doc id data d = d ++ [(id, data)].
Proof.
  induction d as [|[id' o] rest IH]; cbn [put_doc find_doc]; [reflexivity|].
  destruct (value_eqb id id') eqn:E; [discriminate|].
  intros F. cbn [app]. now rewrite IH.
Qed.

Lemma put_doc_twice (id d1 d2 : value) (d : documents) :
  put_doc id d2 (put_doc id d1 d) = put_doc id d2 d.
Proof.
  induction d as [|[id' o] rest IH]; cbn [put_doc].
  - now rewrite value_eqb_refl.
  - destruct (value_eqb id id') eqn:E; cbn [put_doc]; rewrite E; [reflexivity|].
    now rewrite IH.
Qed.


(** ** More on token acquisition *)


(** ** The steps of the push handler *)

Lemma getDarajaToken_ok (w : world) (url ck cs : value) (st : state)
  (token : value) (st' : state) (evs : list event) :
  getDarajaToken w url ck cs st = (Ok token, st', evs) ->
  exists status data,
    evs = [Http (GET url (lit "Basic " ++
                          base64 (utf8 (js_toString ck ++ lit ":" ++ js_toString cs))))
                (Response status data)]
    /\ 200 <= status < 300
    /\ truthy token = true
    /\ token = prop data (lit "access_token").
Proof.
  unfold getDarajaToken, bind, axios, ret, throw. cbv beta zeta.
  destruct (http w (tick st) _) as [status data|e]; [|discriminate].
  cbv beta iota zeta.
  destruct ((200 <=? status) && (status <? 300) && truthy data
            && truthy (prop data (lit "access_token"))) eqn:C; [|discriminate].
  intros [= <- <- <-].
  apply andb_prop in C. destruct C as [C T]. apply andb_prop in C. destruct C as [C _].
  to_prop. exists status, data. auto.
Qed.

(** Config resolution: no operation, or one read of the fallback
    document. *)
Lemma getDarajaConfig_cases (w : world) (st : state)
  (r : outcome config) (st' : state) (evs : list event) :
  getDarajaConfig w st = (r, st', evs) ->
  (st' = st /\ evs = [])
  \/ (st' = next st
      /\ exists refused, evs = [DocGet app_config (VStr (lit "daraja")) refused]).
Proof.
  unfold getDarajaConfig.
  match goal with |- context [if ?c then _ else _] => destruct c end.
  - unfold ret. run_eq. now left.
  - unfold loadDarajaConfigFromFirestore. unfold bind, doc_get, ret, throw. cbv beta.
    destruct (store_refuses w (tick st)).
    + run_eq. right. eauto.
    + destruct (find_doc _ _) as [data|].
      * match goal with |- context [if ?c then _ else _] => destruct c end;
          run_eq; right; eauto.
      * run_eq. right. eauto.
Qed.

(** The token block: one request, or two when the first failed. *)
Lemma stkPush_token_cases (w : world) (cfg : config) (st : state)
  (r : outcome value) (st' : state) (evs : list event) :
  stkPush_token w cfg st = (r, st', evs) ->
  (exists r1,
     getDarajaToken w (oauthurl cfg) (consumerKey cfg) (consumerSecret cfg) st
       = (r1, st', evs)
     /\ st' = next st
     /\ (r = r1 \/ exists e1 e, r1 = Throw e1 /\ r = Throw e))
  \/ (exists e1 ev1 sandbox ev2,
        getDarajaToken w (oauthurl cfg) (consumerKey cfg) (consumerSecret cfg) st
          = (Throw e1, next st, ev1)
        /\ getDarajaToken w sandbox (consumerKey cfg) (consumerSecret cfg) (next st)
           = (r, st', ev2)
        /\ st' = next (next st)
        /\ evs = ev1 ++ ev2).
Proof.
  unfold stkPush_token, try_catch.
  destruct (getDarajaToken w (oauthurl cfg) (consumerKey cfg) (consumerSecret cfg) st)
    as [[[token|err] st1] ev1] eqn:First;
    destruct (getDarajaToken_run _ _ _ _ _ _ _ _ First) as [-> ->].
  - run_eq. left. eexists. split; [reflexivity|]. auto.
  - unfold bind, lift, ret, throw.
    destruct (truthy (oauthurl cfg)); cbv beta iota zeta.
    + destruct (call_includes (oauthurl cfg) production_host) as [[|]|e].
      * destruct (call_replace (oauthurl cfg) production_host sandbox_host)
          as [sandbox|e].
        -- destruct (getDarajaToken w sandbox (consumerKey cfg) (consumerSecret cfg)
                       (next st)) as [[r2 st2] ev2] eqn:Second.
           destruct (getDarajaToken_run _ _ _ _ _ _ _ _ Second) as [E ->].
           run_eq. right. exists err. eexists. exists sandbox, ev2.
           split; [reflexivity|]. split; [exact Second|]. split; reflexivity.
        -- run_eq. left. eexists. rewrite ?app_nil_r.
           split; [reflexivity|]. split; [reflexivity|]. right. eauto.
      * run_eq. left. eexists. rewrite ?app_nil_r.
        split; [reflexivity|]. split; [reflexivity|]. right. eauto.
      * run_eq. left. eexists. rewrite ?app_nil_r.
        split; [reflexivity|]. split; [reflexivity|]. right. eauto.
    + run_eq. left. eexists. rewrite ?app_nil_r.
      split; [reflexivity|]. split; [reflexivity|]. right. eauto.
Qed.



(** The tail of the handler, run by run, with the state each leaves. *)
Lemma push_commit_cases (w : world) (cfg : config) (body : value) (phone : jsstring)
  (amount stkBody token ref : value) (st : state)
  (r : outcome response) (st' : state) (evs : list event) :
  push_commit w cfg body phone amount stkBody token ref st = (r, st', evs) ->
  let data := pending_record body phone amount stkBody in
  let post := POST (stkurl cfg) stkBody (lit "Bearer " ++ js_toString token) in
  let created := VObj (stamp (server_clock w (tick st)) data) in
  let st1 := write_doc payments_pending ref created st in
  (exists e, r = Throw e /\ st' = next st
             /\ evs = [DocSet payments_pending ref data (Some e)])
  \/ (converts token = false
      /\ r = Throw not_primitive /\ st' = st1
      /\ evs = [DocSet payments_pending ref data None])
  \/ (exists e, r = Throw e /\ st' = next st1
                /\ evs = [DocSet payments_pending ref data None; Http post (Failure e)])
  \/ (exists status answer e,
        r = Throw e /\ st' = next (next st1)
        /\ evs = [DocSet payments_pending ref data None;
                  Http post (Response status answer);
                  DocUpdate payments_pending ref (push_update status answer) (Some e)])
  \/ (exists status answer,
        r = Ok (json 200 (push_answer status answer))
        /\ st' = write_doc payments_pending ref
                   (merge created
                      (stamp (server_clock w (S (S (tick st))))
                         (push_update status answer)))
                   (next st1)
        /\ evs = [DocSet payments_pending ref data None;
                  Http post (Response status answer);
                  DocUpdate payments_pending ref (push_update status answer) None]).
Proof.
  unfold push_commit, bind, doc_set, axios, doc_update, ret, lift, ToString.
  cbv beta.
  destruct (store_refuses w (tick st)) as [e|] eqn:R1.
  { run_eq. left. eauto. }
  destruct (converts token) eqn:Cv.
  2: { run_eq. right. left. split; [reflexivity|]. split; [reflexivity|].
       split; reflexivity. }
  cbn [tick write_doc with_db next].
  destruct (http w (S (tick st)) _) as [status data|e] eqn:P.
  2: { run_eq. right. right. left. eexists. split; [reflexivity|].
       split; reflexivity. }
  cbv beta iota zeta. store_simpl. rewrite find_put_same.
  destruct (store_refuses w (S (S (tick st)))) as [e|] eqn:R2; run_eq.
  - right. right. right. left. exists status, data, e.
    split; [reflexivity|]. split; reflexivity.
  - right. right. right. right. exists status, data.
    split; [reflexivity|]. split; reflexivity.
Qed.

(** A request is sent only with a token that converts to text. *)
Lemma push_commit_bearer (w : world) (cfg : config) (body : value) (phone : jsstring)
  (amount stkBody token ref : value) (st : state)
  (r : outcome response) (st' : state) (evs : list event) :
  push_commit w cfg body phone amount stkBody token ref st = (r, st', evs) ->
  forall q res, In (Http q res) evs -> converts token = true.
Proof.
  unfold push_commit, bind, doc_set, lift, ToString. cbv beta.
  destruct (converts token); [reflexivity|].
  destruct (store_refuses w (tick st)); intros Commit q res I;
    injection Commit as _ _ <-;
    which_event I; try contradiction I; discriminate I.
Qed.

Lemma getDarajaConfig_quiet (w : world) (st : state)
  (r : outcome config) (st' : state) (evs : list event) :
  getDarajaConfig w st = (r, st', evs) ->
  db st' = db st /\ console st' = console st /\ Forall is_fetch evs.
Proof.
  intros H. destruct (getDarajaConfig_reads _ _ _ _ _ H) as [D F].
  split; [exact D|]. split; [|exact F].
  destruct (getDarajaConfig_cases _ _ _ _ _ H) as [[-> _]|[-> _]]; reflexivity.
Qed.

Lemma stkPush_token_quiet (w : world) (cfg : config) (st : state)
  (r : outcome value) (st' : state) (evs : list event) :
  stkPush_token w cfg st = (r, st', evs) ->
  db st' = db st /\ console st' = console st /\ Forall is_fetch evs
  /\ forall token, r = Ok token -> truthy token = true /\ granted cfg token evs.
Proof.
  intros H. destruct (stkPush_token_reads _ _ _ _ _ _ H) as [D F].
  split; [exact D|].
  destruct (stkPush_token_cases _ _ _ _ _ _ H)
    as [[r1 [First [-> R]]]|[e1 [x1 [sb [x2 [_ [Second [-> ->]]]]]]]].
  - split; [reflexivity|]. split; [exact F|]. intros token ->.
    destruct R as [<-|[e1 [e [_ R]]]]; [|discriminate R].
    destruct (getDarajaToken_ok _ _ _ _ _ _ _ _ First) as [s [d [E [R [T P]]]]].
    split; [exact T|]. exists (oauthurl cfg), s, d.
    split; [rewrite E; left; reflexivity|]. auto.
  - split; [reflexivity|]. split; [exact F|]. intros token ->.
    destruct (getDarajaToken_ok _ _ _ _ _ _ _ _ Second) as [s [d [E [R [T P]]]]].
    split; [exact T|]. exists sb, s, d.
    split; [apply in_or_app; right; rewrite E; left; reflexivity|]. auto.
Qed.

(** The [try] of the handler, step by step. *)
Lemma stkPush_try_steps (w : world) (req : request) (st : state)
  (r : outcome response) (st' : state) (evs : list event) :
  stkPush_try w req st = (r, st', evs) ->
  let fields := request_fields req in
  let amount := parseInt (prop fields (lit "amount")) in
  (r = Ok (json 400 (VObj [(lit "error", VStr (lit "phone and amount required"))]))
   /\ st' = st /\ evs = [])
  \/ (exists e, r = Throw e /\ db st' = db st /\ console st' = console st
                /\ Forall is_fetch evs)
  \/ (exists cfg token phone st2 pre post,
        fst (fst (getDarajaConfig w st)) = Ok cfg
        /\ truthy (prop fields (lit "phone")) = true
        /\ truthy amount = true
        /\ normalizePhoneForDaraja (prop fields (lit "phone")) = Ok phone
        /\ truthy token = true
        /\ db st2 = db st /\ console st2 = console st /\ Forall is_fetch pre
        /\ push_commit w cfg fields phone amount
             (stkBody_of cfg fields phone amount
                (makePassword (paybill cfg) (passkey cfg)
                   (format_date (wall_clock w (tick st2))))
                (format_date (wall_clock w (tick st2))))
             token (VStr (auto_id w (S (tick st2)))) (next (next st2))
           = (r, st', post)
        /\ evs = pre ++ post
        /\ granted cfg token pre
        /\ converts (prop fields (lit "amount")) = true).
Proof.
  unfold stkPush_try. cbv zeta. intros H.
  apply bind_inv in H. unfold lift in H.
  destruct H as [[e [Ha ->]]|[amount [st0 [ev0 [ev0' [Ha [H ->]]]]]]];
    injection Ha as Ha <- <-.
  { right. left. exists e. auto. }
  apply parseInt_call_ok in Ha. destruct Ha as [-> Cv]. cbn [app].
  revert H.
  destruct (negb (truthy (prop (request_fields req) (lit "phone")))
            || negb (truthy (parseInt (prop (request_fields req) (lit "amount")))))
    eqn:Bad.
  { unfold ret. run_eq. now left. }
  apply orb_false_iff in Bad. destruct Bad as [Ph Am].
  apply negb_false_iff in Ph. apply negb_false_iff in Am.
  intros H. right.
  apply bind_inv in H.
  destruct H as [[e [Hc ->]]|[cfg [st1 [ev1 [ev2 [Hc [H ->]]]]]]];
    destruct (getDarajaConfig_quiet _ _ _ _ _ Hc) as [D1 [C1 F1]].
  { left. exists e. auto. }
  apply bind_inv in H.
  destruct H as [[e [Ht ->]]|[token [st2 [ev2' [ev3 [Ht [H ->]]]]]]];
    destruct (stkPush_token_quiet _ _ _ _ _ _ Ht) as [D2 [C2 [F2 T2]]].
  { left. exists e. split; [reflexivity|]. split; [congruence|].
    split; [congruence|now apply Forall_app]. }
  apply bind_inv in H. unfold lift in H.
  destruct H as [[e [Hn ->]]|[phone [st3 [ev3' [ev4 [Hn [H ->]]]]]]];
    injection Hn as Hn <- <-.
  { left. exists e. split; [reflexivity|]. split; [congruence|].
    split; [congruence|]. rewrite app_nil_r. now apply Forall_app. }
  apply bind_inv in H. unfold utcTimestamp, new_Date, bind, ret in H.
  destruct H as [[e [Hd _]]|[timestamp [st4 [ev4' [ev5 [Hd [H ->]]]]]]];
    [discriminate Hd|]. injection Hd as <- <- <-.
  apply bind_inv in H. unfold doc_new in H.
  destruct H as [[e [Hr _]]|[ref [st5 [ev5' [ev6 [Hr [H ->]]]]]]];
    [discriminate Hr|]. injection Hr as <- <- <-.
  right. exists cfg, token, phone, st2, (ev1 ++ ev2'), ev6.
  split; [now rewrite Hc|].
  split; [exact Ph|]. split; [exact Am|]. split; [exact Hn|].
  destruct (T2 token eq_refl) as [T G].
  split; [exact T|]. split; [congruence|]. split; [congruence|].
  split; [now apply Forall_app|]. split; [exact H|].
  split; [cbn [app]; now rewrite app_assoc|].
  split; [|exact Cv].
  destruct G as [url [status [data [I G]]]]. exists url, status, data.
  split; [apply in_or_app; now right|exact G].
Qed.

(** The handler around its [try]. *)
Lemma stkPush_wraps (w : world) (req : request) (st : state) :
  str_eqb (method req) (lit "OPTIONS") = false ->
  match stkPush_try w req st with
  | (Ok resp, st0, evs0) => stkPush w req st = (Ok resp, st0, evs0)
  | (Throw err, st0, evs0) =>
      stkPush w req st =
        (Ok (json 502 (VObj [(lit "error", VStr (lit "stk_push_failed"));
                             (lit "details", VStr (details err))])),
         {| db := db st0; tick := tick st0; console := console st0 ++ [err] |},
         evs0)
  end.
Proof.
  intros NO. unfold stkPush. rewrite NO. unfold try_catch.
  destruct (stkPush_try w req st) as [[[resp|err] st0] evs0]; [reflexivity|].
  unfold bind, console_error, ret. now rewrite !app_nil_r.
Qed.

(** ** What the push handler always does *)

(** X6: [stkPush] never throws.  Whatever the request and the world, it
    ends with one answer that carries the CORS header and one of the
    statuses 204, 400, 200 and 502: 204 exactly for the pre-flight
    method; 204 and 400 without any outbound operation and without any
    change of state; 502 with the failure code and the message of the
    error, which is also the one line added to the error console; and
    no line is added to the console otherwise. *)
Theorem stkPush_always_answers (w : world) (req : request) (st : state) :
  exists resp st' evs,
    stkPush w req st = (Ok resp, st', evs)
    /\ headers resp = cors
    /\ (status resp = 204 \/ status resp = 400 \/ status resp = 200
        \/ status resp = 502)
    /\ (status resp = 204 <-> method req = lit "OPTIONS")
    /\ (status resp = 204 \/ status resp = 400 -> st' = st /\ evs = [])
    /\ (status resp = 502 ->
        exists err,
          console st' = console st ++ [err]
          /\ sent resp = Json (VObj [(lit "error", VStr (lit "stk_push_failed"));
                                     (lit "details", VStr (details err))]))
    /\ (status resp <> 502 -> console st' = console st).
Proof.
  destruct (str_eqb (method req) (lit "OPTIONS")) eqn:NO.
  { unfold stkPush. rewrite NO. apply str_eqb_eq in NO.
    exists (send 204 []), st, []. split; [reflexivity|]. split; [reflexivity|].
    split; [now left|]. split; [tauto|]. split; [auto|].
    split; [discriminate|reflexivity]. }
  assert (NM : method req <> lit "OPTIONS").
  { intros E. apply str_eqb_eq in E. congruence. }
  pose proof (stkPush_wraps w req st NO) as W.
  destruct (stkPush_try w req st) as [[r0 st0] evs0] eqn:Try.
  apply stkPush_try_steps in Try. cbv zeta in Try.
  destruct Try as [[-> [-> ->]]|[[e [-> [D [C F]]]]|Steps]].
  - eexists. eexists. eexists. split; [exact W|]. cbn [json status headers sent].
    split; [reflexivity|]. split; [auto|].
    split; [split; [discriminate|contradiction]|].
    split; [auto|]. split; [discriminate|reflexivity].
  - eexists. eexists. eexists. split; [exact W|]. cbn [json status headers sent console].
    split; [reflexivity|]. split; [auto|].
    split; [split; [discriminate|contradiction]|].
    split; [intros [X|X]; discriminate X|].
    split; [|congruence]. intros _. exists e. rewrite C. auto.
  - destruct Steps as [cfg [token [phone [st2 [pre [post
      [_ [_ [_ [_ [_ [D2 [C2 [_ [Commit [-> _]]]]]]]]]]]]]]]].
    apply push_commit_cases in Commit. cbv zeta in Commit.
    destruct Commit as [[e [-> [-> _]]]|[[_ [-> [-> _]]]|[[e [-> [-> _]]]
      |[[hs [ans [e [-> [-> _]]]]]|[hs [ans [-> [-> _]]]]]]]];
      eexists; eexists; eexists; (split; [exact W|]);
      cbn [json status headers sent console write_doc with_db next];
      (split; [reflexivity|]); (split; [auto|]);
      (split; [split; [discriminate|contradiction]|]);
      (split; [intros [X|X]; discriminate X|]).
    all: try (split; [|congruence]; intros _; exists e; rewrite C2; auto).
    all: try solve [split; [|congruence]; intros _; exists not_primitive;
                    rewrite C2; auto].
    split; [discriminate|intros _; exact C2].
Qed.

(** Every run of the handler: one that stops before the first write,
    or one that goes on to the writes. *)
Lemma stkPush_cases (w : world) (req : request) (st : state)
  (r : outcome response) (st' : state) (evs : list event) :
  stkPush w req st = (r, st', evs) ->
  let fields := request_fields req in
  let amount := parseInt (prop fields (lit "amount")) in
  (db st' = db st /\ Forall is_fetch evs)
  \/ (exists cfg token phone st2 pre r0 st0 post,
        fst (fst (getDarajaConfig w st)) = Ok cfg
        /\ truthy amount = true
        /\ normalizePhoneForDaraja (prop fields (lit "phone")) = Ok phone
        /\ truthy token = true
        /\ db st2 = db st /\ Forall is_fetch pre
        /\ push_commit w cfg fields phone amount
             (stkBody_of cfg fields phone amount
                (makePassword (paybill cfg) (passkey cfg)
                   (format_date (wall_clock w (tick st2))))
                (format_date (wall_clock w (tick st2))))
             token (VStr (auto_id w (S (tick st2)))) (next (next st2))
           = (r0, st0, post)
        /\ evs = pre ++ post
        /\ db st' = db st0
        /\ (forall resp, r0 = Ok resp -> r = Ok resp)
        /\ granted cfg token pre
        /\ converts (prop fields (lit "amount")) = true).
Proof.
  destruct (str_eqb (method req) (lit "OPTIONS")) eqn:NO.
  { unfold stkPush. rewrite NO. unfold ret. run_eq. left. split; [reflexivity|constructor]. }
  pose proof (stkPush_wraps w req st NO) as W.
  destruct (stkPush_try w req st) as [[r0 st0] evs0] eqn:Try.
  apply stkPush_try_steps in Try. cbv zeta in Try.
  destruct Try as [[-> [-> ->]]|[[e [-> [D [C F]]]]|Steps]].
  - rewrite W. run_eq. left. split; [reflexivity|constructor].
  - rewrite W. run_eq. left. split; [exact D|exact F].
  - destruct Steps as [cfg [token [phone [st2 [pre [post
      [Cfg [_ [Am [N [T [D2 [_ [F [Commit [-> G]]]]]]]]]]]]]]]].
    intros Run. cbv zeta. right.
    exists cfg, token, phone, st2, pre, r0, st0, post.
    split; [exact Cfg|]. split; [exact Am|]. split; [exact N|]. split; [exact T|].
    split; [exact D2|]. split; [exact F|]. split; [exact Commit|].
    destruct r0 as [resp|err]; rewrite W in Run; injection Run as <- <- <-.
    + split; [reflexivity|]. split; [reflexivity|].
      split; [now intros ? [= <-]|exact G].
    + split; [reflexivity|]. split; [reflexivity|]. split; [discriminate|exact G].
Qed.

Lemma not_fetch_in (e : event) (evs : list event) :
  Forall is_fetch evs -> In e evs -> is_fetch e.
Proof. intros F I. rewrite Forall_forall in F. auto. Qed.

(** X7: a push request is never sent before its record is stored.  In
    every run of [stkPush] that issues the POST, the operation just
    before it is the accepted creation of a pending record that holds
    the very body being posted (as [requestBody]), the status
    "initiated" and no correlation identifier yet; before that the
    handler only read; after it comes at most the update of that same
    record.  There is one POST at most. *)
Theorem push_follows_its_snapshot
  (w : world) (req : request) (st : state)
  (r : outcome response) (st' : state) (evs : list event) :
  stkPush w req st = (r, st', evs) ->
  forall url body auth res,
    In (Http (POST url body auth) res) evs ->
    exists pre ref data rest,
      evs = pre ++ DocSet payments_pending ref data None
                   :: Http (POST url body auth) res :: rest
      /\ Forall is_fetch pre
      /\ In (lit "requestBody", Plain body) data
      /\ In (lit "status", Plain (VStr (lit "initiated"))) data
      /\ In (lit "checkoutRequestId", Plain VNull) data
      /\ (rest = []
          \/ exists status answer refused,
               res = Response status answer
               /\ rest = [DocUpdate payments_pending ref (push_update status answer)
                            refused]).
Proof.
  intros Run url body auth res I.
  apply stkPush_cases in Run. cbv zeta in Run.
  destruct Run as [[_ F]|[cfg [token [phone [st2 [pre [r0 [st0 [post
    [_ [_ [_ [_ [_ [F [Commit [-> _]]]]]]]]]]]]]]]]].
  { destruct (not_fetch_in _ _ F I). }
  apply in_app_or in I. destruct I as [I|I]; [destruct (not_fetch_in _ _ F I)|].
  apply push_commit_cases in Commit. cbv zeta in Commit.
  destruct Commit as [[e [_ [_ ->]]]|[[_ [_ [_ ->]]]|[[e [_ [_ ->]]]
    |[[hs [ans [e [_ [_ ->]]]]]|[hs [ans [_ [_ ->]]]]]]]];
    which_event I; try contradiction I; try discriminate I;
    injection I as <- <- <- <-;
    exists pre; eexists; eexists; eexists;
    (split; [reflexivity|]); (split; [exact F|]);
    unfold pending_record; cbn [In];
    (split; [tauto|]); (split; [tauto|]); (split; [tauto|]).
  - now left.
  - right. eauto.
  - right. eauto.
Qed.

(** The property at the first end-to-end scenario: the record is
    created, then the push is posted, then the record is updated. *)
Lemma push_follows_its_snapshot_witness :
  exists pre ref data url body auth res rest,
    snd (stkPush Sample.happy_world Sample.push_request Sample.fresh_state)
    = pre ++ DocSet payments_pending ref data None
             :: Http (POST url body auth) res :: rest
    /\ In (lit "requestBody", Plain body) data.
Proof.
  destruct (push_follows_its_snapshot Sample.happy_world Sample.push_request
              Sample.fresh_state _ _ _
              (triple_eta (stkPush Sample.happy_world Sample.push_request
                             Sample.fresh_state))
              (stkurl Sample.production_config)
              (stkBody_of Sample.production_config (body Sample.push_request)
                 (lit "254712345678") (VNum 100)
                 (makePassword (lit "174379") (VStr (lit "passkey"))
                    (lit "20240105090307"))
                 (lit "20240105090307"))
              (lit "Bearer token") Sample.push_answer_200)
    as [pre [ref [data [rest [E [_ [B _]]]]]]].
  - vm_compute. right. right. left. reflexivity.
  - exists pre, ref, data. do 5 eexists. split; [exact E|exact B].
Defined.

(** X8: what [stkPush] posts, for a request whose numbers are safe
    integers and whose amount reads as a safe integer (beyond them the
    language rounds, and nothing is said).  In every run that issues
    it, the POST goes to the push URL of the resolved bundle as it is
    (also when the token came from the sandbox host), with as Bearer
    the token that one of the token requests of the run was granted,
    the truthy [access_token] of a 2xx answer, which converts to text.
    Its body names the short code of the bundle as [BusinessShortCode]
    and [PartyB]; the normalized phone of the request (2547 followed by
    eight digits) as [PartyA] and [PhoneNumber], and as
    [AccountReference] unless the request gives one; the parsed amount,
    a non-zero safe integer; one clock reading as [Timestamp] and,
    encoded with the short code and the passkey, as [Password]; and
    "Payment" as description unless the request gives one. *)
Theorem push_body_is_consistent
  (w : world) (req : request) (st : state)
  (r : outcome response) (st' : state) (evs : list event) :
  stkPush w req st = (r, st', evs) ->
  exact (request_fields req) = true ->
  in_safe_range (prop (request_fields req) (lit "amount")) = true ->
  forall url body auth res,
    In (Http (POST url body auth) res) evs ->
    exists cfg token phone z n,
      fst (fst (getDarajaConfig w st)) = Ok cfg
      /\ url = stkurl cfg
      /\ ToString token = Ok (js_toString token)
      /\ auth = lit "Bearer " ++ js_toString token
      /\ truthy token = true
      /\ granted cfg token evs
      /\ normalizePhoneForDaraja (prop (request_fields req) (lit "phone")) = Ok phone
      /\ international_shape phone
      /\ parseInt_call (prop (request_fields req) (lit "amount")) = Ok (VNum z)
      /\ z <> 0
      /\ safe_integer z = true
      /\ body = VObj [
           (lit "BusinessShortCode", VStr (paybill cfg));
           (lit "Password",
            VStr (makePassword (paybill cfg) (passkey cfg)
                    (format_date (wall_clock w n))));
           (lit "Timestamp", VStr (format_date (wall_clock w n)));
           (lit "TransactionType", VStr (lit "CustomerPayBillOnline"));
           (lit "Amount", VNum z);
           (lit "PartyA", VStr phone);
           (lit "PartyB", VStr (paybill cfg));
           (lit "PhoneNumber", VStr phone);
           (lit "CallBackURL", callbackurl cfg);
           (lit "AccountReference",
            js_or (prop (request_fields req) (lit "accountRef")) (VStr phone));
           (lit "TransactionDesc",
            js_or (prop (request_fields req) (lit "description"))
                  (VStr (lit "Payment")))].
Proof.
  intros Run _ Range url body auth res I.
  apply stkPush_cases in Run. cbv zeta in Run.
  destruct Run as [[_ F]|[cfg [token [phone [st2 [pre [r0 [st0 [post
    [Cfg [Am [N [T [_ [F [Commit [-> [_ [_ [G Cv]]]]]]]]]]]]]]]]]]]].
  { destruct (not_fetch_in _ _ F I). }
  apply in_app_or in I. destruct I as [I|I]; [destruct (not_fetch_in _ _ F I)|].
  destruct (truthy_parseInt _ Am) as [z [Z NZ]].
  exists cfg, token, phone, z, (tick st2).
  pose proof (push_commit_bearer _ _ _ _ _ _ _ _ _ _ _ _ Commit _ _ I) as Tk.
  assert (E : url = stkurl cfg
              /\ body = stkBody_of cfg (request_fields req) phone
                          (parseInt (prop (request_fields req) (lit "amount")))
                          (makePassword (paybill cfg) (passkey cfg)
                             (format_date (wall_clock w (tick st2))))
                          (format_date (wall_clock w (tick st2)))
              /\ auth = lit "Bearer " ++ js_toString token).
  { apply push_commit_cases in Commit. cbv zeta in Commit.
    destruct Commit as [[e [_ [_ ->]]]|[[_ [_ [_ ->]]]|[[e [_ [_ ->]]]
      |[[hs [ans [e [_ [_ ->]]]]]|[hs [ans [_ [_ ->]]]]]]]];
      which_event I; try contradiction I; try discriminate I;
      injection I as <- <- <- <-; auto. }
  destruct E as [-> [-> ->]].
  split; [exact Cfg|]. split; [reflexivity|].
  split; [unfold ToString; now rewrite Tk|]. split; [reflexivity|].
  split; [exact T|].
  split.
  { destruct G as [turl [status [data [Ig G]]]]. exists turl, status, data.
    split; [apply in_or_app; now left|exact G]. }
  split; [exact N|].
  split; [apply re_intl_iff; exact (normalizePhone_re_intl _ _ N)|].
  split; [rewrite (parseInt_call_converts _ Cv); now rewrite Z|].
  split; [exact NZ|].
  split; [unfold in_safe_range in Range; now rewrite Z in Range|].
  unfold stkBody_of. now rewrite Z.
Qed.

(** The property at the first end-to-end scenario. *)
Lemma push_body_is_consistent_witness :
  exists cfg token phone z n,
    fst (fst (getDarajaConfig Sample.happy_world Sample.fresh_state)) = Ok cfg
    /\ stkurl Sample.production_config = stkurl cfg
    /\ ToString token = Ok (js_toString token)
    /\ lit "Bearer token" = lit "Bearer " ++ js_toString token
    /\ truthy token = true
    /\ granted cfg token
         (snd (stkPush Sample.happy_world Sample.push_request Sample.fresh_state))
    /\ normalizePhoneForDaraja
         (prop (request_fields Sample.push_request) (lit "phone")) = Ok phone
    /\ international_shape phone
    /\ parseInt_call (prop (request_fields Sample.push_request) (lit "amount"))
       = Ok (VNum z)
    /\ z <> 0
    /\ safe_integer z = true
    /\ stkBody_of Sample.production_config (body Sample.push_request)
         (lit "254712345678") (VNum 100)
         (makePassword (lit "174379") (VStr (lit "passkey")) (lit "20240105090307"))
         (lit "20240105090307")
       = VObj [
           (lit "BusinessShortCode", VStr (paybill cfg));
           (lit "Password",
            VStr (makePassword (paybill cfg) (passkey cfg)
                    (format_date (wall_clock Sample.happy_world n))));
           (lit "Timestamp", VStr (format_date (wall_clock Sample.happy_world n)));
           (lit "TransactionType", VStr (lit "CustomerPayBillOnline"));
           (lit "Amount", VNum z);
           (lit "PartyA", VStr phone);
           (lit "PartyB", VStr (paybill cfg));
           (lit "PhoneNumber", VStr phone);
           (lit "CallBackURL", callbackurl cfg);
           (lit "AccountReference",
            js_or (prop (request_fields Sample.push_request) (lit "accountRef"))
                  (VStr phone));
           (lit "TransactionDesc",
            js_or (prop (request_fields Sample.push_request) (lit "description"))
                  (VStr (lit "Payment")))].
Proof.
  apply (push_body_is_consistent Sample.happy_world Sample.push_request
           Sample.fresh_state _ _ _
           (triple_eta (stkPush Sample.happy_world Sample.push_request
                          Sample.fresh_state))
           eq_refl eq_refl
           (stkurl Sample.production_config)
           (stkBody_of Sample.production_config (body Sample.push_request)
              (lit "254712345678") (VNum 100)
              (makePassword (lit "174379") (VStr (lit "passkey"))
                 (lit "20240105090307"))
              (lit "20240105090307"))
           (lit "Bearer token") Sample.push_answer_200).
  vm_compute. right. right. left. reflexivity.
Defined.

Lemma value_neq_eqb (a other : value) : a <> other -> value_eqb a other = false.
Proof.
  intros N. destruct (value_eqb a other) eqn:E; [|reflexivity].
  apply value_eqb_eq in E. contradiction.
Qed.

(** X9: what [stkPush] may change in the store.  It never changes the
    configuration documents nor the callback results.  Of the pending
    transactions it changes nothing unless the store accepts the
    creation of the record; then exactly the document under the
    generated reference is created or replaced, every other pending
    transaction being as before. *)
Theorem stkPush_touches_one_pending_record
  (w : world) (req : request) (st : state)
  (r : outcome response) (st' : state) (evs : list event) :
  stkPush w req st = (r, st', evs) ->
  config_docs (db st') = config_docs (db st)
  /\ result_docs (db st') = result_docs (db st)
  /\ ((pending_docs (db st') = pending_docs (db st)
       /\ forall c id data, ~ In (DocSet c id data None) evs)
      \/ exists ref data doc,
           In (DocSet payments_pending ref data None) evs
           /\ pending_docs (db st') = put_doc ref doc (pending_docs (db st))
           /\ forall id, id <> ref ->
                find_doc id (pending_docs (db st'))
                = find_doc id (pending_docs (db st))).
Proof.
  intros Run.
  apply stkPush_cases in Run. cbv zeta in Run.
  destruct Run as [[D F]|[cfg [token [phone [st2 [pre [r0 [st0 [post
    [_ [_ [_ [_ [D2 [F [Commit [-> [D _]]]]]]]]]]]]]]]]]].
  { rewrite D. split; [reflexivity|]. split; [reflexivity|]. left.
    split; [reflexivity|]. intros c id data I. destruct (not_fetch_in _ _ F I). }
  rewrite D. apply push_commit_cases in Commit. cbv zeta in Commit.
  destruct Commit as [[e [_ [-> ->]]]|[[_ [_ [-> ->]]]|[[e [_ [-> ->]]]
    |[[hs [ans [e [_ [-> ->]]]]]|[hs [ans [_ [-> ->]]]]]]]]; store_simpl;
    rewrite ?D2; (split; [reflexivity|]); (split; [reflexivity|]).
  - left. split; [reflexivity|]. intros c id data I.
    apply in_app_or in I. destruct I as [I|I]; [destruct (not_fetch_in _ _ F I)|].
    which_event I; try contradiction I; discriminate I.
  - right. do 3 eexists. split; [apply in_or_app; right; left; reflexivity|].
    split; [reflexivity|]. intros id N. apply find_put_other. now apply value_neq_eqb.
  - right. do 3 eexists. split; [apply in_or_app; right; left; reflexivity|].
    split; [reflexivity|]. intros id N. apply find_put_other. now apply value_neq_eqb.
  - right. do 3 eexists. split; [apply in_or_app; right; left; reflexivity|].
    split; [reflexivity|]. intros id N. apply find_put_other. now apply value_neq_eqb.
  - right. do 3 eexists. split; [apply in_or_app; right; left; reflexivity|].
    rewrite put_doc_twice.
    split; [reflexivity|]. intros id N. apply find_put_other. now apply value_neq_eqb.
Qed.

(** The property at the first end-to-end scenario: one pending record
    is created in an empty store, and nothing else. *)
Lemma stkPush_touches_one_pending_record_witness :
  let run := stkPush Sample.happy_world Sample.push_request Sample.fresh_state in
  config_docs (db (snd (fst run))) = []
  /\ result_docs (db (snd (fst run))) = []
  /\ exists ref doc, pending_docs (db (snd (fst run))) = [(ref, doc)].
Proof.
  intros run.
  destruct (stkPush_touches_one_pending_record Sample.happy_world Sample.push_request
              Sample.fresh_state _ _ _ (triple_eta run))
    as [C [R [[_ N]|[ref [data [doc [_ [P _]]]]]]]].
  - exfalso. eapply N. vm_compute. right. left. reflexivity.
  - split; [exact C|]. split; [exact R|]. exists ref, doc. exact P.
Defined.

(** ** What the callback handler always does *)

Ltac all_accepted :=
  repeat match goal with
  | A : Forall accepted (_ :: _) |- _ => inversion A; clear A; subst
  | A : accepted _ |- _ => discriminate A
  end.

(** X10: [darajaCallback] never throws.  Whatever the request and the
    world, it ends with one of three answers, each with the CORS
    header: 204 with an empty body exactly for the pre-flight method,
    without any operation or change of state; 500 "error" exactly when
    the store refused one of its operations, with one line added to the
    error console; 200 "OK" otherwise, the console being as before. *)
Theorem darajaCallback_always_answers (w : world) (req : request) (st : state) :
  exists resp st' evs,
    darajaCallback w req st = (Ok resp, st', evs)
    /\ (resp = send 204 [] \/ resp = send 200 (lit "OK") \/ resp = send 500 (lit "error"))
    /\ headers resp = cors
    /\ (status resp = 204 <-> method req = lit "OPTIONS")
    /\ (status resp = 204 -> st' = st /\ evs = [])
    /\ (status resp = 500 <-> ~ Forall accepted evs)
    /\ (status resp = 500 -> exists err, console st' = console st ++ [err])
    /\ (status resp <> 500 -> console st' = console st).
Proof.
  destruct (str_eqb (method req) (lit "OPTIONS")) eqn:NO.
  { unfold darajaCallback. rewrite NO. apply str_eqb_eq in NO.
    exists (send 204 []), st, []. split; [reflexivity|]. split; [now left|].
    split; [reflexivity|]. split; [tauto|]. split; [auto|].
    split; [split; [discriminate|intros N; destruct N; constructor]|].
    split; [discriminate|reflexivity]. }
  assert (NM : method req <> lit "OPTIONS").
  { intros E. apply str_eqb_eq in E. congruence. }
  destruct (darajaCallback w req st) as [[r st'] evs] eqn:H.
  unfold darajaCallback in H. rewrite NO in H.
  callback_paths H; store_simpl;
    eexists; eexists; eexists; (split; [reflexivity|]);
    cbn [send status headers];
    (split; [auto|]); (split; [reflexivity|]);
    (split; [split; [discriminate|contradiction]|]);
    (split; [discriminate|]).
  all: split;
    [split;
     [try discriminate; intros _ A; all_accepted
     |try (intros _; reflexivity); intros N; destruct N; repeat constructor]
    |split; [try discriminate; intros _; eexists; reflexivity
            |try reflexivity; intros N; now destruct N]].
Qed.

(** What a run of the handler leaves in the store. *)
Lemma darajaCallback_store (w : world) (req : request) (st : state)
  (r : outcome response) (st' : state) (evs : list event) :
  str_eqb (method req) (lit "OPTIONS") = false ->
  darajaCallback w req st = (r, st', evs) ->
  let body := js_or (Daraja.body req) (VObj []) in
  let payload := callback_payload body in
  let cid := callback_checkoutRequestId payload in
  let docId := if truthy cid then cid else VStr (auto_id w (tick st)) in
  config_docs (db st') = config_docs (db st)
  /\ ((result_docs (db st') = result_docs (db st)
       /\ pending_docs (db st') = pending_docs (db st)
       /\ r = Ok (send 500 (lit "error")))
      \/ (exists t,
            result_docs (db st') =
              put_doc docId (VObj (stamp t (callback_record body)))
                (result_docs (db st)))
         /\ ((pending_docs (db st') = pending_docs (db st)
              /\ (r = Ok (send 500 (lit "error"))
                  \/ r = Ok (send 200 (lit "OK"))
                     /\ (truthy cid = false
                         \/ first_where (lit "checkoutRequestId") cid
                              (pending_docs (db st)) = None)))
             \/ (exists pdoc old t',
                   truthy cid = true
                   /\ first_where (lit "checkoutRequestId") cid
                        (pending_docs (db st)) = Some pdoc
                   /\ find_doc pdoc (pending_docs (db st)) = Some old
                   /\ pending_docs (db st') =
                        put_doc pdoc
                          (merge old (stamp t' (callback_update payload)))
                          (pending_docs (db st))
                   /\ r = Ok (send 200 (lit "OK")))))
  /\ (Forall accepted evs -> r = Ok (send 200 (lit "OK"))).
Proof.
  intros NO H. cbv zeta.
  unfold darajaCallback in H. rewrite NO in H.
  callback_paths H; store_simpl; (split; [reflexivity|]);
    (split; [|try reflexivity; intros A; all_accepted]).
  all: try (left; split; [reflexivity|]; split; reflexivity).
  all: right; (split; [eexists; reflexivity|]).
  all: try (left; split; [reflexivity|]; left; reflexivity).
  all: try (left; split; [reflexivity|]; right; split; [reflexivity|]; auto).
  right. do 3 eexists. split; [reflexivity|]. split; [eassumption|].
  split; [eassumption|]. split; reflexivity.
Qed.

(** X11: what [darajaCallback] may change in the store.  It never changes
    the configuration documents.  In the callback results it creates or
    replaces the one record under the correlation identifier (or under
    the generated key), every other record being as before.  It never
    creates or removes a pending transaction; it changes at most one,
    the one under the reference that the lookup by correlation
    identifier returned, and only by writing the four fields of the
    update into it. *)
Theorem darajaCallback_touches_one_record_each
  (w : world) (req : request) (st : state)
  (r : outcome response) (st' : state) (evs : list event) :
  darajaCallback w req st = (r, st', evs) ->
  let payload := callback_payload (js_or (Daraja.body req) (VObj [])) in
  let cid := callback_checkoutRequestId payload in
  let docId := if truthy cid then cid else VStr (auto_id w (tick st)) in
  config_docs (db st') = config_docs (db st)
  /\ (forall id, id <> docId ->
        find_doc id (result_docs (db st')) = find_doc id (result_docs (db st)))
  /\ map fst (pending_docs (db st')) = map fst (pending_docs (db st))
  /\ (pending_docs (db st') = pending_docs (db st)
      \/ exists pdoc old t,
           truthy cid = true
           /\ first_where (lit "checkoutRequestId") cid (pending_docs (db st))
              = Some pdoc
           /\ find_doc pdoc (pending_docs (db st)) = Some old
           /\ pending_docs (db st') =
                put_doc pdoc (merge old (stamp t (callback_update payload)))
                  (pending_docs (db st))).
Proof.
  intros H. cbv zeta.
  destruct (str_eqb (method req) (lit "OPTIONS")) eqn:NO.
  { unfold darajaCallback in H. rewrite NO in H. unfold ret in H.
    injection H as <- <- <-. auto. }
  destruct (darajaCallback_store _ _ _ _ _ _ NO H) as [C [S _]]. cbv zeta in S.
  split; [exact C|].
  destruct S as [[Rs [P _]]|[[t Rs] [[P _]|[pdoc [old [t' [T [Q [F [P _]]]]]]]]]];
    rewrite ?Rs, ?P.
  - auto.
  - split; [intros id N; apply find_put_other; now apply value_neq_eqb|]. auto.
  - split; [intros id N; apply find_put_other; now apply value_neq_eqb|].
    split; [now apply put_doc_keys with (old := old)|].
    right. exists pdoc, old, t'. auto.
Qed.

Lemma darajaCallback_touches_one_record_each_witness :
  let run := darajaCallback Sample.happy_world Sample.success_callback
               Sample.waiting_state in
  config_docs (db (snd (fst run))) = []
  /\ map fst (pending_docs (db (snd (fst run)))) = [VStr (lit "p1")].
Proof.
  intros run.
  destruct (darajaCallback_touches_one_record_each Sample.happy_world
              Sample.success_callback Sample.waiting_state _ _ _ (triple_eta run))
    as [C [_ [K _]]].
  split; [exact C|exact K].
Defined.

(** X12: a notification delivered again does not add a record.  When a
    delivery that carries a correlation identifier has been answered
    200, a further delivery of the same notification leaves the
    callback results with the same keys, and once accepted leaves under
    the identifier a record with the same raw body and extracted fields
    (the receipt time being that of the later delivery); it neither
    creates nor removes a pending transaction. *)
Theorem callback_redelivery_keeps_one_record
  (w : world) (req : request) (st st1 st2 : state)
  (r1 r2 : outcome response) (evs1 evs2 : list event) :
  darajaCallback w req st = (r1, st1, evs1) ->
  darajaCallback w req st1 = (r2, st2, evs2) ->
  let body := js_or (Daraja.body req) (VObj []) in
  let cid := callback_checkoutRequestId (callback_payload body) in
  truthy cid = true ->
  r1 = Ok (send 200 (lit "OK")) ->
  map fst (result_docs (db st2)) = map fst (result_docs (db st1))
  /\ map fst (pending_docs (db st2)) = map fst (pending_docs (db st))
  /\ (r2 = Ok (send 200 (lit "OK")) ->
      exists t,
        find_doc cid (result_docs (db st2))
        = Some (VObj (stamp t (callback_record body)))).
Proof.
  intros H1 H2. cbv zeta. intros T ->.
  destruct (str_eqb (method req) (lit "OPTIONS")) eqn:NO.
  { unfold darajaCallback in H1. rewrite NO in H1. discriminate H1. }
  destruct (darajaCallback_store _ _ _ _ _ _ NO H1) as [_ [S1 _]].
  destruct (darajaCallback_store _ _ _ _ _ _ NO H2) as [_ [S2 _]].
  cbv zeta in S1, S2. rewrite T in S1, S2.
  set (body := js_or (Daraja.body req) (VObj [])) in *.
  set (cid := callback_checkoutRequestId (callback_payload body)) in *.
  assert (K1 : map fst (pending_docs (db st1)) = map fst (pending_docs (db st))).
  { destruct S1 as [[_ [P _]]|[_ [[P _]|[pdoc [old [t' [_ [_ [F [P _]]]]]]]]]];
      rewrite P; [reflexivity|reflexivity|]. now apply put_doc_keys with (old := old). }
  assert (K2 : map fst (pending_docs (db st2)) = map fst (pending_docs (db st1))).
  { destruct S2 as [[_ [P _]]|[_ [[P _]|[pdoc [old [t' [_ [_ [F [P _]]]]]]]]]];
      rewrite P; [reflexivity|reflexivity|]. now apply put_doc_keys with (old := old). }
  assert (Stored : exists old, find_doc cid (result_docs (db st1)) = Some old).
  { destruct S1 as [[_ [_ R]]|[[t Rs] _]]; [discriminate R|].
    rewrite Rs. eexists. apply find_put_same. }
  destruct Stored as [old Stored].
  split; [|split; [congruence|]].
  - destruct S2 as [[Rs _]|[[t Rs] _]]; rewrite Rs; [reflexivity|].
    now apply put_doc_keys with (old := old).
  - intros ->. destruct S2 as [[_ [_ R]]|[[t Rs] _]]; [discriminate R|].
    exists t. rewrite Rs. apply find_put_same.
Qed.

(** The property at the second end-to-end scenario delivered twice. *)
Lemma callback_redelivery_keeps_one_record_witness :
  let first := darajaCallback Sample.happy_world Sample.success_callback
                 Sample.waiting_state in
  let second := darajaCallback Sample.happy_world Sample.success_callback
                  (snd (fst first)) in
  map fst (result_docs (db (snd (fst second)))) = [VStr (lit "abc123")]
  /\ map fst (pending_docs (db (snd (fst second)))) = [VStr (lit "p1")].
Proof.
  intros first second.
  destruct (callback_redelivery_keeps_one_record Sample.happy_world
              Sample.success_callback Sample.waiting_state _ _ _ _ _ _
              (triple_eta first) (triple_eta second) eq_refl eq_refl)
    as [R [P _]].
  split; [exact R|exact P].
Defined.

(** X13: a notification without correlation identifier is recorded and
    nothing more.  The only operation of the run is the creation of the
    callback-result record under a generated key; no pending
    transaction is looked up or changed; and when the store accepts the
    write and the key is new, the record is added after the existing
    ones, which stay as they are. *)
Theorem callback_without_identifier_only_records
  (w : world) (req : request) (st : state)
  (r : outcome response) (st' : state) (evs : list event) :
  str_eqb (method req) (lit "OPTIONS") = false ->
  darajaCallback w req st = (r, st', evs) ->
  let body := js_or (Daraja.body req) (VObj []) in
  let key := VStr (auto_id w (tick st)) in
  truthy (callback_checkoutRequestId (callback_payload body)) = false ->
  pending_docs (db st') = pending_docs (db st)
  /\ exists refused,
       evs = [DocSet payments_results key (callback_record body) refused]
       /\ (refused = None ->
           r = Ok (send 200 (lit "OK"))
           /\ (find_doc key (result_docs (db st)) = None ->
               exists t,
                 result_docs (db st') =
                 result_docs (db st) ++ [(key, VObj (stamp t (callback_record body)))])).
Proof.
  intros NO H. cbv zeta. intros T.
  unfold darajaCallback in H. rewrite NO in H.
  unfold darajaCallback_try in H. cbv beta zeta in H. rewrite T in H.
  unfold try_catch, bind, ret, doc_set, doc_new, console_error in H.
  cbn [tick next] in H.
  destruct (store_refuses w (S (tick st))) as [e|] eqn:R;
    cbn -[lit callback_record stamp put_doc] in H; injection H as <- <- <-;
    store_simpl; (split; [reflexivity|]); eexists; (split; [reflexivity|]).
  - discriminate.
  - intros _. split; [reflexivity|]. intros Fresh. eexists.
    now apply put_doc_new.
Qed.

Lemma callback_without_identifier_only_records_witness :
  let run := darajaCallback Sample.happy_world (Sample.post [(lit "ResultCode", VNum 1)])
               Sample.waiting_state in
  pending_docs (db (snd (fst run))) = pending_docs (db Sample.waiting_state)
  /\ length (snd run) = 1%nat.
Proof.
  intros run.
  destruct (callback_without_identifier_only_records Sample.happy_world
              (Sample.post [(lit "ResultCode", VNum 1)]) Sample.waiting_state
              _ _ _ eq_refl (triple_eta run) eq_refl)
    as [P [refused [E _]]].
  split; [exact P|]. now rewrite E.
Defined.

Lemma truthy_js_or (a b : value) : truthy (js_or a b) = truthy a || truthy b.
Proof. unfold js_or. destruct (truthy a) eqn:T; [exact T|reflexivity]. Qed.

Lemma js_or_null (a : value) : js_or a VNull = VNull \/ truthy (js_or a VNull) = true.
Proof. unfold js_or. destruct (truthy a) eqn:T; auto. Qed.

(** X14: the handler never reads a field of [null] or [undefined], and
    never stores a falsy field.  The body it works on and the payload
    it extracts from it are truthy for every request, so the three
    field reads are reads of a value; and each of the three extracted
    fields is either [null] or truthy: an empty text, a [false] and the
    number 0 in the notification are all recorded as [null]. *)
Theorem callback_fields_are_null_or_truthy (req : request) :
  let body := js_or (Daraja.body req) (VObj []) in
  let payload := callback_payload body in
  truthy body = true
  /\ truthy payload = true
  /\ (callback_checkoutRequestId payload = VNull
      \/ truthy (callback_checkoutRequestId payload) = true)
  /\ (callback_resultCode payload = VNull
      \/ truthy (callback_resultCode payload) = true)
  /\ (callback_resultDesc payload = VNull
      \/ truthy (callback_resultDesc payload) = true).
Proof.
  cbv zeta.
  assert (B : truthy (js_or (Daraja.body req) (VObj [])) = true).
  { rewrite truthy_js_or. apply orb_true_r. }
  split; [exact B|]. split.
  - unfold callback_payload.
    destruct (truthy (js_and _ _)) eqn:T.
    + rewrite truthy_js_and in T. apply andb_prop in T. tauto.
    + rewrite truthy_js_or, B. apply orb_true_r.
  - split; [|split]; apply js_or_null.
Qed.

(** ** From the push to its notification *)



(** ** The One-ISP module *)

Lemma oneisp_cfg_empty (p : OneIsp.peer) : OneIsp.cfg p = VObj [].
Proof. unfold OneIsp.cfg. now destruct (negb _). Qed.

Lemma oneIspGet_fails (p : OneIsp.peer) (route : jsstring) (n : nat) :
  OneIsp.oneIspGet p route n
  = (OneIsp.Failed (OneIsp.Raised OneIsp.oneisp_missing), n, []).
Proof.
  unfold OneIsp.oneIspGet, OneIsp.ONE_ISP_BASE, OneIsp.ONE_ISP_TOKEN.
  rewrite oneisp_cfg_empty. reflexivity.
Qed.

Lemma syncCustomer_fails (p : OneIsp.peer) (uid customerId accountNumber : value)
  (n : nat) :
  OneIsp.syncCustomer p uid customerId accountNumber n
  = (OneIsp.Failed
       (OneIsp.Raised (if converts customerId then OneIsp.oneisp_missing
                       else not_primitive)), n, []).
Proof.
  unfold OneIsp.syncCustomer, OneIsp.customer_route, ToString.
  destruct (converts customerId); [|reflexivity].
  cbn [and_then]. unfold OneIsp.call_bind at 1. unfold OneIsp.call_lift at 1.
  unfold OneIsp.call_bind at 1. now rewrite oneIspGet_fails.
Qed.

Lemma converts_nullish (v : value) :
  converts (OneIsp.nullish v (VStr [])) = converts v.
Proof. now destruct v. Qed.

Lemma falsy_converts (v : value) : truthy v = false -> converts v = true.
Proof. destruct v; try reflexivity; discriminate. Qed.

Lemma opt_prop_truthy (v : value) (k : jsstring) :
  truthy (OneIsp.opt_prop v k) = true -> prop v k = OneIsp.opt_prop v k.
Proof. destruct v; try reflexivity; discriminate. Qed.

(** The runs of [linkAndSyncAccount] for a signed-in caller. *)
Lemma linkAndSyncAccount_runs (p : OneIsp.peer) (req : OneIsp.call_request) (n : nat) :
  truthy (OneIsp.auth req) = true ->
  let uid := prop (OneIsp.auth req) (lit "uid") in
  let customer := OneIsp.opt_prop (OneIsp.data req) (lit "customerId") in
  let account := OneIsp.opt_prop (OneIsp.data req) (lit "accountNumber") in
  let code := OneIsp.opt_prop (OneIsp.data req) (lit "verificationCode") in
  let customerId := trim (js_toString (OneIsp.nullish customer (VStr []))) in
  let accountNumber :=
    if truthy account then VStr (trim (js_toString account)) else VUndefined in
  let verificationCode := trim (js_toString (OneIsp.nullish code (VStr []))) in
  let link :=
    OneIsp.DocMerge [VStr (lit "links"); uid]
      [(lit "customerId", Plain (VStr customerId));
       (lit "accountNumber", Plain accountNumber);
       (lit "verified", Plain (VBool true))] in
  OneIsp.linkAndSyncAccount p req n =
    if converts customer && converts account && converts code then
      if is_empty customerId || is_empty verificationCode
      then (OneIsp.Failed (OneIsp.HttpsError (lit "invalid-argument")
                             (lit "Missing customerId or verificationCode.")), n, [])
      else
        (OneIsp.Failed (OneIsp.Raised (match OneIsp.refuses p n with
                                       | Some e => e
                                       | None => OneIsp.oneisp_missing
                                       end)),
         S n, [link (OneIsp.refuses p n)])
    else (OneIsp.Failed (OneIsp.Raised not_primitive), n, []).
Proof.
  intros A. cbv zeta. unfold OneIsp.linkAndSyncAccount. rewrite A. cbn [negb].
  unfold OneIsp.call_bind at 1. unfold OneIsp.call_lift at 1. unfold ToString at 1.
  rewrite converts_nullish.
  destruct (converts (OneIsp.opt_prop (OneIsp.data req) (lit "customerId")));
    [|reflexivity].
  cbn [andb]. unfold OneIsp.call_bind at 1.
  destruct (truthy (OneIsp.opt_prop (OneIsp.data req) (lit "accountNumber"))) eqn:T.
  - rewrite (opt_prop_truthy _ _ T).
    unfold OneIsp.call_lift at 1. unfold ToString at 1.
    destruct (converts (OneIsp.opt_prop (OneIsp.data req) (lit "accountNumber")));
      [|reflexivity].
    cbn [and_then andb].
    unfold OneIsp.call_bind at 1. unfold OneIsp.call_lift at 1. unfold ToString at 1.
    rewrite converts_nullish.
    destruct (converts (OneIsp.opt_prop (OneIsp.data req) (lit "verificationCode")));
      [|reflexivity].
    cbn [app].
    destruct (is_empty _ || is_empty _); [reflexivity|].
    unfold OneIsp.call_bind, OneIsp.set_merge.
    destruct (OneIsp.refuses p n); [reflexivity|].
    now rewrite syncCustomer_fails.
  - rewrite (falsy_converts _ T). cbn [andb]. unfold OneIsp.call_ret at 1.
    unfold OneIsp.call_bind at 1. unfold OneIsp.call_lift at 1. unfold ToString at 1.
    rewrite converts_nullish.
    destruct (converts (OneIsp.opt_prop (OneIsp.data req) (lit "verificationCode")));
      [|reflexivity].
    cbn [app].
    destruct (is_empty _ || is_empty _); [reflexivity|].
    unfold OneIsp.call_bind, OneIsp.set_merge.
    destruct (OneIsp.refuses p n); [reflexivity|].
    now rewrite syncCustomer_fails.
Qed.

(** X16: as the module stands, [oneIspGet] can only fail.  Its runtime
    configuration is the empty object on both branches of the test of
    the environment, so base URL and token are the empty text; for
    every route, every environment and every peer the helper throws the
    configuration-missing error, requests nothing and changes
    nothing. *)
Theorem oneIspGet_always_fails (p : OneIsp.peer) (route : jsstring) (n : nat) :
  OneIsp.ONE_ISP_BASE p = VStr []
  /\ OneIsp.ONE_ISP_TOKEN p = VStr []
  /\ OneIsp.oneIspGet p route n
     = (OneIsp.Failed (OneIsp.Raised OneIsp.oneisp_missing), n, []).
Proof.
  split; [|split; [|apply oneIspGet_fails]].
  - unfold OneIsp.ONE_ISP_BASE. now rewrite oneisp_cfg_empty.
  - unfold OneIsp.ONE_ISP_TOKEN. now rewrite oneisp_cfg_empty.
Qed.

(** X23: [linkAndSyncAccount] never returns.  For request data whose
    numbers are safe integers: without [auth] it throws
    "unauthenticated"; when the customer id, the account number or the
    verification code does not convert to text (an object with a
    [toString] property of its own, also inside an array) it throws
    the TypeError of that conversion; with a blank customer id or a
    blank verification code it throws "invalid-argument"; in these
    cases it has done nothing.  Otherwise its one operation is the
    merge of the link document of the user, holding the customer id,
    the account number and [verified: true] (the verification code is
    not looked at beyond being non-blank); when the store refuses that
    write the call fails with the refusal, and when the store accepts
    it the call fails with the configuration-missing error of the
    sync, the link staying written.  No request is ever made to the
    peer and no customer document is ever written. *)
Theorem linkAndSyncAccount_never_returns
  (p : OneIsp.peer) (req : OneIsp.call_request) (n : nat) :
  exact (OneIsp.data req) = true ->
  let uid := prop (OneIsp.auth req) (lit "uid") in
  let customer := OneIsp.opt_prop (OneIsp.data req) (lit "customerId") in
  let account := OneIsp.opt_prop (OneIsp.data req) (lit "accountNumber") in
  let code := OneIsp.opt_prop (OneIsp.data req) (lit "verificationCode") in
  let readable := converts customer && converts account && converts code in
  let customerId := trim (js_toString (OneIsp.nullish customer (VStr []))) in
  let accountNumber :=
    if truthy account then VStr (trim (js_toString account)) else VUndefined in
  let verificationCode := trim (js_toString (OneIsp.nullish code (VStr []))) in
  let link :=
    OneIsp.DocMerge [VStr (lit "links"); uid]
      [(lit "customerId", Plain (VStr customerId));
       (lit "accountNumber", Plain accountNumber);
       (lit "verified", Plain (VBool true))] in
  exists t n' ops,
    OneIsp.linkAndSyncAccount p req n = (OneIsp.Failed t, n', ops)
    /\ (truthy (OneIsp.auth req) = false ->
        t = OneIsp.unauthenticated /\ ops = [] /\ n' = n)
    /\ (truthy (OneIsp.auth req) = true -> readable = false ->
        t = OneIsp.Raised not_primitive /\ ops = [] /\ n' = n)
    /\ (truthy (OneIsp.auth req) = true -> readable = true ->
        customerId = [] \/ verificationCode = [] ->
        t = OneIsp.HttpsError (lit "invalid-argument")
              (lit "Missing customerId or verificationCode.")
        /\ ops = [] /\ n' = n)
    /\ (truthy (OneIsp.auth req) = true -> readable = true ->
        customerId <> [] -> verificationCode <> [] ->
        ops = [link (OneIsp.refuses p n)]
        /\ t = OneIsp.Raised (match OneIsp.refuses p n with
                              | Some e => e
                              | None => OneIsp.oneisp_missing
                              end)).
Proof.
  intros _. cbv zeta.
  destruct (truthy (OneIsp.auth req)) eqn:A.
  2: { unfold OneIsp.linkAndSyncAccount. rewrite A. cbn [negb].
       do 3 eexists. split; [reflexivity|]. split; [auto|].
       split; [discriminate|]. split; discriminate. }
  rewrite (linkAndSyncAccount_runs p req n A). cbv zeta.
  destruct (converts (OneIsp.opt_prop (OneIsp.data req) (lit "customerId"))
            && converts (OneIsp.opt_prop (OneIsp.data req) (lit "accountNumber"))
            && converts (OneIsp.opt_prop (OneIsp.data req) (lit "verificationCode"))).
  2: { do 3 eexists. split; [reflexivity|]. split; [discriminate|].
       split; [auto|]. split; intros _ R; discriminate R. }
  set (customerId := trim (js_toString (OneIsp.nullish
         (OneIsp.opt_prop (OneIsp.data req) (lit "customerId")) (VStr [])))).
  set (verificationCode := trim (js_toString (OneIsp.nullish
         (OneIsp.opt_prop (OneIsp.data req) (lit "verificationCode")) (VStr [])))).
  destruct (is_empty customerId || is_empty verificationCode) eqn:B.
  - do 3 eexists. split; [reflexivity|]. split; [discriminate|].
    split; [intros _ R; discriminate R|].
    split; [auto|]. intros _ _ C V.
    destruct customerId; [now destruct C|]. destruct verificationCode; [now destruct V|].
    discriminate B.
  - apply orb_false_iff in B. destruct B as [C V].
    do 3 eexists. split; [reflexivity|]. split; [discriminate|].
    split; [intros _ R; discriminate R|].
    split; [|auto]. intros _ _ [E|E]; rewrite E in *; discriminate.
Qed.

(** The property at two requests against a store that accepts every
    write: the link of customer 42 is written and the call fails at the
    sync; a customer id that does not convert to text fails the call
    before anything is written. *)
Lemma linkAndSyncAccount_never_returns_witness :
  (exists n',
     OneIsp.linkAndSyncAccount OneIsp.accepting_peer OneIsp.link_request 0%nat
     = (OneIsp.Failed (OneIsp.Raised OneIsp.oneisp_missing), n',
        [OneIsp.DocMerge [VStr (lit "links"); VStr (lit "u1")]
           [(lit "customerId", Plain (VStr (lit "42")));
            (lit "accountNumber", Plain VUndefined);
            (lit "verified", Plain (VBool true))] None]))
  /\ OneIsp.linkAndSyncAccount OneIsp.accepting_peer OneIsp.unreadable_link_request
       0%nat
     = (OneIsp.Failed (OneIsp.Raised not_primitive), 0%nat, []).
Proof.
  split.
  - destruct (linkAndSyncAccount_never_returns OneIsp.accepting_peer
                OneIsp.link_request 0%nat eq_refl)
      as [t [n' [ops [Run [_ [_ [_ Linked]]]]]]].
    destruct Linked as [-> ->];
      [reflexivity|reflexivity|vm_compute; discriminate|vm_compute; discriminate|].
    exists n'. exact Run.
  - destruct (linkAndSyncAccount_never_returns OneIsp.accepting_peer
                OneIsp.unreadable_link_request 0%nat eq_refl)
      as [t [n' [ops [Run [_ [Unreadable _]]]]]].
    destruct (Unreadable eq_refl eq_refl) as [-> [-> ->]]. exact Run.
Defined.

(** X24: [refreshCustomerInfo] never returns either.  Without [auth]
    it throws "unauthenticated" and does nothing; otherwise its one
    operation is the read of the link document of the user, after
    which it fails: with the refusal of the store, with
    "failed-precondition" when the link does not exist or is not
    verified, and when it is, with the configuration-missing error of
    the sync, or, for a stored customer id that does not convert to
    text, with the TypeError of the route template before it.  It
    never writes and never makes a request to the peer. *)
Theorem refreshCustomerInfo_never_returns
  (p : OneIsp.peer) (req : OneIsp.call_request) (n : nat) :
  let uid := prop (OneIsp.auth req) (lit "uid") in
  let not_linked :=
    OneIsp.HttpsError (lit "failed-precondition") (lit "Account not linked.") in
  exists t n' ops,
    OneIsp.refreshCustomerInfo p req n = (OneIsp.Failed t, n', ops)
    /\ (truthy (OneIsp.auth req) = false ->
        t = OneIsp.unauthenticated /\ ops = [] /\ n' = n)
    /\ (truthy (OneIsp.auth req) = true ->
        ops = [OneIsp.DocRead [VStr (lit "links"); uid] (OneIsp.refuses p n)]
        /\ t = match OneIsp.refuses p n with
               | Some e => OneIsp.Raised e
               | None =>
                   match OneIsp.link_snapshot p n uid with
                   | None => not_linked
                   | Some linked =>
                       if truthy (OneIsp.opt_prop linked (lit "verified"))
                       then
                         if converts (prop linked (lit "customerId"))
                         then OneIsp.Raised OneIsp.oneisp_missing
                         else OneIsp.Raised not_primitive
                       else not_linked
                   end
               end).
Proof.
  cbv zeta. unfold OneIsp.refreshCustomerInfo.
  destruct (truthy (OneIsp.auth req)) eqn:A; cbn [negb].
  2: { do 3 eexists. split; [reflexivity|]. split; [auto|discriminate]. }
  unfold OneIsp.call_bind, OneIsp.get_link.
  destruct (OneIsp.refuses p n) as [e|].
  { do 3 eexists. split; [reflexivity|]. split; [discriminate|auto]. }
  destruct (OneIsp.link_snapshot p n (prop (OneIsp.auth req) (lit "uid")))
    as [linked|].
  2: { do 3 eexists. split; [reflexivity|]. split; [discriminate|auto]. }
  destruct (truthy (OneIsp.opt_prop linked (lit "verified"))); cbn [negb].
  - rewrite syncCustomer_fails.
    do 3 eexists. split; [reflexivity|]. split; [discriminate|].
    intros _. split; [reflexivity|].
    now destruct (converts (prop linked (lit "customerId"))).
  - do 3 eexists. split; [reflexivity|]. split; [discriminate|auto].
Qed.

(** ** More on config resolution and on the request *)

(** X17: the bundle depends on the environment and on the fallback
    document only.  Two resolutions against the same store contents,
    at whatever moments, that both succeed return the same bundle. *)
Theorem getDarajaConfig_is_repeatable
  (w : world) (st1 st2 : state) (c1 c2 : config)
  (s1 s2 : state) (e1 e2 : list event) :
  db st1 = db st2 ->
  getDarajaConfig w st1 = (Ok c1, s1, e1) ->
  getDarajaConfig w st2 = (Ok c2, s2, e2) ->
  c1 = c2.
Proof.
  intros D. unfold getDarajaConfig.
  match goal with |- context [if ?c then _ else _] => destruct c end.
  - unfold ret. intros [= <- _ _] [= <- _ _]. reflexivity.
  - unfold loadDarajaConfigFromFirestore. unfold bind, doc_get, ret, throw. cbv beta.
    rewrite D.
    destruct (store_refuses w (tick st1)); [discriminate|].
    destruct (store_refuses w (tick st2)); [intros _; discriminate|].
    destruct (find_doc _ _) as [data|]; [|discriminate].
    match goal with |- context [if ?c then _ else _] => destruct c end;
      [discriminate|].
    intros [= <- _ _] [= <- _ _]. reflexivity.
Qed.

(** The property at the deployment configured through the fallback
    document, resolved at two moments. *)
Lemma getDarajaConfig_is_repeatable_witness :
  fst (fst (getDarajaConfig Sample.fallback_world Sample.fallback_state))
  = fst (fst (getDarajaConfig Sample.fallback_world (next Sample.fallback_state))).
Proof.
  exact (f_equal Ok
           (getDarajaConfig_is_repeatable Sample.fallback_world Sample.fallback_state
              (next Sample.fallback_state) _ _ _ _ _ _ eq_refl eq_refl eq_refl)).
Defined.

(** X18: the body of the request, when it has fields, is all that
    [stkPush] reads: the query string is then ignored, also for fields
    that the body lacks.  Two requests with the same method and the
    same body of at least one field run alike, whatever their query
    strings. *)
Theorem stkPush_ignores_query_when_body_given
  (w : world) (req req' : request) (st : state) :
  method req = method req' ->
  body req = body req' ->
  truthy (body req) = true ->
  keys_length (body req) <> 0 ->
  request_fields req = body req
  /\ stkPush w req st = stkPush w req' st.
Proof.
  intros M B T K.
  assert (F : request_fields req = body req).
  { unfold request_fields. rewrite T. apply Z.eqb_neq in K. now rewrite K. }
  assert (F' : request_fields req' = body req).
  { unfold request_fields. rewrite <- B, T. apply Z.eqb_neq in K. now rewrite K. }
  split; [exact F|].
  unfold stkPush, stkPush_try. now rewrite M, F, F'.
Qed.

(** The property at a request whose body has the phone only, the
    amount being in the query string: the answer is 400. *)
Lemma stkPush_ignores_query_when_body_given_witness :
  stkPush Sample.happy_world
    {| method := lit "POST"; body := VObj [(lit "phone", VStr (lit "0712345678"))];
       query := [(lit "amount", VStr (lit "100"))] |} Sample.fresh_state
  = (Ok (json 400 (VObj [(lit "error", VStr (lit "phone and amount required"))])),
     Sample.fresh_state, []).
Proof.
  destruct (stkPush_ignores_query_when_body_given Sample.happy_world
              {| method := lit "POST";
                 body := VObj [(lit "phone", VStr (lit "0712345678"))];
                 query := [(lit "amount", VStr (lit "100"))] |}
              {| method := lit "POST";
                 body := VObj [(lit "phone", VStr (lit "0712345678"))];
                 query := [] |}
              Sample.fresh_state eq_refl eq_refl eq_refl) as [_ E].
  - discriminate.
  - rewrite E. reflexivity.
Defined.

(** ** The amount *)

Lemma take_while_digits (ds rest : jsstring) (c : Z) :
  forallb is_digit ds = true -> is_digit c = false ->
  take_while is_digit (ds ++ c :: rest) = ds.
Proof.
  intros D C. induction ds as [|d t IH]; cbn [app take_while].
  - now rewrite C.
  - cbn [forallb] in D. apply andb_prop in D. destruct D as [D1 D2].
    now rewrite D1, IH.
Qed.

Lemma take_while_all_digits (ds : jsstring) :
  forallb is_digit ds = true -> take_while is_digit ds = ds.
Proof.
  intros D. induction ds as [|d t IH]; [reflexivity|].
  cbn [forallb] in D. apply andb_prop in D. destruct D as [D1 D2].
  cbn [take_while]. now rewrite D1, IH.
Qed.

(** [parseInt] of a text that starts with a digit: the value of its
    leading digits. *)
Lemma parseInt_leading_digits (d : Z) (ds tail : jsstring) :
  forallb is_digit (d :: ds) = true ->
  match tail with [] => true | c :: _ => negb (is_digit c) end = true ->
  parseInt (VStr ((d :: ds) ++ tail)) = VNum (digits_value 0 (d :: ds)).
Proof.
  intros D T. unfold parseInt. cbn [js_toString app].
  pose proof D as D'. cbn [forallb] in D'. apply andb_prop in D'.
  destruct D' as [D1 D2].
  assert (S : is_space d = false).
  { destruct (is_space d) eqn:S; [|reflexivity].
    apply space_not_digit in S. congruence. }
  cbn [drop_while]. rewrite S.
  apply is_digit_iff in D1.
  assert (N1 : (d =? 45) = false) by (apply Z.eqb_neq; lia).
  assert (N2 : (d =? 43) = false) by (apply Z.eqb_neq; lia).
  rewrite N1, N2.
  assert (TW : take_while is_digit (d :: ds ++ tail) = d :: ds).
  { change (d :: ds ++ tail) with ((d :: ds) ++ tail).
    destruct tail as [|c rest].
    - rewrite app_nil_r. now apply take_while_all_digits.
    - apply take_while_digits; [exact D|]. now apply negb_true_iff. }
  rewrite TW. now rewrite Z.mul_1_l.
Qed.

(** X19: an amount is read up to its first character that is not a
    digit.  When the amount of the request is a text that starts with
    a digit, and the value of its leading digits is a safe integer
    (beyond them the language rounds the number read, and nothing is
    said), what [stkPush] stores and posts is the value of its leading
    digits: a fraction or a unit after them is dropped, not
    rejected. *)
Theorem amount_is_read_up_to_first_non_digit
  (w : world) (req : request) (st : state)
  (r : outcome response) (st' : state) (evs : list event)
  (d : Z) (ds tail : jsstring) :
  prop (request_fields req) (lit "amount") = VStr ((d :: ds) ++ tail) ->
  forallb is_digit (d :: ds) = true ->
  match tail with [] => true | c :: _ => negb (is_digit c) end = true ->
  safe_integer (digits_value 0 (d :: ds)) = true ->
  stkPush w req st = (r, st', evs) ->
  (forall id data refused,
     In (DocSet payments_pending id data refused) evs ->
     In (lit "amount", Plain (VNum (digits_value 0 (d :: ds)))) data)
  /\ (forall url body auth res,
        In (Http (POST url body auth) res) evs ->
        prop body (lit "Amount") = VNum (digits_value 0 (d :: ds))).
Proof.
  intros A D T _ Run.
  pose proof (parseInt_leading_digits d ds tail D T) as P. rewrite <- A in P.
  apply stkPush_cases in Run. cbv zeta in Run.
  destruct Run as [[_ F]|[cfg [token [phone [st2 [pre [r0 [st0 [post
    [_ [_ [_ [_ [_ [F [Commit [-> _]]]]]]]]]]]]]]]]].
  { split; intros; match goal with I : In _ _ |- _ => destruct (not_fetch_in _ _ F I) end. }
  rewrite P in Commit.
  apply push_commit_cases in Commit. cbv zeta in Commit.
  split.
  - intros id data refused I.
    apply in_app_or in I. destruct I as [I|I]; [destruct (not_fetch_in _ _ F I)|].
    destruct Commit as [[e [_ [_ ->]]]|[[_ [_ [_ ->]]]|[[e [_ [_ ->]]]
      |[[hs [ans [e [_ [_ ->]]]]]|[hs [ans [_ [_ ->]]]]]]]];
      which_event I; try contradiction I; try discriminate I;
      injection I as <- <- <-; unfold pending_record; cbn [In]; tauto.
  - intros url body auth res I.
    apply in_app_or in I. destruct I as [I|I]; [destruct (not_fetch_in _ _ F I)|].
    destruct Commit as [[e [_ [_ ->]]]|[[_ [_ [_ ->]]]|[[e [_ [_ ->]]]
      |[[hs [ans [e [_ [_ ->]]]]]|[hs [ans [_ [_ ->]]]]]]]];
      which_event I; try contradiction I; try discriminate I;
      injection I as <- <- <- <-; reflexivity.
Qed.

(** The property at an amount of 12.75: the record holds 12. *)
Lemma amount_is_read_up_to_first_non_digit_witness :
  let run := stkPush Sample.happy_world
               (Sample.post [(lit "phone", VStr (lit "0712345678"));
                             (lit "amount", VStr (lit "12.75"))])
               Sample.fresh_state in
  exists id data,
    In (DocSet payments_pending id data None) (snd run)
    /\ In (lit "amount", Plain (VNum 12)) data.
Proof.
  intros run.
  assert (I : exists id data, In (DocSet payments_pending id data None) (snd run)).
  { vm_compute. do 2 eexists. right. left. reflexivity. }
  destruct I as [id [data I]]. exists id, data. split; [exact I|].
  exact (proj1 (amount_is_read_up_to_first_non_digit Sample.happy_world
                  (Sample.post [(lit "phone", VStr (lit "0712345678"));
                                (lit "amount", VStr (lit "12.75"))])
                  Sample.fresh_state _ _ _ 49 [50] (lit ".75")
                  eq_refl eq_refl eq_refl eq_refl (triple_eta run))
           id data None I).
Defined.

(** ** Failures and statuses *)

Lemma env_test (w : world) :
  truthy
    (js_and (js_and (js_and (js_and (js_and (js_and
       (getenv w "DARAJA_CONSUMER_KEY") (getenv w "DARAJA_CONSUMER_SECRET"))
       (getenv w "DARAJA_PASSKEY")) (getenv w "DARAJA_PAYBILL"))
       (getenv w "DARAJA_OAUTHURL")) (getenv w "DARAJA_STKURL"))
       (getenv w "DARAJA_CALLBACKURL")) = env_complete w.
Proof.
  unfold env_complete, env_names. cbn [forallb].
  rewrite !truthy_js_and, andb_true_r, !andb_assoc. reflexivity.
Qed.

Lemma doc_test (data : value) :
  truthy
    (js_and (js_and (js_and (js_and (js_and (js_and (js_and data
       (prop data (lit "consumerKey"))) (prop data (lit "consumerSecret")))
       (prop data (lit "passkey"))) (prop data (lit "paybill")))
       (prop data (lit "oauthurl"))) (prop data (lit "stkurl")))
       (prop data (lit "callbackurl"))) = doc_complete data.
Proof.
  unfold doc_complete, doc_fields. cbn [forallb].
  rewrite !truthy_js_and, andb_true_r, !andb_assoc.
  destruct data; cbn [prop truthy andb]; rewrite ?andb_false_r; reflexivity.
Qed.

(** The conversion of the amount comes before everything else: the
    amount [[5, {toString: 1}]] would read as 5, but its conversion
    throws, and the handler answers 502 with that TypeError without
    looking at the configuration. *)
Lemma unconvertible_amount_precedes_config :
  let req := Sample.post [(lit "phone", VStr (lit "0712345678"));
                          (lit "amount",
                           VArr [VNum 5; VObj [(lit "toString", VNum 1)]])] in
  let run := stkPush Sample.fallback_world req Sample.fresh_state in
  truthy (parseInt (prop (request_fields req) (lit "amount"))) = true
  /\ fst (fst run) =
       Ok (json 502 (VObj [(lit "error", VStr (lit "stk_push_failed"));
                           (lit "details",
                            VStr (lit "Cannot convert object to primitive value"))]))
  /\ snd run = [].
Proof. cbv zeta. split; [reflexivity|]. split; vm_compute; reflexivity. Qed.

(** X20: a deployment without configuration answers 502 and touches
    nothing.  When a request passes the input check (its amount
    converts to text and reads as a non-zero number) while the
    environment lacks one of the seven values and the fallback
    document, read without refusal, is missing or lacks a field,
    [stkPush] answers 502 with the failure code and the
    configuration-missing message as details, logs that error, and its
    only operation is the read of the fallback document: no token is
    asked for, nothing is written and nothing is posted. *)
Theorem stkPush_reports_missing_config
  (w : world) (req : request) (st : state) :
  str_eqb (method req) (lit "OPTIONS") = false ->
  truthy (prop (request_fields req) (lit "phone")) = true ->
  converts (prop (request_fields req) (lit "amount")) = true ->
  truthy (parseInt (prop (request_fields req) (lit "amount"))) = true ->
  env_complete w = false ->
  store_refuses w (tick st) = None ->
  match find_doc (VStr (lit "daraja")) (config_docs (db st)) with
  | Some data => doc_complete data
  | None => false
  end = false ->
  stkPush w req st =
    (Ok (json 502 (VObj [
       (lit "error", VStr (lit "stk_push_failed"));
       (lit "details", VStr (lit
          "Daraja config missing. Set secrets or populate app_config/daraja in Firestore."))])),
     {| db := db st; tick := S (tick st); console := console st ++ [config_missing] |},
     [DocGet app_config (VStr (lit "daraja")) None]).
Proof.
  intros NO P Cv A E R D.
  unfold stkPush. rewrite NO. unfold try_catch, stkPush_try. cbv zeta.
  rewrite (parseInt_call_converts _ Cv). unfold bind at 1, lift.
  rewrite P, A. cbn [negb orb].
  unfold bind at 1. unfold getDarajaConfig. rewrite env_test, E.
  unfold loadDarajaConfigFromFirestore, bind, doc_get, ret, throw, console_error.
  cbv beta. rewrite R. cbn [docs].
  destruct (find_doc (VStr (lit "daraja")) (config_docs (db st))) as [data|].
  - rewrite doc_test, D. reflexivity.
  - reflexivity.
Qed.

Lemma stkPush_reports_missing_config_witness :
  exists st',
    stkPush Sample.fallback_world Sample.push_request Sample.fresh_state =
    (Ok (json 502 (VObj [
       (lit "error", VStr (lit "stk_push_failed"));
       (lit "details", VStr (lit
          "Daraja config missing. Set secrets or populate app_config/daraja in Firestore."))])),
     st', [DocGet app_config (VStr (lit "daraja")) None]).
Proof.
  eexists.
  apply (stkPush_reports_missing_config Sample.fallback_world Sample.push_request
           Sample.fresh_state eq_refl eq_refl eq_refl eq_refl eq_refl eq_refl eq_refl).
Defined.

Ltac status_entry :=
  let f := fresh "f" in
  intros f; split;
  [ intros I; cbn [In] in I;
    repeat match type of I with
    | _ \/ _ => destruct I as [I|I]
    | False => destruct I
    | (_, _) = (_, _) => first [discriminate I | injection I as <-; reflexivity]
    end
  | intros ->; cbn [In]; tauto ].

(** X21: the statuses a pending transaction is given.  Whatever the
    run, [stkPush] creates a pending record only with the status
    "initiated" and updates it only to "pending" or "failed";
    [darajaCallback] creates no pending record and updates one only to
    "failed".  No run of either handler writes the status "success". *)
Theorem pending_status_values
  (w : world) (req : request) (st : state)
  (r : outcome response) (st' : state) (evs : list event)
  (id : value) (data : record) (refused : option exn) :
  (stkPush w req st = (r, st', evs) ->
     (In (DocSet payments_pending id data refused) evs ->
      forall f, In (lit "status", f) data <-> f = Plain (VStr (lit "initiated")))
     /\ (In (DocUpdate payments_pending id data refused) evs ->
         exists s,
           (forall f, In (lit "status", f) data <-> f = Plain (VStr s))
           /\ (s = lit "pending" \/ s = lit "failed")))
  /\ (darajaCallback w req st = (r, st', evs) ->
      ~ In (DocSet payments_pending id data refused) evs
      /\ (In (DocUpdate payments_pending id data refused) evs ->
          forall f, In (lit "status", f) data <-> f = Plain (VStr (lit "failed")))).
Proof.
  split.
  - intros Run. apply stkPush_cases in Run. cbv zeta in Run.
    destruct Run as [[_ F]|[cfg [token [phone [st2 [pre [r0 [st0 [post
      [_ [_ [_ [_ [_ [F [Commit [-> _]]]]]]]]]]]]]]]]].
    { split; intros I; destruct (not_fetch_in _ _ F I). }
    apply push_commit_cases in Commit. cbv zeta in Commit.
    split; intros I; (apply in_app_or in I; destruct I as [I|I];
                      [destruct (not_fetch_in _ _ F I)|]);
      destruct Commit as [[e [_ [_ ->]]]|[[_ [_ [_ ->]]]|[[e [_ [_ ->]]]
        |[[hs [ans [e [_ [_ ->]]]]]|[hs [ans [_ [_ ->]]]]]]]];
      which_event I; try contradiction I; try discriminate I;
      injection I as <- <- <-.
    all: try (unfold pending_record; status_entry).
    all: exists (push_status hs); (split; [unfold push_update; status_entry|]);
         unfold push_status; destruct ((200 <=? hs) && (hs <? 300)); auto.
  - intros Run.
    destruct (str_eqb (method req) (lit "OPTIONS")) eqn:NO.
    { unfold darajaCallback in Run. rewrite NO in Run. unfold ret in Run.
      injection Run as <- <- <-. split; intros I; destruct I. }
    unfold darajaCallback in Run. rewrite NO in Run.
    callback_paths Run; (split; [intros I|intros I]);
      which_event I; try contradiction I; try discriminate I;
      injection I as <- <- <-;
      unfold callback_update; rewrite callback_status_failed; status_entry.
Qed.

(** The property at the second end-to-end scenario, a notification
    with result code 0: the update it makes writes "failed". *)
Lemma pending_status_values_witness :
  In (lit "status", Plain (VStr (lit "failed")))
     (callback_update (callback_payload (body Sample.success_callback))).
Proof.
  pose (run := darajaCallback Sample.happy_world Sample.success_callback
                 Sample.waiting_state).
  destruct (pending_status_values Sample.happy_world Sample.success_callback
              Sample.waiting_state (fst (fst run)) (snd (fst run)) (snd run)
              (VStr (lit "p1"))
              (callback_update (callback_payload (body Sample.success_callback))) None)
    as [_ Back].
  destruct (Back (triple_eta run)) as [_ Updated].
  apply Updated; [|reflexivity].
  vm_compute. right. right. left. reflexivity.
Defined.
